(** * The JDAT notebooks: MRS pipeline and NIRISS AMI pipeline

    A shallow embedding of the code cells of the two notebooks
    (the MRS notebook, [part_000], and [2_niriss_ami_binary.ipynb]) and
    the properties of their orchestration logic.

    The notebooks sequence calls into external libraries (urllib,
    tarfile, zipfile, the JWST pipeline, astropy.io.fits, ImPlaneIA).
    Those calls are opaque here: every one of them is logged in a
    trace, its outcome is read from a record of external behaviours,
    and its effect on the files on disk is applied to a finite map.
    What is modelled in full is the notebooks' own code: the guards, the
    loops, the string and path manipulation and the order of the calls. *)

From Stdlib Require Import Ascii String QArith_base.
From stdpp Require Import gmap strings list fin_maps pretty sorting.

(** ** Python strings

    [str.split], [str.count] and [str.replace] scan left to right and
    never look at an occurrence that overlaps the previous one.  The
    scanners below walk the string once; [skip] counts the characters of
    a separator just recognised that are still to be passed over.  They
    follow Python for a non-empty separator, which is all the notebooks
    use. *)

Module Py.

Definition startswith (p s : string) : bool := String.prefix p s.
Global Arguments startswith : simpl never.

Fixpoint split_at (sep : string) (skip : nat) (cur s : string) {struct s}
  : list string :=
  match s with
  | EmptyString => [cur]
  | String c s' =>
      match skip with
      | S k => split_at sep k cur s'
      | O =>
          if startswith sep s
          then cur :: split_at sep (String.length sep - 1) "" s'
          else split_at sep 0 (cur +:+ String c "") s'
      end
  end.

(** [s.split(sep)] *)
Definition split (sep s : string) : list string := split_at sep 0 "" s.

Fixpoint count_at (sep : string) (skip : nat) (s : string) {struct s} : nat :=
  match s with
  | EmptyString => 0
  | String c s' =>
      match skip with
      | S k => count_at sep k s'
      | O =>
          if startswith sep s
          then S (count_at sep (String.length sep - 1) s')
          else count_at sep 0 s'
      end
  end.

(** [s.count(sep)] *)
Definition count (sep s : string) : nat := count_at sep 0 s.

Fixpoint replace_at (old new : string) (skip : nat) (s : string) {struct s}
  : string :=
  match s with
  | EmptyString => ""
  | String c s' =>
      match skip with
      | S k => replace_at old new k s'
      | O =>
          if startswith old s
          then new +:+ replace_at old new (String.length old - 1) s'
          else String c (replace_at old new 0 s')
      end
  end.

(** [s.replace(old, new)] *)
Definition replace (old new s : string) : string := replace_at old new 0 s.

(** The positions at which [sep] occurs in [s], overlapping or not,
    counted. *)
Fixpoint occurrences (sep s : string) : nat :=
  match s with
  | EmptyString => 0
  | String _ s' =>
      (if startswith sep s then 1 else 0) + occurrences sep s'
  end.

Fixpoint drop (n : nat) (s : string) : string :=
  match n, s with
  | S k, String _ s' => drop k s'
  | _, _ => s
  end.

(** [s.partition(sep)]: the text before the first occurrence and the
    text after it. *)
Fixpoint partition (sep s : string) : option (string * string) :=
  if startswith sep s
  then Some ("", drop (String.length sep) s)
  else match s with
       | EmptyString => None
       | String c s' =>
           match partition sep s' with
           | Some (a, b) => Some (String c a, b)
           | None => None
           end
       end.

(** A blank, as [str.strip] sees it. *)
Definition is_space (c : ascii) : bool :=
  let n := nat_of_ascii c in
  (Nat.leb 9 n && Nat.leb n 13) || (Nat.leb 28 n && Nat.leb n 32).

Fixpoint lstrip (s : string) : string :=
  match s with
  | EmptyString => ""
  | String c s' => if is_space c then lstrip s' else s
  end.

Fixpoint rstrip (s : string) : string :=
  match s with
  | EmptyString => ""
  | String c s' =>
      match rstrip s' with
      | EmptyString => if is_space c then "" else String c ""
      | r => String c r
      end
  end.

(** [s.strip()] *)
Definition strip (s : string) : string := lstrip (rstrip s).

Definition upper_char (c : ascii) : ascii :=
  let n := nat_of_ascii c in
  if Nat.leb 97 n && Nat.leb n 122 then ascii_of_nat (n - 32) else c.

(** [s.upper()] *)
Fixpoint upper (s : string) : string :=
  match s with
  | EmptyString => ""
  | String c s' => String (upper_char c) (upper s')
  end.

(** Exceptions that reach the top of a cell. [ValueError] is raised by
    the interpreter when a two-name unpacking meets a list of another
    length, [KeyError] and [IndexError] by a subscript that finds
    nothing; everything else comes out of an external call and is
    carried by name. *)
Inductive exn :=
  | ValueError
  | KeyError
  | IndexError
  | Raised (name : string).

Inductive result (A : Type) :=
  | Ok (a : A)
  | Err (e : exn).
Arguments Ok {A} a.
Arguments Err {A} e.

(** [a, b = l] *)
Definition unpack2 (l : list string) : result (string * string) :=
  match l with
  | [a; b] => Ok (a, b)
  | _ => Err ValueError
  end.

(** [l[i]] *)
Definition subscript {A} (l : list A) (i : nat) : result A :=
  match l !! i with
  | Some a => Ok a
  | None => Err IndexError
  end.

End Py.


(** ** Paths

    [pathlib.Path] and the operating system name the same file by
    ["./x"] and ["x"], and a directory by ["d"] and ["d/"].  Files on
    disk are keyed by the normalised name. *)

Module Path.

Fixpoint strip_slash (s : string) : string :=
  match s with
  | EmptyString => ""
  | String c s' =>
      match strip_slash s' with
      | EmptyString => if Ascii.eqb c "/"%char then "" else String c ""
      | r => String c r
      end
  end.

Definition norm (p : string) : string :=
  let q := strip_slash p in
  if Py.startswith "./" q then Py.drop 2 q else q.

(** [Path(s)] *)
Definition of_string (s : string) : string := norm s.

(** [d / n] *)
Definition joinpath (d n : string) : string :=
  if String.eqb d "." then n else d +:+ "/" +:+ n.

(** [p.name], the last component. *)
Definition name (p : string) : string := List.last (Py.split "/" p) "".

(** [p] is written with a trailing slash, which only a directory
    answers to. *)
Definition wants_dir (p : string) : bool :=
  negb (String.eqb (strip_slash p) p).

End Path.

(** ** glob

    A pattern and a candidate are compared component by component;
    within a component [*] stands for any run of characters, and a name
    that begins with a dot is only met by a pattern that begins with
    one.  The notebooks' patterns use no other wildcard. *)

Module Glob.

Fixpoint wild (pat s : string) {struct pat} : bool :=
  match pat with
  | EmptyString => match s with EmptyString => true | _ => false end
  | String p pat' =>
      if Ascii.eqb p "*"%char
      then (fix star (s : string) : bool :=
              wild pat' s ||
              match s with
              | EmptyString => false
              | String _ s' => star s'
              end) s
      else match s with
           | EmptyString => false
           | String c s' => Ascii.eqb p c && wild pat' s'
           end
  end.

Definition component (pat s : string) : bool :=
  (negb (Py.startswith "." s) || Py.startswith "." pat) && wild pat s.

Fixpoint components (pats ss : list string) : bool :=
  match pats, ss with
  | [], [] => true
  | p :: pats', s :: ss' => component p s && components pats' ss'
  | _, _ => false
  end.

Definition matches (pat path : string) : bool :=
  components (Py.split "/" pat) (Py.split "/" path).

Fixpoint insert_sorted (x : string) (l : list string) : list string :=
  match l with
  | [] => [x]
  | y :: l' => if String.leb x y then x :: l else y :: insert_sorted x l'
  end.

(** [sorted(l)] *)
Definition sorted (l : list string) : list string :=
  foldr insert_sorted [] l.

End Glob.

(** ** Files on disk

    A name on the disk is a file or a directory; links are not
    modelled. *)

(** A header card holds a string or a number.  Numbers are only handed
    on by the notebooks, never computed with. *)
Inductive hval :=
  | HStr (s : string)
  | HNum (x : Q).

Record hdu := { extname : string; header : gmap string hval }.

Inductive content :=
  | Bytes (b : string)
  | Fits (hdus : list hdu).

Inductive node :=
  | File (c : content)
  | Dir.

Definition norm_key (w : string * node) : string * node :=
  (Path.norm w.1, w.2).

(** Writing a batch of files, in the order given. *)
Definition write_all (ws : list (string * node)) (d : gmap string node)
  : gmap string node :=
  foldl (fun acc w => <[Path.norm w.1 := w.2]> acc) d ws.

(** [os.path.exists(p)] *)
Definition path_exists (d : gmap string node) (p : string) : bool :=
  match d !! Path.norm p with
  | Some Dir => true
  | Some (File _) => negb (Path.wants_dir p)
  | None => false
  end.

(** ** What the notebooks ask of the outside *)

Inductive stage := Detector1 | Image2 | Spec2 | Spec3.

Global Instance stage_eq_dec : EqDecision stage.
Proof. solve_decision. Defined.

(** A pipeline object is the attributes assigned to it. *)
Inductive attr :=
  | ABool (b : bool)
  | AStr (s : string).

(** The arguments [raw_observables] builds its [FringeFitter] from. *)
Record fitter := {
  usebp : bool;
  firstfew : option nat;
  oitdir : string;
  oifdir : string;
  oversample : nat;
  interactive : bool;
  save_txt_only : bool
}.

Inductive call :=
  | Print (text : string)
  | Show (what : string)
  | Urlretrieve (url filename : string)
  | Extractall (archive : string)
  | Mkdir (p : string)
  | Run (st : stage) (cfg : gmap string attr) (input : string)
  | Detect (cube : string)
  | FitsOpen (p : string)
  | Writeto (p : string) (overwrite : bool)
  | AsnFromList (members : list string) (product_name : string)
  | WriteText (p : string)
  | CorrectFitsfiles (indir odir : string)
  | Getheader (p : string)
  | Setval (p key value : string)
  | FitFringes (ff : fitter) (p : string)
  | CalibrateOifits (targ cal dir : string).

(** One line of the trace: the call and the exception it raised, if
    any. *)
Record entry := { what : call; failed : option Py.exn }.

(** What a black box did: the files it wrote and whether it raised. *)
Record outcome := {
  written : list (string * node);
  raised : option Py.exn
}.

Definition wrote (ws : list (string * node)) : outcome :=
  {| written := ws; raised := None |}.

Definition threw (e : Py.exn) : outcome :=
  {| written := []; raised := Some e |}.

(** The behaviour of the libraries and of the network.  Nothing is
    assumed of it. *)
Record externals := {
  fetch : string -> Py.result content;
  members : content -> Py.result (list (string * node));
  pipeline : stage -> gmap string attr -> string -> gmap string node -> outcome;
  brightest : string -> gmap string node -> Py.result (Q * Q);
  asn_dump : list string -> string -> Py.result string;
  bp_fix : string -> string -> gmap string node -> outcome;
  fringes : fitter -> string -> gmap string node -> outcome;
  calibrate : string -> string -> string -> gmap string node -> outcome;
  viewer : string -> gmap string node -> option Py.exn
}.

(** ** Cells as computations

    A computation reads and writes the disk, may stop on an exception,
    and yields the trace of the calls it made. *)

Definition M (A : Type) : Type :=
  gmap string node -> Py.result A * gmap string node * list entry.

Definition ret {A} (a : A) : M A := fun d => (Py.Ok a, d, []).

Definition raise {A} (e : Py.exn) : M A := fun d => (Py.Err e, d, []).

Definition bind {A B} (m : M A) (k : A -> M B) : M B := fun d =>
  match m d with
  | (Py.Ok a, d1, t1) =>
      match k a d1 with
      | (r, d2, t2) => (r, d2, t1 ++ t2)
      end
  | (Py.Err e, d1, t1) => (Py.Err e, d1, t1)
  end.

Declare Scope nb_scope.
Delimit Scope nb_scope with nb.
Bind Scope nb_scope with M.

Notation "x <- m ;; k" := (bind m (fun x => k))
  (at level 100, m at next level, right associativity) : nb_scope.
Notation "m ;; k" := (bind m (fun _ => k))
  (at level 100, right associativity) : nb_scope.

Definition lift {A} (r : Py.result A) : M A :=
  match r with
  | Py.Ok a => ret a
  | Py.Err e => raise e
  end.

(** [for x in l: body] *)
Fixpoint for_ {A} (l : list A) (body : A -> M unit) : M unit :=
  match l with
  | [] => ret tt
  | x :: l' => (body x ;; for_ l' body)%nb
  end.

(** A loop that keeps assigning to one object made before it. *)
Fixpoint for_with {A S} (l : list A) (s : S) (body : S -> A -> M S) : M S :=
  match l with
  | [] => ret s
  | x :: l' => (s' <- body s x ;; for_with l' s' body)%nb
  end.

Definition result_of {A} (x : Py.result A * gmap string node * list entry)
  : Py.result A := x.1.1.
Definition disk_of {A} (x : Py.result A * gmap string node * list entry)
  : gmap string node := x.1.2.
Definition trace_of {A} (x : Py.result A * gmap string node * list entry)
  : list entry := x.2.

(** ** The calls *)

Section Calls.

Context (ext : externals).

(** A call into a black box: it is logged, what it wrote reaches the
    disk, and its exception, if any, stops the cell. *)
Definition emit (c : call) (o : outcome) : M unit := fun d =>
  (match raised o with
   | None => Py.Ok tt
   | Some e => Py.Err e
   end,
   write_all (written o) d,
   [{| what := c; failed := raised o |}]).

(** [os.path.exists(p)] *)
Definition exists_ (p : string) : M bool := fun d =>
  (Py.Ok (path_exists d p), d, []).

(** [print(text)] *)
Definition print (text : string) : M unit := emit (Print text) (wrote []).

(** Printing, plotting or inspecting values that are not modelled. *)
Definition show (what : string) : M unit := fun d =>
  emit (Show what)
       {| written := []; raised := viewer ext what d |} d.

(** [urllib.request.urlretrieve(url, filename)] *)
Definition urlretrieve (url filename : string) : M unit :=
  emit (Urlretrieve url filename)
       (match fetch ext url with
        | Py.Ok c => wrote [(filename, File c)]
        | Py.Err e => threw e
        end).

(** Opening an archive and [extractall()]. *)
Definition extractall (archive : string) : M unit := fun d =>
  emit (Extractall archive)
       (match d !! Path.norm archive with
        | Some (File c) =>
            match members ext c with
            | Py.Ok ws => wrote ws
            | Py.Err e => threw e
            end
        | Some Dir => threw (Py.Raised "IsADirectoryError")
        | None => threw (Py.Raised "FileNotFoundError")
        end) d.

(** [os.mkdir(p)] *)
Definition mkdir (p : string) : M unit := fun d =>
  emit (Mkdir p)
       (match d !! Path.norm p with
        | None => wrote [(p, Dir)]
        | Some _ => threw (Py.Raised "FileExistsError")
        end) d.

(** [glob.glob(pat)]: the names on disk that the pattern meets. *)
Definition glob (pat : string) : M (list string) := fun d =>
  (Py.Ok (filter (fun p => Glob.matches pat p = true) (map fst (map_to_list d))),
   d, []).

(** [pipe.run(input)] *)
Definition run (st : stage) (cfg : gmap string attr) (input : string)
  : M unit := fun d =>
  emit (Run st cfg input) (pipeline ext st cfg input d) d.

(** The source-detection cell of the MRS notebook, as one call. *)
Definition detect (cube : string) : M (Q * Q) := fun d =>
  match brightest ext cube d with
  | Py.Ok radec =>
      (Py.Ok radec, d, [{| what := Detect cube; failed := None |}])
  | Py.Err e =>
      (Py.Err e, d, [{| what := Detect cube; failed := Some e |}])
  end.

(** [fits.open(p)], read-only. *)
Definition fits_open (p : string) : M (list hdu) := fun d =>
  match d !! Path.norm p with
  | Some (File (Fits hdus)) =>
      (Py.Ok hdus, d, [{| what := FitsOpen p; failed := None |}])
  | Some _ =>
      (Py.Err (Py.Raised "OSError"), d,
       [{| what := FitsOpen p; failed := Some (Py.Raised "OSError") |}])
  | None =>
      (Py.Err (Py.Raised "FileNotFoundError"), d,
       [{| what := FitsOpen p;
           failed := Some (Py.Raised "FileNotFoundError") |}])
  end.

(** [hdul.writeto(p, overwrite=...)]; [p] is taken not to be the name
    of a directory. *)
Definition writeto (hdus : list hdu) (p : string) (overwrite : bool)
  : M unit := fun d =>
  emit (Writeto p overwrite)
       (if path_exists d p && negb overwrite
        then threw (Py.Raised "OSError")
        else wrote [(p, File (Fits hdus))]) d.

(** [asn_from_list(...)] followed by [dump()[1]]. *)
Definition asn_from_list (files : list string) (product_name : string)
  : M string := fun d =>
  match asn_dump ext files product_name with
  | Py.Ok text =>
      (Py.Ok text, d,
       [{| what := AsnFromList files product_name; failed := None |}])
  | Py.Err e =>
      (Py.Err e, d,
       [{| what := AsnFromList files product_name; failed := Some e |}])
  end.

(** [with open(p, 'w') as f: f.write(text)]; [p] is taken not to be
    the name of a directory. *)
Definition write_text (p text : string) : M unit :=
  emit (WriteText p) (wrote [(p, File (Bytes text))]).

(** [correct_fitsfiles(indir=..., odir=...)] *)
Definition correct_fitsfiles (indir odir : string) : M unit := fun d =>
  emit (CorrectFitsfiles indir odir) (bp_fix ext indir odir d) d.

(** Two names of an extension that [hdul[name]] does not tell apart:
    blanks at the ends and the case of the letters do not count. *)
Definition same_name (key name : string) : bool :=
  String.eqb (Py.upper (Py.strip name)) (Py.upper (Py.strip key)).

Fixpoint ext_first (key : string) (hdus : list hdu) : option nat :=
  match hdus with
  | [] => None
  | h :: hdus' =>
      if same_name key (extname h) then Some 0
      else S <$> ext_first key hdus'
  end.

(** The index [hdul[key]] stands for: that of the first header data
    unit called [key]; [PRIMARY] is also a name of the first unit,
    whatever it is called. *)
Definition ext_index (key : string) (hdus : list hdu) : option nat :=
  if same_name key "PRIMARY"
  then match hdus with
       | [] => None
       | _ :: _ => Some 0
       end
  else ext_first key hdus.

Definition set_card (key : string) (v : hval) (h : hdu) : hdu :=
  {| extname := extname h; header := <[key := v]> (header h) |}.

(** [hdul[name].header[key] = v] *)
Definition set_by_name (name key : string) (v : hval) (hdus : list hdu)
  : M (list hdu) :=
  match ext_index name hdus with
  | Some i => ret (alter (set_card key v) i hdus)
  | None => raise Py.KeyError
  end.

(** [hdul[i].header[key] = v] *)
Definition set_by_index (i : nat) (key : string) (v : hval)
  (hdus : list hdu) : M (list hdu) :=
  match hdus !! i with
  | Some _ => ret (alter (set_card key v) i hdus)
  | None => raise Py.IndexError
  end.

(** [fits.getheader(p)], the primary header. *)
Definition getheader (p : string) : M (gmap string hval) := fun d =>
  match d !! Path.norm p with
  | Some (File (Fits (h :: _))) =>
      (Py.Ok (header h), d, [{| what := Getheader p; failed := None |}])
  | Some _ =>
      (Py.Err (Py.Raised "OSError"), d,
       [{| what := Getheader p; failed := Some (Py.Raised "OSError") |}])
  | None =>
      (Py.Err (Py.Raised "FileNotFoundError"), d,
       [{| what := Getheader p;
           failed := Some (Py.Raised "FileNotFoundError") |}])
  end.

(** [fits.setval(p, key, value=value)], on the primary header, in
    place. *)
Definition setval (p key value : string) : M unit := fun d =>
  emit (Setval p key value)
       (match d !! Path.norm p with
        | Some (File (Fits (h :: hdus))) =>
            wrote [(p, File (Fits (set_card key (HStr value) h :: hdus)))]
        | Some _ => threw (Py.Raised "OSError")
        | None => threw (Py.Raised "FileNotFoundError")
        end) d.

(** [hdr[key]] *)
Definition card (hdr : gmap string hval) (key : string) : M hval :=
  match hdr !! key with
  | Some v => ret v
  | None => raise Py.KeyError
  end.

(** How [print] renders a card; the digits of a number are not
    modelled. *)
Definition text_of (v : hval) : string :=
  match v with
  | HStr s => s
  | HNum _ => "<number>"
  end.

(** [v.replace(old, new)], which only a string has. *)
Definition replace_in (old new : string) (v : hval) : M string :=
  match v with
  | HStr s => ret (Py.replace old new s)
  | HNum _ => raise (Py.Raised "AttributeError")
  end.

(** [ff.fit_fringes(p)] *)
Definition fit_fringes (ff : fitter) (p : string) : M unit := fun d =>
  emit (FitFringes ff p) (fringes ext ff p d) d.

(** [calibrate_oifits(targ, cal, oifdir=dir)] *)
Definition calibrate_oifits (targ cal dir : string) : M unit := fun d =>
  emit (CalibrateOifits targ cal dir) (calibrate ext targ cal dir d) d.

End Calls.

(** ** The MRS notebook *)

Module MRS.

Section Cells.

Context (ext : externals).

Local Open Scope nb_scope.

Definition url_120546 : string :=
  "https://data.science.stsci.edu/redirect/JWST/jwst-data_analysis_tools/MRS_Mstar_analysis/20210413_120546_mirisim.tar.gz".
Definition url_123047 : string :=
  "https://data.science.stsci.edu/redirect/JWST/jwst-data_analysis_tools/MRS_Mstar_analysis/20210413_123047_mirisim.tar.gz".
Definition url_125354 : string :=
  "https://data.science.stsci.edu/redirect/JWST/jwst-data_analysis_tools/MRS_Mstar_analysis/20210413_125354_mirisim.tar.gz".

(** The archives [cell_download] looks for, with where they come
    from. *)
Definition archives : list (string * string) :=
  [("20210413_120546_mirisim.tar.gz", url_120546);
   ("20210413_123047_mirisim.tar.gz", url_123047);
   ("20210413_125354_mirisim.tar.gz", url_125354)].

(** Download data if you don't already have it. *)
Definition cell_download : M unit :=
  (b <- exists_ "20210413_120546_mirisim.tar.gz" ;;
   if b then print "20210413_120546_mirisim.tar.gz Exists"
   else urlretrieve ext url_120546 "./20210413_120546_mirisim.tar.gz") ;;
  (b <- exists_ "20210413_123047_mirisim.tar.gz" ;;
   if b then print "20210413_123047_mirisim.tar.gz Exists"
   else urlretrieve ext url_123047 "./20210413_123047_mirisim.tar.gz") ;;
  (b <- exists_ "20210413_125354_mirisim.tar.gz" ;;
   if b then print "20210413_125354_mirisim.tar.gz Exists"
   else urlretrieve ext url_125354 "./20210413_125354_mirisim.tar.gz").

(** The three guards of [cell_download] are one guard, at three
    names. *)
Definition fetch_unless_present (name url : string) : M unit :=
  b <- exists_ name ;;
  if b then print (name +:+ " Exists")
  else urlretrieve ext url ("./" +:+ name).

(** Unzip files if they haven't already been unzipped. *)
Definition cell_untar : M unit :=
  (b <- exists_ "20210413_120546_mirisim/" ;;
   if b then print "20210413_120546_mirisim Exists"
   else extractall ext "./20210413_120546_mirisim.tar.gz") ;;
  (b <- exists_ "20210413_123047_mirisim/" ;;
   if b then print "20210413_123047_mirisim Exists"
   else extractall ext "./20210413_123047_mirisim.tar.gz") ;;
  (b <- exists_ "20210413_125354_mirisim/" ;;
   if b then print "20210413_125354_mirisim Exists"
   else extractall ext "./20210413_125354_mirisim.tar.gz").

(** The body of the two calwebb_detector1 loops, which differ in the
    names of their variables only.  [pipe] is the pipeline object made
    before the loop. *)
Definition detector1_body (pipe : gmap string attr) (shortfile : string)
  : M (gmap string attr) :=
  print shortfile ;;
  base_remainder <- lift (Py.unpack2 (Py.split "." shortfile)) ;;
  before_dateafter <- lift (Py.unpack2 (Py.split "20210413_" shortfile)) ;;
  datestring_after <-
    lift (Py.unpack2 (Py.split "_mirisim" before_dateafter.2)) ;;
  let pipe := <["refpix.skip" := ABool true]> pipe in
  let pipe :=
    <["output_file" := AStr (base_remainder.1 +:+ datestring_after.1)]> pipe in
  run ext Detector1 pipe shortfile ;;
  ret pipe.

Definition detector1_loop (files : list string) : M (gmap string attr) :=
  for_with files ∅ detector1_body.

(** Execute calwebb_detector1 pipeline on raw simulation output. *)
Definition cell_detector1 : M unit :=
  allshortfiles <- glob "20210413_*_mirisim/det_images/*MIRIFUSHORT*fits" ;;
  alllongfiles <- glob "20210413_*_mirisim/det_images/*MIRIFULONG*fits" ;;
  detector1_loop allshortfiles ;;
  detector1_loop alllongfiles ;;
  ret tt.

Definition short_cube_rate : string :=
  "det_image_seq1_MIRIFUSHORT_12LONGexp1125354_rate.fits".
Definition long_cube_rate : string :=
  "det_image_seq1_MIRIFULONG_34SHORTexp1120546_rate.fits".

(** The body of the two calwebb_spec2 loops; [hardcoded] is the name
    the loop compares with.  The pipeline object is made anew for every
    file. *)
Definition spec2_body (hardcoded file : string) : M unit :=
  print file ;;
  let pipe2 : gmap string attr := ∅ in
  base_remainder <- lift (Py.unpack2 (Py.split "." file)) ;;
  let pipe2 := <["straylight.skip" := ABool true]> pipe2 in
  pipe2 <- (if String.eqb file hardcoded
            then (print "this one will have the level 2b cube built" ;;
                  ret pipe2)
            else ret (<["cube_build.skip" := ABool true]> pipe2)) ;;
  let pipe2 := <["extract_1d.skip" := ABool true]> pipe2 in
  let pipe2 := <["output_file" := AStr base_remainder.1]> pipe2 in
  run ext Spec2 pipe2 file.

(** Execute calwebb_spec2 pipeline. *)
Definition cell_spec2 : M unit :=
  allshortfiles2 <- glob "det_image_*_MIRIFUSHORT_*_rate.fits" ;;
  alllongfiles2 <- glob "det_image_*_MIRIFULONG_*_rate.fits" ;;
  for_ allshortfiles2 (spec2_body short_cube_rate) ;;
  for_ alllongfiles2 (spec2_body long_cube_rate).

Definition l_cube_file : string :=
  "det_image_seq1_MIRIFULONG_34SHORTexp1120546_s3d.fits".
Definition s_cube_file : string :=
  "det_image_seq1_MIRIFUSHORT_12LONGexp1125354_s3d.fits".

(** Source detection in the short cube; yields [(ra_ptsrc, dec_ptsrc)]. *)
Definition cell_detect : M (Q * Q) := detect ext s_cube_file.

Definition fix_name (base remainder : string) : string :=
  base +:+ "_fix." +:+ remainder.

Definition header_fix_body (targra targdec : Q) (thisfile : string)
  : M unit :=
  base_remainder <- lift (Py.unpack2 (Py.split "." thisfile)) ;;
  let outfilename := fix_name base_remainder.1 base_remainder.2 in
  print outfilename ;;
  hduthis <- fits_open thisfile ;;
  hduthis <- set_by_name "SCI" "SRCTYPE" (HStr "POINT") hduthis ;;
  hduthis <- set_by_index 0 "TARG_RA" (HNum targra) hduthis ;;
  hduthis <- set_by_index 0 "TARG_DEC" (HNum targdec) hduthis ;;
  writeto hduthis outfilename true.

(** Update the headers to be centered on the point source. *)
Definition cell_header_fix (radec : Q * Q) : M unit :=
  all_files <- glob "det_image_*_cal.fits" ;;
  let targra := radec.1 in
  let targdec := radec.2 in
  for_ all_files (header_fix_body targra targdec).

(** Set up needed reference file(s) for spec3; yields [asnallfile]. *)
Definition cell_asn : M string :=
  file_all_list <- glob "det_image_*_cal_fix.fits" ;;
  asnall <- asn_from_list ext file_all_list "combine_dithers_all_exposures" ;;
  let asnallfile := "for_spec3_all.json" in
  write_text asnallfile asnall ;;
  ret asnallfile.

Definition spec3_config : gmap string attr :=
  let pipe3ss : gmap string attr := ∅ in
  let pipe3ss := <["master_background.skip" := ABool true]> pipe3ss in
  let pipe3ss := <["mrs_imatch.skip" := ABool true]> pipe3ss in
  let pipe3ss := <["outlier_detection.skip" := ABool true]> pipe3ss in
  let pipe3ss := <["resample_spec.skip" := ABool true]> pipe3ss in
  let pipe3ss := <["combine_1d.skip" := ABool true]> pipe3ss in
  let pipe3ss := <["use_source_posn" := AStr "True"]> pipe3ss in
  let pipe3ss := <["subtract_background" := AStr "True"]> pipe3ss in
  <["output_file" := AStr "allspec3"]> pipe3ss.

(** Execute calwebb_spec3 pipeline. *)
Definition cell_spec3 (asnallfile : string) : M unit :=
  run ext Spec3 spec3_config asnallfile.

(** The cells in the order of the notebook. *)
Definition notebook : M unit :=
  cell_download ;;
  cell_untar ;;
  cell_detector1 ;;
  cell_spec2 ;;
  radec <- cell_detect ;;
  cell_header_fix radec ;;
  asnallfile <- cell_asn ;;
  cell_spec3 asnallfile.

End Cells.

End MRS.

(** ** The NIRISS AMI notebook *)

Module NIRISS.

Section Cells.

Context (ext : externals).

Local Open Scope nb_scope.

Definition nl : string := String "010"%char "".

Definition boxlink : string :=
  "https://data.science.stsci.edu/redirect/JWST/jwst-data_analysis_tools/niriss_ami_binary/niriss_ami_binary2_inflight.zip".
Definition boxfile : string :=
  Path.of_string "./niriss_ami_binary2_inflight.zip".

(** Download the data of the AMI commissioning activity. *)
Definition cell_download : M unit :=
  b <- exists_ boxfile ;;
  if negb b
  then (urlretrieve ext boxlink boxfile ;;
        extractall ext boxfile)
  else ret tt.

Definition currentdir : string := Path.of_string ".".
Definition inflightdata : string :=
  Path.joinpath currentdir "niriss_ami_binary2_inflight".

(** Define directory that has commissioning data; yields [datafiles]. *)
Definition cell_datafiles : M (list string) :=
  found <- glob (Path.joinpath inflightdata "jw*uncal.fits") ;;
  let datafiles := Glob.sorted found in
  for_ datafiles print ;;
  ret datafiles.

(** Look at the last group of the first integration of the uncal
    files.  The list [data] gets one image per file, so that [data[i]]
    is there when [datafiles[i]] is. *)
Definition cell_examine_raw (datafiles : list string) : M unit :=
  for_ datafiles (fun df =>
    file <- fits_open df ;;
    show ext "file.info()" ;;
    lift (Py.subscript file 1) ;;
    show ext "im[0].shape" ;;
    primary <- lift (Py.subscript file 0) ;;
    targprop <- card (header primary) "TARGPROP" ;;
    print (text_of targprop)) ;;
  lift (Py.subscript datafiles 0) ;;
  lift (Py.subscript datafiles 1) ;;
  show ext "NRM + F480M raw exposures (last group of integration 1) at POS1".

Definition outdir : string := Path.of_string "./pipeline_calibrated_data/".

(** Define output directory to save pipeline output products. *)
Definition cell_outdir : M unit :=
  b <- exists_ outdir ;;
  if negb b
  then (mkdir outdir ;;
        print ("Created " +:+ outdir))
  else ret tt.

Definition pipelines_body (df : string) : M unit :=
  let result1 : gmap string attr := ∅ in
  let result1 := <["ipc.skip" := ABool true]> result1 in
  let result1 := <["save_results" := ABool true]> result1 in
  let result1 := <["save_calibrated_ramp" := ABool true]> result1 in
  let result1 := <["output_dir" := AStr outdir]> result1 in
  run ext Detector1 result1 df ;;
  let df_rate :=
    Path.joinpath outdir (Py.replace "uncal" "rate" (Path.name df)) in
  let result2 : gmap string attr := ∅ in
  let result2 := <["photom.skip" := ABool true]> result2 in
  let result2 := <["resample.skip" := ABool true]> result2 in
  let result2 := <["save_results" := ABool true]> result2 in
  let result2 := <["output_dir" := AStr outdir]> result2 in
  run ext Image2 result2 df_rate ;;
  let df_rateints :=
    Path.joinpath outdir (Py.replace "uncal" "rateints" (Path.name df)) in
  let result3 : gmap string attr := ∅ in
  let result3 := <["photom.skip" := ABool true]> result3 in
  let result3 := <["resample.skip" := ABool true]> result3 in
  let result3 := <["save_results" := ABool true]> result3 in
  let result3 := <["output_dir" := AStr outdir]> result3 in
  run ext Image2 result3 df_rateints.

(** Run Detector1, Image 2 pipelines. *)
Definition cell_pipelines (datafiles : list string) : M unit :=
  for_ datafiles pipelines_body.

Definition listing (pat : string) : M (list string) :=
  found <- glob (Path.joinpath outdir pat) ;;
  let files := Glob.sorted found in
  print (String.concat nl files) ;;
  ret files.

(** Examine the output files; yields the rate, rateints, cal and
    calints lists. *)
Definition cell_listing
  : M (list string * list string * list string * list string) :=
  rampfiles <- listing "jw*ramp.fits" ;;
  ratefiles <- listing "jw*rate.fits" ;;
  rateintsfiles <- listing "jw*rateints.fits" ;;
  calfiles <- listing "jw*cal.fits" ;;
  calintsfiles <- listing "jw*calints.fits" ;;
  ret (ratefiles, rateintsfiles, calfiles, calintsfiles).

Definition cell_info (first second : list string) : M unit :=
  for_ first (fun f => show ext ("fits.info " +:+ f)) ;;
  for_ second (fun f => show ext ("fits.info " +:+ f)).

(** Display calibrated data.  The figure, its first panel and the
    title of that panel are made before [data[0]] is looked up; the
    image of the first panel is drawn and the second panel made and
    given its title before [data[1]] is looked up. *)
Definition cell_display_cal (calintsfiles : list string) : M unit :=
  for_ calintsfiles (fun df =>
    print df ;;
    file <- fits_open df ;;
    lift (Py.subscript file 1) ;;
    show ext "im.shape") ;;
  show ext "NRM + F480M calibrated exposures (first integration) at POS1" ;;
  lift (Py.subscript calintsfiles 0) ;;
  show ext "imshow(data[0][0])" ;;
  lift (Py.subscript calintsfiles 1) ;;
  show ext "imshow(data[1][0])".

Definition datasuperdir : string :=
  Path.of_string "./pipeline_calibrated_data_corr/".

(** Fix bad pixels; yields [calintfiles_corr]. *)
Definition cell_bp_fix : M (list string) :=
  correct_fitsfiles ext outdir datasuperdir ;;
  found <- glob (Path.joinpath datasuperdir "*calints.fits") ;;
  let calintfiles_corr := Glob.sorted found in
  print (String.concat nl calintfiles_corr) ;;
  ret calintfiles_corr.

(** Display calibrated data after fixing bad pixels. *)
Definition cell_display_corr (calintfiles_corr : list string) : M unit :=
  for_ calintfiles_corr (fun df =>
    file <- fits_open df ;;
    lift (Py.subscript file 1) ;;
    show ext "im.shape") ;;
  show ext "NRM + F480M calibrated exposures at POS1 (after fixing bad pixels)" ;;
  lift (Py.subscript calintfiles_corr 0) ;;
  show ext "imshow(data[0])" ;;
  lift (Py.subscript calintfiles_corr 1) ;;
  show ext "imshow(data[1])".

Definition examine_observables : M unit :=
  show ext "Examine_observables".

Definition raw_observables (fitsfn fitsimdir oitdir oifdir : string)
  (oversample : nat) (firstfew : option nat) (usebp verbose : bool)
  : M unit :=
  (if verbose
   then print ("raw_observables: input " +:+ Path.joinpath fitsimdir fitsfn)
   else ret tt) ;;
  (if verbose
   then print ("raw_observables: oversample " +:+ pretty oversample)
   else ret tt) ;;
  fobj <- fits_open (Path.joinpath fitsimdir fitsfn) ;;
  primary <- lift (match fobj !! 0 with
                   | Some h => Py.Ok (header h)
                   | None => Py.Err Py.IndexError
                   end) ;;
  (if verbose
   then (band <- card primary "FILTER" ;; print (text_of band))
   else ret tt) ;;
  match primary !! "FILTER" with
  | None => raise Py.KeyError
  | Some _ =>
      let ff := {| usebp := usebp;
                   firstfew := firstfew;
                   oitdir := oitdir;
                   oifdir := oifdir;
                   oversample := oversample;
                   interactive := false;
                   save_txt_only := false |} in
      fit_fringes ext ff (Path.joinpath fitsimdir fitsfn) ;;
      examine_observables ;;
      (if verbose
       then show ext "raw_observables: fringepistons/rad"
       else ret tt)
  end.

Definition main (fitsimdir oitdir oifdir ifn : string) (oversample : nat)
  (firstfew : option nat) (verbose usebp : bool) : M unit :=
  (if verbose then print ("main:  " +:+ ifn) else ret tt) ;;
  (if verbose then print ("main: fitsimdir " +:+ fitsimdir) else ret tt) ;;
  raw_observables ifn fitsimdir oitdir oifdir oversample firstfew
                  usebp verbose ;;
  show ext "aff, psf_offset_r, psf_offset_ff, fringepistons".

Definition mirdatafiles : list string :=
  ["jw01093012001_03102_00001_nis_calints.fits";
   "jw01093015001_03102_00001_nis_calints.fits"].

Definition FIRSTFEW : option nat := Some 5.
Definition OVERSAMPLE : nat := 7.

Definition implaneia_body (COUNT : nat) (fnmir : string) : M nat :=
  print (nl +:+ "Analyzing" +:+ nl +:+ "   " +:+ " " +:+ pretty COUNT
         +:+ " " +:+ Py.replace ".fits" "" fnmir +:+ " ") ;;
  hdr <- getheader (Path.joinpath datasuperdir fnmir) ;;
  band <- card hdr "FILTER" ;;
  print (text_of band +:+ " ") ;;
  targname <- card hdr "TARGNAME" ;;
  print (text_of targname +:+ " ") ;;
  targprop <- card hdr "TARGPROP" ;;
  print (text_of targprop) ;;
  targprop <- card hdr "TARGPROP" ;;
  catname <- replace_in "-" "" targprop ;;
  setval (Path.joinpath datasuperdir fnmir) "TARGNAME" catname ;;
  setval (Path.joinpath datasuperdir fnmir) "TARGPROP" catname ;;
  let usebp := false in
  main datasuperdir
       (Path.joinpath datasuperdir "Saveoit")
       (Path.joinpath datasuperdir "Saveoif")
       fnmir OVERSAMPLE FIRSTFEW true usebp ;;
  ret (COUNT + 1).

(** Run ImPlaneIA. *)
Definition cell_implaneia : M unit :=
  print ("FIRSTFEW 5 OVERSAMPLE 7") ;;
  for_with mirdatafiles 0 implaneia_body ;;
  ret tt.

(** Examine the output products. *)
Definition cell_products : M unit :=
  results_int0 <-
    glob (Path.joinpath
            (Path.joinpath (Path.joinpath datasuperdir "Saveoit")
                           "jw01093012001_03102_00001_nis_calints")
            "*00*") ;;
  show ext "results_int0" ;;
  let dir := Path.joinpath (Path.joinpath datasuperdir "Saveoit")
                           "jw01093012001_03102_00001_nis_calints" in
  fits_open (Path.joinpath dir "centered_0.fits") ;;
  fits_open (Path.joinpath dir "modelsolution_00.fits") ;;
  fits_open (Path.joinpath dir "residual_00.fits") ;;
  fits_open (Path.joinpath dir "n_residual_00.fits") ;;
  show ext "AB Dor cropped data, analytical model, residual" ;;
  show ext "AB Dor normalized residual" ;;
  oifiles <-
    glob (Path.joinpath (Path.joinpath datasuperdir "Saveoif") "*oifits") ;;
  show ext "oifiles".

(** Calibrate the target with the calibrator. *)
Definition cell_calibrate : M unit :=
  let targ_oifits :=
    Path.joinpath (Path.joinpath datasuperdir "Saveoif")
                  "jw01093012001_03102_00001_nis.oifits" in
  let cal_oifits :=
    Path.joinpath (Path.joinpath datasuperdir "Saveoif")
                  "jw01093015001_03102_00001_nis.oifits" in
  print "************  Running calibrate ***************" ;;
  print "Calibrating  AB Dor with HD37093" ;;
  calibrate_oifits ext targ_oifits cal_oifits
                   (Path.joinpath datasuperdir "Saveoif") ;;
  print "The output of calibrate is calibrated oifits file that will be used as an input to 3_niriss_ami_binary.ipynb.".

(** The cells in the order of the notebook. *)
Definition notebook : M unit :=
  cell_download ;;
  datafiles <- cell_datafiles ;;
  cell_examine_raw datafiles ;;
  cell_outdir ;;
  cell_pipelines datafiles ;;
  lists <- cell_listing ;;
  cell_info lists.1.1.2 lists.1.1.1 ;;
  cell_info lists.2 lists.1.2 ;;
  cell_display_cal lists.2 ;;
  calintfiles_corr <- cell_bp_fix ;;
  cell_display_corr calintfiles_corr ;;
  cell_implaneia ;;
  cell_products ;;
  cell_calibrate.

End Cells.

End NIRISS.

(** ** Sample surroundings

    Concrete external behaviours and disks on which the cells can be
    run. *)

Module Sample.

Definition science : hdu :=
  {| extname := "SCI"; header := {["SRCTYPE" := HStr "EXTENDED"]} |}.
Definition primary : hdu :=
  {| extname := "PRIMARY";
     header := {["FILTER" := HStr "F480M"; "TARGNAME" := HStr "AB-DOR";
                 "TARGPROP" := HStr "AB-DOR"]} |}.
Definition exposure : content := Fits [primary; science].

(** The suffix of a pipeline product replaces the last characters of
    the input name: ten for [_rate.fits], eleven for [_uncal.fits],
    fourteen for [_rateints.fits]. *)
Definition stem (cut : nat) (p : string) : string :=
  String.substring 0 (String.length p - cut) p.

(** Every call succeeds; the network serves the name of what was asked
    for, archives unpack to one raw exposure, a stage writes the
    products the pipeline documents for it. *)
Definition quiet : externals :=
  {| fetch := fun url => Py.Ok (Bytes url);
     members := fun c =>
       match c with
       | Bytes b =>
           if String.eqb b NIRISS.boxlink
           then Py.Ok
                  [("niriss_ami_binary2_inflight", Dir);
                   ("niriss_ami_binary2_inflight/jw01093012001_03102_00001_nis_uncal.fits",
                    File exposure);
                   ("niriss_ami_binary2_inflight/jw01093015001_03102_00001_nis_uncal.fits",
                    File exposure)]
           else if String.eqb b MRS.url_120546
           then Py.Ok
                  [("20210413_120546_mirisim", Dir);
                   ("20210413_120546_mirisim/det_images/det_image_seq1_MIRIFULONG_34SHORTexp1.fits",
                    File exposure)]
           else if String.eqb b MRS.url_125354
           then Py.Ok
                  [("20210413_125354_mirisim", Dir);
                   ("20210413_125354_mirisim/det_images/det_image_seq1_MIRIFUSHORT_12LONGexp1.fits",
                    File exposure)]
           else Py.Ok [("20210413_123047_mirisim", Dir)]
       | Fits _ => Py.Err (Py.Raised "ReadError")
       end;
     pipeline := fun st cfg input d =>
       match st with
       | Detector1 =>
           match cfg !! "output_file" with
           | Some (AStr o) => wrote [(Path.name o +:+ "_rate.fits", File exposure)]
           | _ =>
               wrote [(Path.joinpath NIRISS.outdir
                         (stem 11 (Path.name input) +:+ "_rate.fits"),
                       File exposure);
                      (Path.joinpath NIRISS.outdir
                         (stem 11 (Path.name input) +:+ "_rateints.fits"),
                       File exposure)]
           end
       | Image2 =>
           if String.eqb (stem 10 input +:+ "_rate.fits") input
           then wrote [(stem 10 input +:+ "_cal.fits", File exposure)]
           else wrote [(stem 14 input +:+ "_calints.fits", File exposure)]
       | Spec2 =>
           match cfg !! "cube_build.skip" with
           | Some (ABool true) =>
               wrote [(stem 10 input +:+ "_cal.fits", File exposure)]
           | _ =>
               wrote [(stem 10 input +:+ "_cal.fits", File exposure);
                      (stem 10 input +:+ "_s3d.fits", File exposure)]
           end
       | Spec3 => wrote [("allspec3_x1d.fits", File exposure)]
       end;
     brightest := fun cube d =>
       match d !! Path.norm cube with
       | Some (File (Fits _)) => Py.Ok (Qmake 45 1, Qmake (-30) 1)
       | _ => Py.Err (Py.Raised "FileNotFoundError")
       end;
     asn_dump := fun files name => Py.Ok name;
     bp_fix := fun indir odir d =>
       wrote [(odir, Dir);
              (Path.joinpath odir "jw01093012001_03102_00001_nis_calints.fits",
               File exposure);
              (Path.joinpath odir "jw01093015001_03102_00001_nis_calints.fits",
               File exposure)];
     fringes := fun ff p d =>
       let dir := Path.joinpath (oitdir ff) (stem 5 (Path.name p)) in
       wrote [(Path.joinpath dir "centered_0.fits", File exposure);
              (Path.joinpath dir "modelsolution_00.fits", File exposure);
              (Path.joinpath dir "residual_00.fits", File exposure);
              (Path.joinpath dir "n_residual_00.fits", File exposure)];
     calibrate := fun targ cal dir d => wrote [];
     viewer := fun what d => None |}.

(** As [quiet], but the network is down. *)
Definition offline : externals :=
  {| fetch := fun url => Py.Err (Py.Raised "URLError");
     members := members quiet;
     pipeline := pipeline quiet;
     brightest := brightest quiet;
     asn_dump := asn_dump quiet;
     bp_fix := bp_fix quiet;
     fringes := fringes quiet;
     calibrate := calibrate quiet;
     viewer := viewer quiet |}.

(** A disk on which only the second MRS archive is present. *)
Definition second_archive_only : gmap string node :=
  {["20210413_123047_mirisim.tar.gz" := File (Bytes "kept")]}.

(** A disk after calwebb_spec2: two calibrated exposures and a file
    the header-fix cell does not look at. *)
Definition calibrated : gmap string node :=
  {["det_image_seq1_MIRIFUSHORT_12LONGexp1125354_cal.fits" := File exposure;
    "det_image_seq1_MIRIFULONG_34SHORTexp1120546_cal.fits" := File exposure;
    "notes.txt" := File (Bytes "")]}.

(** A disk with the two raw MRS exposures unpacked. *)
Definition raw : gmap string node :=
  {["20210413_125354_mirisim/det_images/det_image_seq1_MIRIFUSHORT_12LONGexp1.fits"
      := File exposure;
    "20210413_120546_mirisim/det_images/det_image_seq1_MIRIFULONG_34SHORTexp1.fits"
      := File exposure]}.

(** A disk with the three archives and the three directories that come
    out of them. *)
Definition unpacked : gmap string node :=
  {["20210413_120546_mirisim.tar.gz" := File (Bytes "a");
    "20210413_123047_mirisim.tar.gz" := File (Bytes "b");
    "20210413_125354_mirisim.tar.gz" := File (Bytes "c");
    "20210413_120546_mirisim" := Dir;
    "20210413_123047_mirisim" := Dir;
    "20210413_125354_mirisim" := Dir]}.

(** A disk after calwebb_detector1 with two short-wavelength rate
    files, the one the notebook names and another. *)
Definition rates : gmap string node :=
  {["det_image_seq1_MIRIFUSHORT_12LONGexp1125354_rate.fits" := File exposure;
    "det_image_seq2_MIRIFUSHORT_12LONGexp1125354_rate.fits" := File exposure]}.

(** A disk with the NIRISS archive and nothing unpacked from it. *)
Definition zip_only : gmap string node :=
  {["niriss_ami_binary2_inflight.zip" := File (Bytes "kept")]}.

End Sample.

(** ** Reading a trace *)

(** The calls of a trace, without their outcomes. *)
Definition calls (t : list entry) : list call := map what t.

(** The retrievals attempted: address and file name. *)
Definition retrievals (t : list entry) : list (string * string) :=
  omap (fun e => match what e with
                 | Urlretrieve url filename => Some (url, filename)
                 | _ => None
                 end) t.

(** The retrievals into the file [name]. *)
Definition retrievals_of (name : string) (t : list entry)
  : list (string * string) :=
  filter (fun uf => Path.norm uf.2 = name) (retrievals t).

(** The archives opened for extraction. *)
Definition extractions (t : list entry) : list string :=
  omap (fun e => match what e with
                 | Extractall archive => Some archive
                 | _ => None
                 end) t.

(** The stage runs: stage and input. *)
Definition runs (t : list entry) : list (stage * string) :=
  omap (fun e => match what e with
                 | Run st _ input => Some (st, input)
                 | _ => None
                 end) t.

(** The stage runs with the attributes of the pipeline object. *)
Definition configured_runs (t : list entry)
  : list (stage * gmap string attr * string) :=
  omap (fun e => match what e with
                 | Run st cfg input => Some (st, cfg, input)
                 | _ => None
                 end) t.

(** No call of the trace raised. *)
Definition clean (t : list entry) : Prop :=
  Forall (fun e => failed e = None) t.

(** [m] makes calls of the kind [X] only. *)
Definition emits {A} (X : call -> Prop) (m : M A) : Prop :=
  forall d, Forall (fun e => X (what e)) (trace_of (m d)).

(** No proper end of [sep] is also a beginning of it: two occurrences
    of [sep] cannot overlap. *)
Definition unbordered (sep : string) : bool :=
  forallb (fun j => negb (Py.startswith (Py.drop (S j) sep) sep))
          (seq 0 (String.length sep - 1)).

(** The computation came to its end without an exception. *)
Definition returned {A} (r : Py.result A) : Prop :=
  match r with
  | Py.Ok _ => True
  | Py.Err _ => False
  end.

(** The attributes of the calwebb_detector1 object when it is run on a
    file whose name gave [base] and [datestring]. *)
Definition detector1_config (pipe : gmap string attr)
  (base datestring : string) : gmap string attr :=
  <["output_file" := AStr (base +:+ datestring)]>
    (<["refpix.skip" := ABool true]> pipe).

(** The attributes of a calwebb_spec2 object when it is run on [file],
    in a loop that compares with [hardcoded]. *)
Definition spec2_config (hardcoded file base : string) : gmap string attr :=
  <["output_file" := AStr base]>
    (<["extract_1d.skip" := ABool true]>
       (if String.eqb file hardcoded
        then <["straylight.skip" := ABool true]> ∅
        else <["cube_build.skip" := ABool true]>
               (<["straylight.skip" := ABool true]> ∅))).

(** The name [a, b = file.split(".")] binds to [a], when it binds. *)
Definition base_of (file : string) : string :=
  match Py.partition "." file with
  | Some (base, _) => base
  | None => file
  end.

(** The line [print(text)] leaves in a trace. *)
Definition printed (text : string) : entry :=
  {| what := Print text; failed := None |}.

(** What follows the first [20210413_] in a name. *)
Definition after_date (file : string) : string :=
  match Py.partition "20210413_" file with
  | Some (_, after) => after
  | None => ""
  end.

(** The names a calwebb_detector1 loop can take apart: one dot, one
    [20210413_], and one [_mirisim] in what follows it. *)
Definition detector1_name (file : string) : Prop :=
  Py.count "." file = 1 /\
  Py.count "20210413_" file = 1 /\
  Py.count "_mirisim" (after_date file) = 1.

(** The header data units the header-fix step writes out for the ones
    it read: [SRCTYPE] set in the first extension called [SCI], the two
    target coordinates set in the primary one. *)
Definition point_source (targra targdec : Q) (hdus : list hdu) : list hdu :=
  match ext_index "SCI" hdus with
  | Some i =>
      alter (set_card "TARG_DEC" (HNum targdec)) 0
        (alter (set_card "TARG_RA" (HNum targra)) 0
           (alter (set_card "SRCTYPE" (HStr "POINT")) i hdus))
  | None => hdus
  end.

(** The name the header-fix step writes the copy of [file] under. *)
Definition fixed_name (file : string) : string :=
  match Py.partition "." file with
  | Some (base, remainder) => MRS.fix_name base remainder
  | None => file
  end.

(** The card [key] of the header data unit [i]. *)
Definition card_at (hdus : list hdu) (i : nat) (key : string) : option hval :=
  h ← hdus !! i; header h !! key.

(** The card [key] of the first extension called [name]. *)
Definition card_of (hdus : list hdu) (name key : string) : option hval :=
  i ← ext_index name hdus; card_at hdus i key.

(** A file the header-fix cell can work on: its name is met by the
    cell's pattern and has one dot, and it holds header data units, one
    of them called [SCI]. *)
Definition cal_input (d : gmap string node) (f : string) : Prop :=
  Glob.matches "det_image_*_cal.fits" f = true /\
  Py.count "." f = 1 /\
  exists hdus,
    d !! f = Some (File (Fits hdus)) /\ is_Some (ext_index "SCI" hdus).

(** The files written with [writeto], with the [overwrite] flag. *)
Definition writes_to (t : list entry) : list (string * bool) :=
  omap (fun e => match what e with
                 | Writeto p overwrite => Some (p, overwrite)
                 | _ => None
                 end) t.

(** The list [glob.glob(pat)] returns on the disk [d]. *)
Definition globbed (pat : string) (d : gmap string node) : list string :=
  filter (fun p => Glob.matches pat p = true) (map fst (map_to_list d)).

(** What a stage loop over [files] should leave in a trace: the runs
    made are the first files of the list, in order, and all of them if
    the loop returned. *)
Definition once_per_file {A} (st : stage) (files : list string)
  (x : Py.result A * gmap string node * list entry) : Prop :=
  runs (trace_of x) `prefix_of` ((fun f => (st, f)) <$> files) /\
  (returned (result_of x) ->
   runs (trace_of x) = (fun f => (st, f)) <$> files).

(** The three runs of one turn of the NIRISS loop. *)
Definition niriss_runs (df : string) : list (stage * string) :=
  [(Detector1, df);
   (Image2, Path.joinpath NIRISS.outdir
              (Py.replace "uncal" "rate" (Path.name df)));
   (Image2, Path.joinpath NIRISS.outdir
              (Py.replace "uncal" "rateints" (Path.name df)))].

(** Every stage run returns. *)
Definition stages_return (ext : externals) : Prop :=
  forall st cfg input d, raised (pipeline ext st cfg input d) = None.

(** How many times [x] is in [l]. *)
Definition times {X} `{EqDecision X} (x : X) (l : list X) : nat :=
  length (filter (fun y => y = x) l).

(** The attributes of a pipeline object other than its output name. *)
Definition flags (cfg : gmap string attr) : gmap string attr :=
  delete "output_file" cfg.

(** What every stage run of the MRS notebook is configured with.  The
    calwebb_spec2 runs come in two kinds: with the cube building
    skipped, and without, which only a run on one of the two
    hard-coded names can be. *)
Definition mrs_flags (c : call) : Prop :=
  match c with
  | Run Detector1 cfg _ => flags cfg = {["refpix.skip" := ABool true]}
  | Run Spec2 cfg f =>
      flags cfg = {["straylight.skip" := ABool true;
                    "cube_build.skip" := ABool true;
                    "extract_1d.skip" := ABool true]} \/
      (flags cfg = {["straylight.skip" := ABool true;
                     "extract_1d.skip" := ABool true]} /\
       (f = MRS.short_cube_rate \/ f = MRS.long_cube_rate))
  | Run Spec3 cfg _ => cfg = MRS.spec3_config
  | Run Image2 _ _ => False
  | _ => True
  end.

(** What every stage run of the NIRISS notebook is configured with. *)
Definition niriss_flags (c : call) : Prop :=
  match c with
  | Run Detector1 cfg _ =>
      cfg = {["ipc.skip" := ABool true;
              "save_results" := ABool true;
              "save_calibrated_ramp" := ABool true;
              "output_dir" := AStr "pipeline_calibrated_data"]}
  | Run Image2 cfg _ =>
      cfg = {["photom.skip" := ABool true;
              "resample.skip" := ABool true;
              "save_results" := ABool true;
              "output_dir" := AStr "pipeline_calibrated_data"]}
  | Run _ _ _ => False
  | _ => True
  end.

(** [a in s] for a character. *)
Fixpoint has_char (a : ascii) (s : string) : bool :=
  match s with
  | EmptyString => false
  | String c s' => Ascii.eqb a c || has_char a s'
  end.

(** Where the fringe fitting and the calibration of the NIRISS notebook
    are told to write. *)
Definition fringe_dirs (c : call) : Prop :=
  match c with
  | FitFringes ff _ =>
      oitdir ff = "pipeline_calibrated_data_corr/Saveoit" /\
      oifdir ff = "pipeline_calibrated_data_corr/Saveoif"
  | CalibrateOifits targ cal dir =>
      targ = "pipeline_calibrated_data_corr/Saveoif/jw01093012001_03102_00001_nis.oifits" /\
      cal = "pipeline_calibrated_data_corr/Saveoif/jw01093015001_03102_00001_nis.oifits" /\
      dir = "pipeline_calibrated_data_corr/Saveoif"
  | _ => True
  end.

(** A result and a trace as uncaught exceptions leave them.  No call
    but the last can have raised; if the last one raised, the
    computation ended on its exception; and a computation that
    returned made no call that raised.  An exception with a trace in
    which no call raised comes from the interpreter. *)
Definition uncaught {A} (x : Py.result A * gmap string node * list entry)
  : Prop :=
  match result_of x with
  | Py.Ok _ => clean (trace_of x)
  | Py.Err e =>
      clean (trace_of x) \/
      exists t c,
        trace_of x = t ++ [{| what := c; failed := Some e |}] /\ clean t
  end.

Definition propagates {A} (m : M A) : Prop := forall d, uncaught (m d).

(** [m] leaves in its trace, of what [read] picks, at most the items
    of [l], each at most once and in the order of [l]. *)
Definition at_most {A X} (read : list entry -> list X) (l : list X)
  (m : M A) : Prop :=
  forall d, read (trace_of (m d)) `sublist_of` l.

Definition is_retrieval (c : call) : Prop :=
  match c with Urlretrieve _ _ => True | _ => False end.

Definition is_extraction (c : call) : Prop :=
  match c with Extractall _ => True | _ => False end.

Definition is_run (c : call) : Prop :=
  match c with Run _ _ _ => True | _ => False end.

(** ** The phases of a notebook *)

(** The phase of the MRS notebook a call belongs to: getting the data,
    calwebb_detector1, calwebb_spec2, calwebb_spec3.  The other calls
    belong to none. *)
Definition mrs_phase (c : call) : option nat :=
  match c with
  | Urlretrieve _ _ | Extractall _ => Some 0
  | Run Detector1 _ _ => Some 1
  | Run Image2 _ _ | Run Spec2 _ _ => Some 2
  | Run Spec3 _ _ => Some 3
  | _ => None
  end.

(** The phase of the NIRISS notebook a call belongs to: getting the
    data, the Detector1 and Image2 runs, the fringe fitting, the
    calibration of the fitted observables. *)
Definition niriss_phase (c : call) : option nat :=
  match c with
  | Urlretrieve _ _ | Extractall _ => Some 0
  | Run _ _ _ => Some 1
  | FitFringes _ _ => Some 2
  | CalibrateOifits _ _ _ => Some 3
  | _ => None
  end.

(** A call of an earlier phase comes before any call of a later one. *)
Definition in_order (ph : call -> option nat) (t : list entry) : Prop :=
  forall i j e1 e2 m n,
    t !! i = Some e1 -> t !! j = Some e2 ->
    ph (what e1) = Some m -> ph (what e2) = Some n ->
    m < n -> i < j.

Definition at_level (ph : call -> option nat) (k : nat) (c : call) : Prop :=
  forall n, ph c = Some n -> n = k.

Definition from_level (ph : call -> option nat) (k : nat) (c : call) : Prop :=
  forall n, ph c = Some n -> k <= n.

(** [m] makes its calls in the order of their phases, none of them of
    a phase before [k]. *)
Definition staged {A} (ph : call -> option nat) (k : nat) (m : M A) : Prop :=
  emits (from_level ph k) m /\ forall d, in_order ph (trace_of (m d)).

(** The calls of the tools that work on what the stages left: the
    calwebb_spec3 run on the association, the fringe fitting and the
    calibration of ImPlaneIA. *)
Definition is_analysis (c : call) : Prop :=
  match c with
  | Run Spec3 _ _ | FitFringes _ _ | CalibrateOifits _ _ _ => True
  | _ => False
  end.

(** The stage runs of [x] are the first of [l], and all of [l] once
    [x] has returned or made a call of the kind [X]. *)
Definition reaches {A} (X : call -> Prop) (l : list (stage * string))
  (x : Py.result A * gmap string node * list entry) : Prop :=
  runs (trace_of x) `prefix_of` l /\
  (returned (result_of x) \/ Exists (fun e => X (what e)) (trace_of x) ->
   runs (trace_of x) = l).

(** ** What the notebooks write themselves *)

(** The calls by which a notebook puts something on the disk with its
    own code, not through the pipeline, the analysis tools or the
    download: writing a text file, writing out header data units,
    making a directory, setting a card in place. *)
Definition is_own_write (c : call) : bool :=
  match c with
  | WriteText _ | Writeto _ _ | Mkdir _ | Setval _ _ _ => true
  | _ => false
  end.

Definition own_writes (t : list entry) : list call :=
  filter (fun c => is_own_write c = true) (calls t).



(** ** The header fix in the notebook *)

(** A file the header-fix loop can fix: one the loop's pattern meets,
    with one dot in its name, that opens as header data units with an
    extension called [SCI], and such that no directory has the name of
    its copy. *)
Definition fixable (d : gmap string node) (f : string) : Prop :=
  cal_input d f /\ d !! fixed_name f <> Some Dir.

(** The source detection and the header-fix step as the MRS notebook
    chains them: the [ra_ptsrc] and [dec_ptsrc] the first cell ends on
    are the [targra] and [targdec] of the second. *)
Definition detect_then_fix (ext : externals) : M unit :=
  (radec <- MRS.cell_detect ext ;; MRS.cell_header_fix radec)%nb.

(** ** Order of names *)

(** [x <= y] for strings, as [sorted] compares them. *)
Definition leq (x y : string) : Prop := String.leb x y = true.

(** ** Output names *)

(** The text between the first [20210413_] of a name and the
    [_mirisim] that follows it. *)
Definition date_of (file : string) : string :=
  match Py.partition "_mirisim" (after_date file) with
  | Some (date, _) => date
  | None => ""
  end.

(** The calwebb_detector1 run on [f], as its loop configures it. *)
Definition detector1_run (f : string) : stage * gmap string attr * string :=
  (Detector1,
   {["refpix.skip" := ABool true;
     "output_file" := AStr (base_of f +:+ date_of f)]},
   f).

(** The calwebb_spec2 run on [f], in a loop that compares with
    [hardcoded]. *)
Definition spec2_run (hardcoded f : string)
  : stage * gmap string attr * string :=
  (Spec2, spec2_config hardcoded f (base_of f), f).

(** What the pipeline object of a calwebb_detector1 loop can be
    between two turns: as made, or with the two attributes the turns
    assign. *)
Definition one_object (pipe : gmap string attr) : Prop :=
  pipe = ∅ \/
  exists o, pipe = {["refpix.skip" := ABool true; "output_file" := AStr o]}.

(** ** Cubes *)

(** The inputs of the stage runs that do not skip the cube building. *)
Definition cubes (t : list entry) : list string :=
  (fun x => x.2)
    <$> filter (fun x => x.1.2 !! "cube_build.skip" = None) (configured_runs t).

(** ** Fringe fits *)

(** The fringe fits of a trace: the fitter and the file. *)
Definition fits (t : list entry) : list (fitter * string) :=
  omap (fun e => match what e with
                 | FitFringes ff p => Some (ff, p)
                 | _ => None
                 end) t.

(** Printing and showing. *)
Definition is_display (c : call) : bool :=
  match c with
  | Print _ | Show _ => true
  | _ => false
  end.

(** The calls of a trace other than printing and showing. *)
Definition work (t : list entry) : list call :=
  filter (fun c => is_display c = false) (calls t).



(** [m], run on [d], makes calls of the kind [X] only. *)
Definition emits_on {A} (X : call -> Prop) (m : M A) (d : gmap string node)
  : Prop :=
  Forall (fun e => X (what e)) (trace_of (m d)).

(** ** Listings *)

(** The patterns of the listing cell of the NIRISS notebook. *)
Definition listed : list string :=
  ["jw*ramp.fits"; "jw*rate.fits"; "jw*rateints.fits"; "jw*cal.fits";
   "jw*calints.fits"].

(** [s] ends in [suffix]. *)
Definition ends (suffix s : string) : Prop := exists x, s = x +:+ suffix.

(** ** The residuals printed by [examine_observables]

    [examine_observables] prints the residual of the fit around its
    centre:
    [tlo, thi = (shape[0]//2 - 3, shape[0]//2 + 3)] and then
    [residual[tlo:thi, tlo:thi]]. *)

Module Window.

Local Open Scope Z_scope.

(** The two bounds, for a residual of [n] rows. *)
Definition bounds (n : Z) : Z * Z := (n / 2 - 3, n / 2 + 3).

(** Where a slice bound [i] falls on an axis of length [len]: a
    negative bound counts from the end, and a bound outside the axis is
    brought back to its nearest end. *)
Definition adjust (i len : Z) : Z :=
  if i <? 0
  then (if i + len <? 0 then 0 else i + len)
  else (if len <=? i then len else i).

(** [a[lo:hi]] on an axis of length [len]: the first index taken and
    the first index not taken. *)
Definition slice (lo hi len : Z) : Z * Z := (adjust lo len, adjust hi len).

(** How many indices [a[lo:hi]] takes. *)
Definition taken (lo hi len : Z) : Z :=
  Z.max 0 (adjust hi len - adjust lo len).

(** The rows and the columns printed for a residual of [n] rows and
    [m] columns: both windows are cut with the bounds computed from the
    rows. *)
Definition printed_rows (n : Z) : Z := taken (bounds n).1 (bounds n).2 n.
Definition printed_columns (n m : Z) : Z := taken (bounds n).1 (bounds n).2 m.

End Window.

(** ** What a computation leaves in its trace *)

(** Of what [read] picks, [m] leaves the first items of [l], and all
    of [l] when it returns. *)
Definition yields {A X} (read : list entry -> list X) (l : list X) (m : M A)
  : Prop :=
  forall d,
    read (trace_of (m d)) `prefix_of` l /\
    (returned (result_of (m d)) -> read (trace_of (m d)) = l).

(** The fitter of the ImPlaneIA loop of the NIRISS notebook. *)
Definition notebook_fitter : fitter :=
  {| usebp := false;
     firstfew := Some 5;
     oitdir := "pipeline_calibrated_data_corr/Saveoit";
     oifdir := "pipeline_calibrated_data_corr/Saveoif";
     oversample := 7;
     interactive := false;
     save_txt_only := false |}.

(** ** The notebooks as scripts

    The cells once more, with their control flow written out: a
    script is a statement, a sequence, a conditional on one of the
    conditions the notebooks test, or a loop over a list of names.
    [exec] gives a script the computation it stands for. *)

Module Script.

(** What the notebooks test. *)
Inductive cond :=
  | PathExists (p : string)
  | PathMissing (p : string)
  | IsVerbose (verbose : bool)
  | SameName (file hardcoded : string).

Inductive t : Type -> Type :=
  | Do {A} (m : M A) : t A
  | Then {A B} (s : t A) (k : A -> t B) : t B
  | If {A} (c : cond) (yes no : t A) : t A
  | For (l : list string) (body : string -> t unit) : t unit
  | ForWith {S} (l : list string) (s : S) (body : S -> string -> t S) : t S.

Fixpoint exec {A} (s : t A) : M A :=
  match s in t A return M A with
  | Do m => m
  | Then s k => bind (exec s) (fun a => exec (k a))
  | If c yes no =>
      match c with
      | PathExists p =>
          bind (exists_ p) (fun b => if b then exec yes else exec no)
      | PathMissing p =>
          bind (exists_ p) (fun b => if negb b then exec yes else exec no)
      | IsVerbose verbose => if verbose then exec yes else exec no
      | SameName file hardcoded =>
          if String.eqb file hardcoded then exec yes else exec no
      end
  | For l body => for_ l (fun x => exec (body x))
  | ForWith l s body => for_with l s (fun s x => exec (body s x))
  end.

(** Every condition the script [s] tests, on whatever run, is one of
    [X]. *)
Fixpoint tests {A} (X : cond -> Prop) (s : t A) : Prop :=
  match s with
  | Do _ => True
  | Then s k => tests X s /\ forall a, tests X (k a)
  | If c yes no => X c /\ tests X yes /\ tests X no
  | For l body => forall x, tests X (body x)
  | ForWith l s body => forall s x, tests X (body s x)
  end.

End Script.

Declare Scope script_scope.
Delimit Scope script_scope with script.
Bind Scope script_scope with Script.t.

Notation "x <- s ;; k" := (Script.Then s (fun x => k))
  (at level 100, s at next level, right associativity) : script_scope.
Notation "s ;; k" := (Script.Then s (fun _ => k))
  (at level 100, right associativity) : script_scope.

(** The MRS notebook, cell by cell. *)

Module MRSScript.

Section Cells.

Context (ext : externals).

Local Open Scope script_scope.

Definition cell_download : Script.t unit :=
  Script.If (Script.PathExists "20210413_120546_mirisim.tar.gz")
    (Script.Do (print "20210413_120546_mirisim.tar.gz Exists"))
    (Script.Do
       (urlretrieve ext MRS.url_120546 "./20210413_120546_mirisim.tar.gz")) ;;
  Script.If (Script.PathExists "20210413_123047_mirisim.tar.gz")
    (Script.Do (print "20210413_123047_mirisim.tar.gz Exists"))
    (Script.Do
       (urlretrieve ext MRS.url_123047 "./20210413_123047_mirisim.tar.gz")) ;;
  Script.If (Script.PathExists "20210413_125354_mirisim.tar.gz")
    (Script.Do (print "20210413_125354_mirisim.tar.gz Exists"))
    (Script.Do
       (urlretrieve ext MRS.url_125354 "./20210413_125354_mirisim.tar.gz")).

Definition cell_untar : Script.t unit :=
  Script.If (Script.PathExists "20210413_120546_mirisim/")
    (Script.Do (print "20210413_120546_mirisim Exists"))
    (Script.Do (extractall ext "./20210413_120546_mirisim.tar.gz")) ;;
  Script.If (Script.PathExists "20210413_123047_mirisim/")
    (Script.Do (print "20210413_123047_mirisim Exists"))
    (Script.Do (extractall ext "./20210413_123047_mirisim.tar.gz")) ;;
  Script.If (Script.PathExists "20210413_125354_mirisim/")
    (Script.Do (print "20210413_125354_mirisim Exists"))
    (Script.Do (extractall ext "./20210413_125354_mirisim.tar.gz")).

Definition detector1_body (pipe : gmap string attr) (shortfile : string)
  : Script.t (gmap string attr) :=
  Script.Do (print shortfile) ;;
  base_remainder <- Script.Do (lift (Py.unpack2 (Py.split "." shortfile))) ;;
  before_dateafter <-
    Script.Do (lift (Py.unpack2 (Py.split "20210413_" shortfile))) ;;
  datestring_after <-
    Script.Do (lift (Py.unpack2 (Py.split "_mirisim" before_dateafter.2))) ;;
  let pipe := <["refpix.skip" := ABool true]> pipe in
  let pipe :=
    <["output_file" := AStr (base_remainder.1 +:+ datestring_after.1)]> pipe in
  Script.Do (run ext Detector1 pipe shortfile) ;;
  Script.Do (ret pipe).

Definition detector1_loop (files : list string)
  : Script.t (gmap string attr) :=
  Script.ForWith files ∅ detector1_body.

Definition cell_detector1 : Script.t unit :=
  allshortfiles <-
    Script.Do (glob "20210413_*_mirisim/det_images/*MIRIFUSHORT*fits") ;;
  alllongfiles <-
    Script.Do (glob "20210413_*_mirisim/det_images/*MIRIFULONG*fits") ;;
  detector1_loop allshortfiles ;;
  detector1_loop alllongfiles ;;
  Script.Do (ret tt).

Definition spec2_body (hardcoded file : string) : Script.t unit :=
  Script.Do (print file) ;;
  let pipe2 : gmap string attr := ∅ in
  base_remainder <- Script.Do (lift (Py.unpack2 (Py.split "." file))) ;;
  let pipe2 := <["straylight.skip" := ABool true]> pipe2 in
  pipe2 <- Script.If (Script.SameName file hardcoded)
             (Script.Do (print "this one will have the level 2b cube built") ;;
              Script.Do (ret pipe2))
             (Script.Do (ret (<["cube_build.skip" := ABool true]> pipe2))) ;;
  let pipe2 := <["extract_1d.skip" := ABool true]> pipe2 in
  let pipe2 := <["output_file" := AStr base_remainder.1]> pipe2 in
  Script.Do (run ext Spec2 pipe2 file).

Definition cell_spec2 : Script.t unit :=
  allshortfiles2 <- Script.Do (glob "det_image_*_MIRIFUSHORT_*_rate.fits") ;;
  alllongfiles2 <- Script.Do (glob "det_image_*_MIRIFULONG_*_rate.fits") ;;
  Script.For allshortfiles2 (spec2_body MRS.short_cube_rate) ;;
  Script.For alllongfiles2 (spec2_body MRS.long_cube_rate).

(** The source detection is one step here, as in [detect]: its loops
    over the pixels of the cube and over the sources found are inside
    it. *)
Definition cell_detect : Script.t (Q * Q) :=
  Script.Do (detect ext MRS.s_cube_file).

Definition header_fix_body (targra targdec : Q) (thisfile : string)
  : Script.t unit :=
  base_remainder <- Script.Do (lift (Py.unpack2 (Py.split "." thisfile))) ;;
  let outfilename := MRS.fix_name base_remainder.1 base_remainder.2 in
  Script.Do (print outfilename) ;;
  hduthis <- Script.Do (fits_open thisfile) ;;
  hduthis <- Script.Do (set_by_name "SCI" "SRCTYPE" (HStr "POINT") hduthis) ;;
  hduthis <- Script.Do (set_by_index 0 "TARG_RA" (HNum targra) hduthis) ;;
  hduthis <- Script.Do (set_by_index 0 "TARG_DEC" (HNum targdec) hduthis) ;;
  Script.Do (writeto hduthis outfilename true).

Definition cell_header_fix (radec : Q * Q) : Script.t unit :=
  all_files <- Script.Do (glob "det_image_*_cal.fits") ;;
  let targra := radec.1 in
  let targdec := radec.2 in
  Script.For all_files (header_fix_body targra targdec).

Definition cell_asn : Script.t string :=
  file_all_list <- Script.Do (glob "det_image_*_cal_fix.fits") ;;
  asnall <-
    Script.Do (asn_from_list ext file_all_list "combine_dithers_all_exposures") ;;
  let asnallfile := "for_spec3_all.json" in
  Script.Do (write_text asnallfile asnall) ;;
  Script.Do (ret asnallfile).

Definition cell_spec3 (asnallfile : string) : Script.t unit :=
  Script.Do (run ext Spec3 MRS.spec3_config asnallfile).

Definition notebook : Script.t unit :=
  cell_download ;;
  cell_untar ;;
  cell_detector1 ;;
  cell_spec2 ;;
  radec <- cell_detect ;;
  cell_header_fix radec ;;
  asnallfile <- cell_asn ;;
  cell_spec3 asnallfile.

End Cells.

End MRSScript.


(** The NIRISS AMI notebook, cell by cell. *)

Module NIRISSScript.

Section Cells.

Context (ext : externals).

Local Open Scope script_scope.

Definition cell_download : Script.t unit :=
  Script.If (Script.PathMissing NIRISS.boxfile)
    (Script.Do (urlretrieve ext NIRISS.boxlink NIRISS.boxfile) ;;
     Script.Do (extractall ext NIRISS.boxfile))
    (Script.Do (ret tt)).

Definition cell_datafiles : Script.t (list string) :=
  found <- Script.Do (glob (Path.joinpath NIRISS.inflightdata "jw*uncal.fits")) ;;
  let datafiles := Glob.sorted found in
  Script.For datafiles (fun i => Script.Do (print i)) ;;
  Script.Do (ret datafiles).

Definition cell_examine_raw (datafiles : list string) : Script.t unit :=
  Script.For datafiles (fun df =>
    file <- Script.Do (fits_open df) ;;
    Script.Do (show ext "file.info()") ;;
    Script.Do (lift (Py.subscript file 1)) ;;
    Script.Do (show ext "im[0].shape") ;;
    primary <- Script.Do (lift (Py.subscript file 0)) ;;
    targprop <- Script.Do (card (header primary) "TARGPROP") ;;
    Script.Do (print (text_of targprop))) ;;
  Script.Do (lift (Py.subscript datafiles 0)) ;;
  Script.Do (lift (Py.subscript datafiles 1)) ;;
  Script.Do
    (show ext "NRM + F480M raw exposures (last group of integration 1) at POS1").

Definition cell_outdir : Script.t unit :=
  Script.If (Script.PathMissing NIRISS.outdir)
    (Script.Do (mkdir NIRISS.outdir) ;;
     Script.Do (print ("Created " +:+ NIRISS.outdir)))
    (Script.Do (ret tt)).

Definition pipelines_body (df : string) : Script.t unit :=
  let result1 : gmap string attr := ∅ in
  let result1 := <["ipc.skip" := ABool true]> result1 in
  let result1 := <["save_results" := ABool true]> result1 in
  let result1 := <["save_calibrated_ramp" := ABool true]> result1 in
  let result1 := <["output_dir" := AStr NIRISS.outdir]> result1 in
  Script.Do (run ext Detector1 result1 df) ;;
  let df_rate :=
    Path.joinpath NIRISS.outdir (Py.replace "uncal" "rate" (Path.name df)) in
  let result2 : gmap string attr := ∅ in
  let result2 := <["photom.skip" := ABool true]> result2 in
  let result2 := <["resample.skip" := ABool true]> result2 in
  let result2 := <["save_results" := ABool true]> result2 in
  let result2 := <["output_dir" := AStr NIRISS.outdir]> result2 in
  Script.Do (run ext Image2 result2 df_rate) ;;
  let df_rateints :=
    Path.joinpath NIRISS.outdir (Py.replace "uncal" "rateints" (Path.name df)) in
  let result3 : gmap string attr := ∅ in
  let result3 := <["photom.skip" := ABool true]> result3 in
  let result3 := <["resample.skip" := ABool true]> result3 in
  let result3 := <["save_results" := ABool true]> result3 in
  let result3 := <["output_dir" := AStr NIRISS.outdir]> result3 in
  Script.Do (run ext Image2 result3 df_rateints).

Definition cell_pipelines (datafiles : list string) : Script.t unit :=
  Script.For datafiles pipelines_body.

Definition listing (pat : string) : Script.t (list string) :=
  found <- Script.Do (glob (Path.joinpath NIRISS.outdir pat)) ;;
  let files := Glob.sorted found in
  Script.Do (print (String.concat NIRISS.nl files)) ;;
  Script.Do (ret files).

Definition cell_listing
  : Script.t (list string * list string * list string * list string) :=
  rampfiles <- listing "jw*ramp.fits" ;;
  ratefiles <- listing "jw*rate.fits" ;;
  rateintsfiles <- listing "jw*rateints.fits" ;;
  calfiles <- listing "jw*cal.fits" ;;
  calintsfiles <- listing "jw*calints.fits" ;;
  Script.Do (ret (ratefiles, rateintsfiles, calfiles, calintsfiles)).

Definition cell_info (first second : list string) : Script.t unit :=
  Script.For first (fun f => Script.Do (show ext ("fits.info " +:+ f))) ;;
  Script.For second (fun f => Script.Do (show ext ("fits.info " +:+ f))).

Definition cell_display_cal (calintsfiles : list string) : Script.t unit :=
  Script.For calintsfiles (fun df =>
    Script.Do (print df) ;;
    file <- Script.Do (fits_open df) ;;
    Script.Do (lift (Py.subscript file 1)) ;;
    Script.Do (show ext "im.shape")) ;;
  Script.Do
    (show ext "NRM + F480M calibrated exposures (first integration) at POS1") ;;
  Script.Do (lift (Py.subscript calintsfiles 0)) ;;
  Script.Do (show ext "imshow(data[0][0])") ;;
  Script.Do (lift (Py.subscript calintsfiles 1)) ;;
  Script.Do (show ext "imshow(data[1][0])").

Definition cell_bp_fix : Script.t (list string) :=
  Script.Do (correct_fitsfiles ext NIRISS.outdir NIRISS.datasuperdir) ;;
  found <-
    Script.Do (glob (Path.joinpath NIRISS.datasuperdir "*calints.fits")) ;;
  let calintfiles_corr := Glob.sorted found in
  Script.Do (print (String.concat NIRISS.nl calintfiles_corr)) ;;
  Script.Do (ret calintfiles_corr).

Definition cell_display_corr (calintfiles_corr : list string)
  : Script.t unit :=
  Script.For calintfiles_corr (fun df =>
    file <- Script.Do (fits_open df) ;;
    Script.Do (lift (Py.subscript file 1)) ;;
    Script.Do (show ext "im.shape")) ;;
  Script.Do
    (show ext
       "NRM + F480M calibrated exposures at POS1 (after fixing bad pixels)") ;;
  Script.Do (lift (Py.subscript calintfiles_corr 0)) ;;
  Script.Do (show ext "imshow(data[0])") ;;
  Script.Do (lift (Py.subscript calintfiles_corr 1)) ;;
  Script.Do (show ext "imshow(data[1])").

Definition examine_observables : Script.t unit :=
  Script.Do (show ext "Examine_observables").

Definition raw_observables (fitsfn fitsimdir oitdir oifdir : string)
  (oversample : nat) (firstfew : option nat) (usebp verbose : bool)
  : Script.t unit :=
  Script.If (Script.IsVerbose verbose)
    (Script.Do
       (print ("raw_observables: input " +:+ Path.joinpath fitsimdir fitsfn)))
    (Script.Do (ret tt)) ;;
  Script.If (Script.IsVerbose verbose)
    (Script.Do (print ("raw_observables: oversample " +:+ pretty oversample)))
    (Script.Do (ret tt)) ;;
  fobj <- Script.Do (fits_open (Path.joinpath fitsimdir fitsfn)) ;;
  primary <- Script.Do (lift (match fobj !! 0 with
                              | Some h => Py.Ok (header h)
                              | None => Py.Err Py.IndexError
                              end)) ;;
  Script.If (Script.IsVerbose verbose)
    (band <- Script.Do (card primary "FILTER") ;;
     Script.Do (print (text_of band)))
    (Script.Do (ret tt)) ;;
  Script.Do (card primary "FILTER") ;;
  let ff := {| usebp := usebp;
               firstfew := firstfew;
               oitdir := oitdir;
               oifdir := oifdir;
               oversample := oversample;
               interactive := false;
               save_txt_only := false |} in
  Script.Do (fit_fringes ext ff (Path.joinpath fitsimdir fitsfn)) ;;
  examine_observables ;;
  Script.If (Script.IsVerbose verbose)
    (Script.Do (show ext "raw_observables: fringepistons/rad"))
    (Script.Do (ret tt)).

Definition main (fitsimdir oitdir oifdir ifn : string) (oversample : nat)
  (firstfew : option nat) (verbose usebp : bool) : Script.t unit :=
  Script.If (Script.IsVerbose verbose)
    (Script.Do (print ("main:  " +:+ ifn)))
    (Script.Do (ret tt)) ;;
  Script.If (Script.IsVerbose verbose)
    (Script.Do (print ("main: fitsimdir " +:+ fitsimdir)))
    (Script.Do (ret tt)) ;;
  raw_observables ifn fitsimdir oitdir oifdir oversample firstfew
                  usebp verbose ;;
  Script.Do (show ext "aff, psf_offset_r, psf_offset_ff, fringepistons").

Definition implaneia_body (COUNT : nat) (fnmir : string) : Script.t nat :=
  Script.Do
    (print (NIRISS.nl +:+ "Analyzing" +:+ NIRISS.nl +:+ "   " +:+ " "
            +:+ pretty COUNT +:+ " " +:+ Py.replace ".fits" "" fnmir +:+ " ")) ;;
  hdr <- Script.Do (getheader (Path.joinpath NIRISS.datasuperdir fnmir)) ;;
  band <- Script.Do (card hdr "FILTER") ;;
  Script.Do (print (text_of band +:+ " ")) ;;
  targname <- Script.Do (card hdr "TARGNAME") ;;
  Script.Do (print (text_of targname +:+ " ")) ;;
  targprop <- Script.Do (card hdr "TARGPROP") ;;
  Script.Do (print (text_of targprop)) ;;
  targprop <- Script.Do (card hdr "TARGPROP") ;;
  catname <- Script.Do (replace_in "-" "" targprop) ;;
  Script.Do
    (setval (Path.joinpath NIRISS.datasuperdir fnmir) "TARGNAME" catname) ;;
  Script.Do
    (setval (Path.joinpath NIRISS.datasuperdir fnmir) "TARGPROP" catname) ;;
  let usebp := false in
  main NIRISS.datasuperdir
       (Path.joinpath NIRISS.datasuperdir "Saveoit")
       (Path.joinpath NIRISS.datasuperdir "Saveoif")
       fnmir NIRISS.OVERSAMPLE NIRISS.FIRSTFEW true usebp ;;
  Script.Do (ret (COUNT + 1)).

Definition cell_implaneia : Script.t unit :=
  Script.Do (print ("FIRSTFEW 5 OVERSAMPLE 7")) ;;
  Script.ForWith NIRISS.mirdatafiles 0 implaneia_body ;;
  Script.Do (ret tt).

Definition cell_products : Script.t unit :=
  results_int0 <-
    Script.Do
      (glob (Path.joinpath
               (Path.joinpath (Path.joinpath NIRISS.datasuperdir "Saveoit")
                              "jw01093012001_03102_00001_nis_calints")
               "*00*")) ;;
  Script.Do (show ext "results_int0") ;;
  let dir := Path.joinpath (Path.joinpath NIRISS.datasuperdir "Saveoit")
                           "jw01093012001_03102_00001_nis_calints" in
  Script.Do (fits_open (Path.joinpath dir "centered_0.fits")) ;;
  Script.Do (fits_open (Path.joinpath dir "modelsolution_00.fits")) ;;
  Script.Do (fits_open (Path.joinpath dir "residual_00.fits")) ;;
  Script.Do (fits_open (Path.joinpath dir "n_residual_00.fits")) ;;
  Script.Do (show ext "AB Dor cropped data, analytical model, residual") ;;
  Script.Do (show ext "AB Dor normalized residual") ;;
  oifiles <-
    Script.Do
      (glob (Path.joinpath (Path.joinpath NIRISS.datasuperdir "Saveoif")
                           "*oifits")) ;;
  Script.Do (show ext "oifiles").

Definition cell_calibrate : Script.t unit :=
  let targ_oifits :=
    Path.joinpath (Path.joinpath NIRISS.datasuperdir "Saveoif")
                  "jw01093012001_03102_00001_nis.oifits" in
  let cal_oifits :=
    Path.joinpath (Path.joinpath NIRISS.datasuperdir "Saveoif")
                  "jw01093015001_03102_00001_nis.oifits" in
  Script.Do (print "************  Running calibrate ***************") ;;
  Script.Do (print "Calibrating  AB Dor with HD37093") ;;
  Script.Do
    (calibrate_oifits ext targ_oifits cal_oifits
       (Path.joinpath NIRISS.datasuperdir "Saveoif")) ;;
  Script.Do
    (print "The output of calibrate is calibrated oifits file that will be used as an input to 3_niriss_ami_binary.ipynb.").

Definition notebook : Script.t unit :=
  cell_download ;;
  datafiles <- cell_datafiles ;;
  cell_examine_raw datafiles ;;
  cell_outdir ;;
  cell_pipelines datafiles ;;
  lists <- cell_listing ;;
  cell_info lists.1.1.2 lists.1.1.1 ;;
  cell_info lists.2 lists.1.2 ;;
  cell_display_cal lists.2 ;;
  calintfiles_corr <- cell_bp_fix ;;
  cell_display_corr calintfiles_corr ;;
  cell_implaneia ;;
  cell_products ;;
  cell_calibrate.

End Cells.

End NIRISSScript.


(** What the MRS notebook may test: whether one of its three archives
    or one of the three directories unpacked from them exists, and
    whether a file name is one of the two hard-coded names of the
    calwebb_spec2 loops. *)
Definition mrs_tests (c : Script.cond) : Prop :=
  match c with
  | Script.PathExists p =>
      p ∈ ["20210413_120546_mirisim.tar.gz"; "20210413_123047_mirisim.tar.gz";
           "20210413_125354_mirisim.tar.gz"; "20210413_120546_mirisim/";
           "20210413_123047_mirisim/"; "20210413_125354_mirisim/"]
  | Script.SameName _ hardcoded =>
      hardcoded = MRS.short_cube_rate \/ hardcoded = MRS.long_cube_rate
  | _ => False
  end.

(** What the NIRISS notebook may test: whether its archive or its
    output directory is missing, and [verbose], which is [True] in
    every call it makes. *)
Definition niriss_tests (c : Script.cond) : Prop :=
  match c with
  | Script.PathMissing p => p = NIRISS.boxfile \/ p = NIRISS.outdir
  | Script.IsVerbose verbose => verbose = true
  | _ => False
  end.

(** * Properties *)

(** ** Strings *)

Section StringFacts.

Implicit Types (s sep cur : string) (k : nat).

Lemma append_cons c s t : String c s +:+ t = String c (s +:+ t).
Proof. reflexivity. Qed.

Lemma append_nil_l t : "" +:+ t = t.
Proof. reflexivity. Qed.

Lemma append_nil_r s : s +:+ "" = s.
Proof.
  induction s as [|c s IH]; [done|]. by rewrite append_cons, IH.
Qed.

Lemma append_assoc s1 s2 s3 : (s1 +:+ s2) +:+ s3 = s1 +:+ (s2 +:+ s3).
Proof.
  induction s1 as [|c s1 IH]; [done|]. by rewrite !append_cons, IH.
Qed.

Lemma append_snoc s c t : (s +:+ String c "") +:+ t = s +:+ String c t.
Proof. by rewrite append_assoc. Qed.

Lemma length_append s t :
  String.length (s +:+ t) = String.length s + String.length t.
Proof.
  induction s as [|c s IH]; [done|]. rewrite append_cons. simpl. by rewrite IH.
Qed.

Lemma startswith_cons a p c s :
  Py.startswith (String a p) (String c s) =
    if ascii_dec a c then Py.startswith p s else false.
Proof. reflexivity. Qed.

Lemma startswith_nil s : Py.startswith "" s = true.
Proof. by destruct s. Qed.

Lemma startswith_length sep s :
  Py.startswith sep s = true -> String.length sep <= String.length s.
Proof.
  unfold Py.startswith.
  revert s. induction sep as [|a sep IH]; intros [|b s]; simpl;
    intros H; try discriminate; try lia.
  destruct (ascii_dec a b); [|discriminate].
  apply IH in H. lia.
Qed.

Lemma startswith_append sep s : Py.startswith sep (sep +:+ s) = true.
Proof.
  unfold Py.startswith.
  induction sep as [|a sep IH]; [by destruct s|].
  rewrite append_cons. simpl. destruct (ascii_dec a a); [done|congruence].
Qed.

Lemma startswith_split sep s :
  Py.startswith sep s = true ->
  s = sep +:+ Py.drop (String.length sep) s.
Proof.
  unfold Py.startswith.
  revert s. induction sep as [|a sep IH]; intros [|b s]; simpl; try done.
  destruct (ascii_dec a b) as [->|]; [|discriminate].
  intros H. rewrite append_cons. f_equal. by apply IH.
Qed.

Lemma drop_append s t : Py.drop (String.length s) (s +:+ t) = t.
Proof. induction s as [|c s IH]; [by destruct t|done]. Qed.

(** Passing over [k] pending characters is dropping them. *)
Lemma split_at_skip sep k cur s :
  k <= String.length s ->
  Py.split_at sep k cur s = Py.split_at sep 0 cur (Py.drop k s).
Proof.
  revert k. induction s as [|c s IH]; intros [|k] Hk; simpl in *; try done.
  apply IH. lia.
Qed.

Lemma count_at_skip sep k s :
  k <= String.length s ->
  Py.count_at sep k s = Py.count_at sep 0 (Py.drop k s).
Proof.
  revert k. induction s as [|c s IH]; intros [|k] Hk; simpl in *; try done.
  apply IH. lia.
Qed.

Lemma replace_at_skip old new k s :
  k <= String.length s ->
  Py.replace_at old new k s = Py.replace_at old new 0 (Py.drop k s).
Proof.
  revert k. induction s as [|c s IH]; intros [|k] Hk; simpl in *; try done.
  apply IH. lia.
Qed.

(** A split has one piece more than there are separators. *)
Lemma length_split_at sep k cur s :
  length (Py.split_at sep k cur s) = S (Py.count_at sep k s).
Proof.
  revert k cur. induction s as [|c s IH]; intros k cur; simpl; [done|].
  destruct k as [|k]; [|apply IH].
  destruct (Py.startswith sep (String c s)); simpl; by rewrite IH.
Qed.

Lemma length_split sep s : length (Py.split sep s) = S (Py.count sep s).
Proof. apply length_split_at. Qed.

(** The pieces of a split: what comes before the first separator, then
    the split of what comes after it. *)
Lemma split_at_partition sep cur s :
  sep <> "" ->
  Py.split_at sep 0 cur s =
    match Py.partition sep s with
    | None => [cur +:+ s]
    | Some (a, b) => (cur +:+ a) :: Py.split sep b
    end.
Proof.
  intros Hsep. revert cur.
  induction s as [|c s IH]; intros cur.
  - destruct sep; [done|]. simpl. by rewrite append_nil_r.
  - cbn [Py.split_at Py.partition].
    destruct (Py.startswith sep (String c s)) eqn:Hp.
    + rewrite append_nil_r. f_equal.
      pose proof (startswith_length _ _ Hp) as Hlen.
      destruct sep as [|a sep]; [done|].
      simpl in *. rewrite Nat.sub_0_r.
      unfold Py.split. apply split_at_skip. lia.
    + rewrite IH. destruct (Py.partition sep s) as [[a b]|].
      * by rewrite append_snoc.
      * by rewrite append_snoc.
Qed.

Lemma split_partition sep s :
  sep <> "" ->
  Py.split sep s =
    match Py.partition sep s with
    | None => [s]
    | Some (a, b) => a :: Py.split sep b
    end.
Proof. intros H. unfold Py.split at 1. by rewrite split_at_partition. Qed.

Lemma partition_spec sep s a b :
  Py.partition sep s = Some (a, b) -> s = a +:+ sep +:+ b.
Proof.
  revert a b. induction s as [|c s IH]; intros a b; cbn [Py.partition].
  - destruct (Py.startswith sep "") eqn:Hp; [|done].
    intros [= <- <-]. rewrite append_nil_l. by apply startswith_split in Hp.
  - destruct (Py.startswith sep (String c s)) eqn:Hp.
    + intros [= <- <-]. rewrite append_nil_l. by apply startswith_split in Hp.
    + destruct (Py.partition sep s) as [[a' b']|]; [|done].
      intros [= <- <-]. rewrite append_cons. f_equal. by apply IH.
Qed.

Lemma count_partition sep s :
  sep <> "" ->
  Py.count sep s =
    match Py.partition sep s with
    | None => 0
    | Some (_, b) => S (Py.count sep b)
    end.
Proof.
  intros Hsep. pose proof (length_split sep s) as H.
  rewrite split_partition in H by done.
  destruct (Py.partition sep s) as [[a b]|]; simpl in H.
  - rewrite length_split in H. lia.
  - lia.
Qed.

(** Unpacking into two names succeeds on a list of two and on nothing
    else. *)
Lemma unpack2_ok l p :
  Py.unpack2 l = Py.Ok p <-> l = [p.1; p.2].
Proof.
  destruct p as [a b]. unfold Py.unpack2. simpl.
  destruct l as [|x [|y [|z l]]]; split; intros H; try done.
  - by injection H as -> ->.
  - by injection H as -> ->.
Qed.

Lemma unpack2_length l :
  (exists p, Py.unpack2 l = Py.Ok p) <-> length l = 2.
Proof.
  destruct l as [|x [|y [|z l]]]; simpl; split; try done;
    try (by intros [p Hp]); eauto.
Qed.

Lemma unpack2_err_inv l e :
  Py.unpack2 l = Py.Err e -> e = Py.ValueError /\ length l <> 2.
Proof.
  destruct l as [|x [|y [|z l]]]; simpl; try done; intros [= <-]; done.
Qed.

(** [a, b = s.split(sep)] goes through exactly when [sep] is counted
    once in [s]; the two names are then bound as [s.partition(sep)]
    has them. *)
Lemma unpack2_split sep s :
  sep <> "" ->
  match Py.unpack2 (Py.split sep s) with
  | Py.Ok p => Py.count sep s = 1 /\ Py.partition sep s = Some p
  | Py.Err e => e = Py.ValueError /\ Py.count sep s <> 1
  end.
Proof.
  intros Hsep.
  destruct (Py.unpack2 (Py.split sep s)) as [p|e] eqn:H.
  - assert (length (Py.split sep s) = 2) as Hlen
        by (apply unpack2_length; eauto).
    rewrite length_split in Hlen. split; [lia|].
    apply unpack2_ok in H. rewrite split_partition in H by done.
    destruct (Py.partition sep s) as [[a b]|]; [|done].
    injection H as -> H. destruct p as [p1 p2]; simpl in *.
    rewrite split_partition in H by done.
    destruct (Py.partition sep b) as [[a' b']|].
    + injection H as _ H. apply (f_equal length) in H.
      rewrite length_split in H. done.
    + by injection H as ->.
  - apply unpack2_err_inv in H as [-> H]. split; [done|].
    rewrite length_split in H. lia.
Qed.

Lemma drop_drop j k s : Py.drop j (Py.drop k s) = Py.drop (k + j) s.
Proof.
  revert s. induction k as [|k IH]; intros s; [done|].
  destruct s as [|c s]; [by destruct j|]. simpl. apply IH.
Qed.

Lemma drop_all s j : String.length s <= j -> Py.drop j s = "".
Proof.
  revert j. induction s as [|c s IH]; intros [|j] H; simpl in *;
    try done; try lia.
  apply IH. lia.
Qed.

Lemma drop_append_le j s t :
  j <= String.length s -> Py.drop j (s +:+ t) = Py.drop j s +:+ t.
Proof.
  revert j. induction s as [|c s IH]; intros [|j] H.
  - reflexivity.
  - simpl in H. lia.
  - reflexivity.
  - rewrite append_cons. simpl. apply IH. simpl in H. lia.
Qed.

(** If [p] begins a text that begins with the shorter [x], then [x]
    begins [p]. *)
Lemma startswith_shorter p x t :
  Py.startswith p (x +:+ t) = true ->
  String.length x <= String.length p ->
  Py.startswith x p = true.
Proof.
  unfold Py.startswith.
  revert p. induction x as [|c x IH]; intros p H Hlen.
  - by destruct p.
  - destruct p as [|a p]; simpl in Hlen; [lia|].
    rewrite append_cons in H. simpl in *.
    destruct (ascii_dec a c) as [->|]; [|done].
    destruct (ascii_dec c c); [|done]. apply IH; [done|lia].
Qed.

(** After an occurrence of an unbordered separator, none begins among
    its remaining characters. *)
Lemma unbordered_gap sep s j :
  unbordered sep = true ->
  Py.startswith sep s = true ->
  S j < String.length sep ->
  Py.startswith sep (Py.drop (S j) s) = false.
Proof.
  intros Hub Hp Hj.
  destruct (Py.startswith sep (Py.drop (S j) s)) eqn:Hq; [|done].
  exfalso.
  rewrite (startswith_split _ _ Hp) in Hq.
  rewrite drop_append_le in Hq by lia.
  apply startswith_shorter in Hq.
  - unfold unbordered in Hub. rewrite forallb_forall in Hub.
    specialize (Hub j). rewrite Hq in Hub.
    assert (In j (seq 0 (String.length sep - 1))) as Hin
        by (apply in_seq; lia).
    by specialize (Hub Hin).
  - clear. revert j. induction sep as [|a sep IH]; intros j; [by destruct j|].
    destruct j as [|j]; simpl.
    + clear. induction sep; simpl; lia.
    + specialize (IH j). simpl in IH. destruct sep; simpl in *; lia.
Qed.

(** For an unbordered separator, [count] counts every occurrence. *)
Lemma count_at_occurrences sep s k :
  unbordered sep = true -> sep <> "" ->
  k <= String.length s ->
  (forall j, j < k -> Py.startswith sep (Py.drop j s) = false) ->
  Py.count_at sep k s = Py.occurrences sep s.
Proof.
  intros Hub Hne. revert k.
  induction s as [|c s IH]; intros k Hk Hgap; [done|].
  cbn [Py.count_at Py.occurrences]. destruct k as [|k].
  - destruct (Py.startswith sep (String c s)) eqn:Hp.
    + simpl. f_equal. apply IH.
      * apply startswith_length in Hp. simpl in Hp. lia.
      * intros j Hj. apply (unbordered_gap sep (String c s) j); [done..|lia].
    + simpl. apply IH; [lia|]. intros j Hj. lia.
  - pose proof (Hgap 0 ltac:(lia)) as H0. simpl in H0. rewrite H0.
    simpl. apply IH; [simpl in Hk; lia|].
    intros j Hj. apply (Hgap (S j)). lia.
Qed.

Lemma count_occurrences sep s :
  unbordered sep = true -> sep <> "" ->
  Py.count sep s = Py.occurrences sep s.
Proof.
  intros Hub Hne. apply count_at_occurrences; [done..|lia|]. intros j Hj. lia.
Qed.

End StringFacts.

(** ** Computations *)

Section MonadFacts.

Context {A B : Type}.

Lemma bind_ok (m : M A) (k : A -> M B) d a d1 t1 :
  m d = (Py.Ok a, d1, t1) ->
  bind m k d = (result_of (k a d1), disk_of (k a d1), t1 ++ trace_of (k a d1)).
Proof.
  intros H. unfold bind. rewrite H. by destruct (k a d1) as [[r d2] t2].
Qed.

Lemma bind_err (m : M A) (k : A -> M B) d e d1 t1 :
  m d = (Py.Err e, d1, t1) -> bind m k d = (Py.Err e, d1, t1).
Proof. intros H. unfold bind. by rewrite H. Qed.

(** The trace of a sequence: the trace of its first part, then, if that
    part returned, the trace of the rest. *)
Lemma trace_bind (m : M A) (k : A -> M B) d :
  trace_of (bind m k d) =
    trace_of (m d) ++
    match result_of (m d) with
    | Py.Ok a => trace_of (k a (disk_of (m d)))
    | Py.Err _ => []
    end.
Proof.
  destruct (m d) as [[[a|e] d1] t1] eqn:H.
  - by rewrite (bind_ok _ _ _ _ _ _ H).
  - rewrite (bind_err _ _ _ _ _ _ H). simpl. by rewrite app_nil_r.
Qed.

Lemma result_bind (m : M A) (k : A -> M B) d :
  result_of (bind m k d) =
    match result_of (m d) with
    | Py.Ok a => result_of (k a (disk_of (m d)))
    | Py.Err e => Py.Err e
    end.
Proof.
  destruct (m d) as [[[a|e] d1] t1] eqn:H.
  - by rewrite (bind_ok _ _ _ _ _ _ H).
  - by rewrite (bind_err _ _ _ _ _ _ H).
Qed.

Lemma disk_bind (m : M A) (k : A -> M B) d :
  disk_of (bind m k d) =
    match result_of (m d) with
    | Py.Ok a => disk_of (k a (disk_of (m d)))
    | Py.Err e => disk_of (m d)
    end.
Proof.
  destruct (m d) as [[[a|e] d1] t1] eqn:H.
  - by rewrite (bind_ok _ _ _ _ _ _ H).
  - by rewrite (bind_err _ _ _ _ _ _ H).
Qed.

End MonadFacts.

Lemma glob_run pat (d : gmap string node) :
  glob pat d = (Py.Ok (globbed pat d), d, []).
Proof. reflexivity. Qed.

Lemma bind_glob {B} pat (k : list string -> M B) d :
  bind (glob pat) k d = k (globbed pat d) d.
Proof.
  unfold bind. rewrite glob_run. by destruct (k _ d) as [[r d'] t].
Qed.

Lemma bind_ret_l {A B} (a : A) (k : A -> M B) d :
  bind (ret a) k d = k a d.
Proof. unfold bind, ret. by destruct (k a d) as [[r d'] t]. Qed.

Lemma trace_bind_ret {A B} (m : M A) (b : B) d :
  trace_of (bind m (fun _ => ret b) d) = trace_of (m d).
Proof.
  rewrite trace_bind. destruct (result_of (m d)); simpl; by rewrite app_nil_r.
Qed.

Lemma returned_bind_ret {A B} (m : M A) (b : B) d :
  returned (result_of (bind m (fun _ => ret b) d)) <->
  returned (result_of (m d)).
Proof. rewrite result_bind. by destruct (result_of (m d)). Qed.

Lemma path_exists_insert_ne (d : gmap string node) k v p :
  Path.norm p <> k -> path_exists (<[k := v]> d) p = path_exists d p.
Proof. intros H. unfold path_exists. by rewrite lookup_insert_ne. Qed.

Lemma path_exists_lookup (d : gmap string node) p :
  path_exists d p = true -> is_Some (d !! Path.norm p).
Proof. unfold path_exists. destruct (d !! Path.norm p); eauto; done. Qed.

(** ** The download guards *)

Section Download.

Context (ext : externals).

Lemma fetch_unless_present_run name url d :
  MRS.fetch_unless_present ext name url d =
    if path_exists d name
    then (Py.Ok tt, d, [{| what := Print (name +:+ " Exists"); failed := None |}])
    else match fetch ext url with
         | Py.Ok c =>
             (Py.Ok tt, <[Path.norm ("./" +:+ name) := File c]> d,
              [{| what := Urlretrieve url ("./" +:+ name); failed := None |}])
         | Py.Err e =>
             (Py.Err e, d,
              [{| what := Urlretrieve url ("./" +:+ name);
                  failed := Some e |}])
         end.
Proof.
  unfold MRS.fetch_unless_present, bind, exists_.
  destruct (path_exists d name); [done|].
  unfold urlretrieve, emit. by destruct (fetch ext url).
Qed.

Lemma cell_download_guards :
  MRS.cell_download ext =
    (MRS.fetch_unless_present ext "20210413_120546_mirisim.tar.gz" MRS.url_120546 ;;
     MRS.fetch_unless_present ext "20210413_123047_mirisim.tar.gz" MRS.url_123047 ;;
     MRS.fetch_unless_present ext "20210413_125354_mirisim.tar.gz" MRS.url_125354)%nb.
Proof. reflexivity. Qed.

End Download.

Section DownloadClaims.

Context (ext : externals).

Ltac norm_ne := vm_compute; discriminate.

Ltac step_guard d :=
  rewrite fetch_unless_present_run;
  rewrite ?path_exists_insert_ne by norm_ne;
  match goal with
  | |- context [if path_exists d ?n then _ else _] =>
      destruct (path_exists d n) eqn:?
  end;
  [|match goal with
    | |- context [match fetch ext ?u with _ => _ end] =>
        destruct (fetch ext u) eqn:?
    end];
  cbn [fst snd app].

Ltac others_succeed H :=
  match goal with
  | F : fetch ext ?u = Py.Err _ |- _ =>
      let c := fresh in
      let Hc := fresh in
      first
        [ destruct (H "20210413_120546_mirisim.tar.gz" u) as [c Hc];
          [by repeat constructor | done | congruence]
        | destruct (H "20210413_123047_mirisim.tar.gz" u) as [c Hc];
          [by repeat constructor | done | congruence]
        | destruct (H "20210413_125354_mirisim.tar.gz" u) as [c Hc];
          [by repeat constructor | done | congruence] ]
  end.

Lemma mrs_download_cases (d : gmap string node) name url :
  (name, url) ∈ MRS.archives ->
  let r := MRS.cell_download ext d in
  (path_exists d name = true ->
     retrievals_of name (trace_of r) = [] /\ disk_of r !! name = d !! name) /\
  (path_exists d name = false ->
     length (retrievals_of name (trace_of r)) <= 1 /\
     ((forall name' url', (name', url') ∈ MRS.archives -> name' <> name ->
         exists c, fetch ext url' = Py.Ok c) ->
      retrievals_of name (trace_of r) = [(url, "./" +:+ name)])).
Proof.
  intros Hin. rewrite cell_download_guards. cbv zeta. unfold bind.
  apply list_elem_of_In in Hin. simpl in Hin.
  destruct Hin as [[= <- <-]|[[= <- <-]|[[= <- <-]|[]]]].
  all: step_guard d; try step_guard d; try step_guard d.
  all: (split; intros Hex; [try discriminate|try discriminate]).
  all: split.
  all: lazymatch goal with
       | |- _ !! _ = _ =>
           unfold disk_of; cbn [fst snd];
           rewrite ?lookup_insert_ne by norm_ne; try done
       | |- (forall _, _) -> _ =>
           intros H; first [by others_succeed H | by vm_compute]
       | |- _ <= _ => vm_compute; lia
       | |- _ = _ => by vm_compute
       end.
Qed.

(** Whatever the cell retrieves is one of its archives, and one that
    was not on disk when the cell started. *)
Lemma mrs_download_only_absent (d : gmap string node) url filename :
  (url, filename) ∈ retrievals (trace_of (MRS.cell_download ext d)) ->
  exists name,
    (name, url) ∈ MRS.archives /\ filename = "./" +:+ name /\
    path_exists d name = false.
Proof.
  rewrite cell_download_guards. unfold bind.
  step_guard d; try step_guard d; try step_guard d.
  all: intros Hin; apply list_elem_of_In in Hin; simpl in Hin.
  all: repeat match goal with
         | H : _ \/ _ |- _ => destruct H as [H|H]
         | H : False |- _ => destruct H
         | H : (_, _) = (_, _) |- _ => injection H as <- <-
         end.
  all: eexists; split; [|split; [reflexivity|eassumption]].
  all: by repeat constructor.
Qed.

Lemma niriss_download_run (d : gmap string node) :
  NIRISS.cell_download ext d =
    if path_exists d NIRISS.boxfile
    then (Py.Ok tt, d, [])
    else match fetch ext NIRISS.boxlink with
         | Py.Ok c =>
             let d1 := <[Path.norm NIRISS.boxfile := File c]> d in
             (result_of (extractall ext NIRISS.boxfile d1),
              disk_of (extractall ext NIRISS.boxfile d1),
              {| what := Urlretrieve NIRISS.boxlink NIRISS.boxfile;
                 failed := None |}
              :: trace_of (extractall ext NIRISS.boxfile d1))
         | Py.Err e =>
             (Py.Err e, d,
              [{| what := Urlretrieve NIRISS.boxlink NIRISS.boxfile;
                  failed := Some e |}])
         end.
Proof.
  unfold NIRISS.cell_download, bind at 1, exists_.
  destruct (path_exists d NIRISS.boxfile); [done|].
  cbn [negb]. unfold bind, urlretrieve, emit.
  destruct (fetch ext NIRISS.boxlink); cbn [raised wrote threw written];
    [|done].
  by destruct (extractall ext NIRISS.boxfile _) as [[r d2] t2].
Qed.

Lemma extractall_trace archive (d : gmap string node) :
  calls (trace_of (extractall ext archive d)) = [Extractall archive].
Proof. reflexivity. Qed.

End DownloadClaims.

(** C1. Both notebooks download an archive only when no file of that
    name is on disk.  MRS cell, for each of its three archives: if the
    file exists when the cell starts, the cell attempts no retrieval
    into it and leaves it as it was; if it does not exist, the cell
    attempts at most one retrieval into it, and exactly one, from the
    archive's address, when the retrievals of the other archives
    return; every retrieval the cell attempts is into an archive that
    was absent.  NIRISS cell: if the zip exists nothing is retrieved and
    the disk is unchanged; if not, exactly one retrieval is attempted.
    The MRS cell is three times the same guard, and a guard that is
    reached retrieves nothing and changes nothing when its file
    exists, and attempts exactly one retrieval when it does not. *)
Theorem download_only_when_absent (ext : externals) (d : gmap string node) :
  (forall name url, (name, url) ∈ MRS.archives ->
     let r := MRS.cell_download ext d in
     (path_exists d name = true ->
        retrievals_of name (trace_of r) = [] /\
        disk_of r !! name = d !! name) /\
     (path_exists d name = false ->
        length (retrievals_of name (trace_of r)) <= 1 /\
        ((forall name' url', (name', url') ∈ MRS.archives -> name' <> name ->
            exists c, fetch ext url' = Py.Ok c) ->
         retrievals_of name (trace_of r) = [(url, "./" +:+ name)]))) /\
  (forall url filename,
     (url, filename) ∈ retrievals (trace_of (MRS.cell_download ext d)) ->
     exists name,
       (name, url) ∈ MRS.archives /\ filename = "./" +:+ name /\
       path_exists d name = false) /\
  (let r := NIRISS.cell_download ext d in
   (path_exists d "niriss_ami_binary2_inflight.zip" = true ->
      retrievals (trace_of r) = [] /\ disk_of r = d) /\
   (path_exists d "niriss_ami_binary2_inflight.zip" = false ->
      retrievals (trace_of r) =
        [("https://data.science.stsci.edu/redirect/JWST/jwst-data_analysis_tools/niriss_ami_binary/niriss_ami_binary2_inflight.zip",
          "niriss_ami_binary2_inflight.zip")])) /\
  (forall name url,
     let g := MRS.fetch_unless_present ext name url d in
     (path_exists d name = true ->
        retrievals (trace_of g) = [] /\ disk_of g = d) /\
     (path_exists d name = false ->
        retrievals (trace_of g) = [(url, "./" +:+ name)])) /\
  MRS.cell_download ext =
    (MRS.fetch_unless_present ext "20210413_120546_mirisim.tar.gz" MRS.url_120546 ;;
     MRS.fetch_unless_present ext "20210413_123047_mirisim.tar.gz" MRS.url_123047 ;;
     MRS.fetch_unless_present ext "20210413_125354_mirisim.tar.gz" MRS.url_125354)%nb.
Proof.
  split; [|split; [|split; [|split]]].
  - intros name url Hin. by apply mrs_download_cases.
  - apply mrs_download_only_absent.
  - cbv zeta. rewrite niriss_download_run.
    change NIRISS.boxfile with "niriss_ami_binary2_inflight.zip".
    destruct (path_exists d "niriss_ami_binary2_inflight.zip").
    + split; [done|]. intros; discriminate.
    + split; [intros; discriminate|]. intros _.
      destruct (fetch ext NIRISS.boxlink); reflexivity.
  - intros name url. cbv zeta. rewrite fetch_unless_present_run.
    destruct (path_exists d name).
    + split; [done|]. intros; discriminate.
    + split; [intros; discriminate|]. intros _.
      destruct (fetch ext url); reflexivity.
  - apply cell_download_guards.
Qed.

Lemma download_only_when_absent_witness :
  let r := MRS.cell_download Sample.quiet Sample.second_archive_only in
  (retrievals_of "20210413_123047_mirisim.tar.gz" (trace_of r) = [] /\
   disk_of r !! "20210413_123047_mirisim.tar.gz" = Some (File (Bytes "kept"))) /\
  retrievals_of "20210413_120546_mirisim.tar.gz" (trace_of r)
    = [(MRS.url_120546, "./20210413_120546_mirisim.tar.gz")].
Proof.
  destruct (download_only_when_absent Sample.quiet Sample.second_archive_only)
    as [H _].
  split.
  - apply (H "20210413_123047_mirisim.tar.gz" MRS.url_123047).
    + by repeat constructor.
    + by vm_compute.
  - apply (H "20210413_120546_mirisim.tar.gz" MRS.url_120546).
    + by repeat constructor.
    + by vm_compute.
    + intros name' url' _ _. by eexists.
Defined.

(** C8. In the NIRISS download cell the archive is unpacked only in
    the branch that has just downloaded it.  If the zip is on disk when
    the cell runs, the cell does nothing at all: no call, no change to
    the disk, whether or not the unpacked directory is there.  And
    whenever the cell does unpack, the zip was absent and the cell had
    just retrieved it. *)
Theorem niriss_unpacks_only_after_download
  (ext : externals) (d : gmap string node) :
  (path_exists d "niriss_ami_binary2_inflight.zip" = true ->
     NIRISS.cell_download ext d = (Py.Ok tt, d, []) /\
     extractions (trace_of (NIRISS.cell_download ext d)) = [] /\
     path_exists (disk_of (NIRISS.cell_download ext d))
                 "niriss_ami_binary2_inflight"
       = path_exists d "niriss_ami_binary2_inflight") /\
  (extractions (trace_of (NIRISS.cell_download ext d)) <> [] ->
     path_exists d "niriss_ami_binary2_inflight.zip" = false /\
     calls (trace_of (NIRISS.cell_download ext d)) =
       [Urlretrieve NIRISS.boxlink "niriss_ami_binary2_inflight.zip";
        Extractall "niriss_ami_binary2_inflight.zip"]).
Proof.
  rewrite niriss_download_run.
  change NIRISS.boxfile with "niriss_ami_binary2_inflight.zip".
  destruct (path_exists d "niriss_ami_binary2_inflight.zip").
  - split; [done|]. intros H. by destruct H.
  - split; [intros; discriminate|].
    destruct (fetch ext NIRISS.boxlink) as [c|e].
    + intros _. split; [done|]. reflexivity.
    + intros H. by destruct H.
Qed.

Lemma niriss_unpacks_only_after_download_witness :
  path_exists Sample.zip_only "niriss_ami_binary2_inflight" = false /\
  NIRISS.cell_download Sample.quiet Sample.zip_only
    = (Py.Ok tt, Sample.zip_only, []).
Proof.
  split; [by vm_compute|].
  apply (niriss_unpacks_only_after_download Sample.quiet Sample.zip_only).
  by vm_compute.
Defined.

(** ** Loops *)

Section LoopFacts.

Context {A X : Type}.

(** [read] picks from a trace what a property is about; [each x] is
    what one turn of the loop on [x] is expected to leave there. *)
Context (read : list entry -> list X) (each : A -> list X).
Context (read_app : forall t1 t2, read (t1 ++ t2) = read t1 ++ read t2).

Lemma read_nil : read [] = [].
Proof.
  pose proof (read_app [] []) as H. simpl in H.
  apply (f_equal length) in H. rewrite length_app in H.
  destruct (read []); [done|simpl in H; lia].
Qed.

Lemma for_reads (body : A -> M unit) :
  (forall x d, read (trace_of (body x d)) `prefix_of` each x) ->
  (forall x d, returned (result_of (body x d)) ->
               read (trace_of (body x d)) = each x) ->
  forall l d,
    read (trace_of (for_ l body d)) `prefix_of` concat (each <$> l) /\
    (returned (result_of (for_ l body d)) ->
     read (trace_of (for_ l body d)) = concat (each <$> l)).
Proof.
  intros Hpre Hok. induction l as [|x l IH]; intros d.
  - simpl. rewrite read_nil. split; [done|done].
  - rewrite fmap_cons. cbn [for_ concat].
    rewrite trace_bind, result_bind, read_app.
    specialize (Hpre x d). specialize (Hok x d).
    destruct (result_of (body x d)) as [[]|e].
    + rewrite Hok by done. destruct (IH (disk_of (body x d))) as [IH1 IH2].
      split.
      * by apply prefix_app.
      * intros H. by rewrite IH2.
    + rewrite read_nil, app_nil_r. split; [|done].
      by apply prefix_app_r.
Qed.

Lemma for_with_reads {S} (body : S -> A -> M S) :
  (forall s x d, read (trace_of (body s x d)) `prefix_of` each x) ->
  (forall s x d, returned (result_of (body s x d)) ->
                 read (trace_of (body s x d)) = each x) ->
  forall l s d,
    read (trace_of (for_with l s body d)) `prefix_of` concat (each <$> l) /\
    (returned (result_of (for_with l s body d)) ->
     read (trace_of (for_with l s body d)) = concat (each <$> l)).
Proof.
  intros Hpre Hok. induction l as [|x l IH]; intros s d.
  - simpl. rewrite read_nil. split; [done|done].
  - rewrite fmap_cons. cbn [for_with concat].
    rewrite trace_bind, result_bind, read_app.
    specialize (Hpre s x d). specialize (Hok s x d).
    destruct (result_of (body s x d)) as [s'|e].
    + rewrite Hok by done.
      destruct (IH s' (disk_of (body s x d))) as [IH1 IH2].
      split.
      * by apply prefix_app.
      * intros H. by rewrite IH2.
    + rewrite read_nil, app_nil_r. split; [|done].
      by apply prefix_app_r.
Qed.

(** A loop whose every turn returns, returns. *)
Lemma for_returns (body : A -> M unit) l :
  (forall x d, x ∈ l -> returned (result_of (body x d))) ->
  forall d, returned (result_of (for_ l body d)).
Proof.
  induction l as [|x l IH]; intros H d; [done|].
  cbn [for_]. rewrite result_bind.
  pose proof (H x d ltac:(left)) as Hx.
  destruct (result_of (body x d)); [|done].
  apply IH. intros y d' Hy. apply H. by right.
Qed.

Lemma for_with_returns {S} (body : S -> A -> M S) l :
  (forall s x d, x ∈ l -> returned (result_of (body s x d))) ->
  forall s d, returned (result_of (for_with l s body d)).
Proof.
  induction l as [|x l IH]; intros H s d; [done|].
  cbn [for_with]. rewrite result_bind.
  pose proof (H s x d ltac:(left)) as Hx.
  destruct (result_of (body s x d)); [|done].
  apply IH. intros s' y d' Hy. apply H. by right.
Qed.

End LoopFacts.

Lemma runs_app t1 t2 : runs (t1 ++ t2) = runs t1 ++ runs t2.
Proof. apply omap_app. Qed.

Lemma configured_runs_app t1 t2 :
  configured_runs (t1 ++ t2) = configured_runs t1 ++ configured_runs t2.
Proof. apply omap_app. Qed.

Lemma concat_singletons {A B} (f : A -> B) (l : list A) :
  concat ((fun x => [f x]) <$> l) = f <$> l.
Proof. induction l as [|x l IH]; [done|]. rewrite !fmap_cons. simpl. by rewrite IH. Qed.

(** ** The bodies of the MRS loops *)

Section MRSBodies.

Context (ext : externals).

(** One turn of a calwebb_detector1 loop: the name is printed, split
    three times, and the stage is run if all three unpackings went
    through. *)
Lemma detector1_body_run pipe f d :
  MRS.detector1_body ext pipe f d =
    match Py.unpack2 (Py.split "." f) with
    | Py.Err e => (Py.Err e, d, [printed f])
    | Py.Ok br =>
        match Py.unpack2 (Py.split "20210413_" f) with
        | Py.Err e => (Py.Err e, d, [printed f])
        | Py.Ok bd =>
            match Py.unpack2 (Py.split "_mirisim" bd.2) with
            | Py.Err e => (Py.Err e, d, [printed f])
            | Py.Ok da =>
                let cfg := detector1_config pipe br.1 da.1 in
                let o := pipeline ext Detector1 cfg f d in
                (match raised o with
                 | None => Py.Ok cfg
                 | Some e => Py.Err e
                 end,
                 write_all (written o) d,
                 [printed f;
                  {| what := Run Detector1 cfg f; failed := raised o |}])
            end
        end
    end.
Proof.
  unfold MRS.detector1_body, bind, print, emit, lift, raise, ret, run.
  cbn [raised wrote written write_all foldl].
  destruct (Py.unpack2 (Py.split "." f)) as [br|e]; [|done].
  destruct (Py.unpack2 (Py.split "20210413_" f)) as [bd|e]; [|done].
  destruct (Py.unpack2 (Py.split "_mirisim" bd.2)) as [da|e]; [|done].
  cbn [emit]. unfold detector1_config.
  by destruct (raised (pipeline ext Detector1 _ f d)).
Qed.

Lemma spec2_body_run hardcoded f d :
  MRS.spec2_body ext hardcoded f d =
    match Py.unpack2 (Py.split "." f) with
    | Py.Err e => (Py.Err e, d, [printed f])
    | Py.Ok br =>
        let cfg := spec2_config hardcoded f br.1 in
        let o := pipeline ext Spec2 cfg f d in
        (match raised o with
         | None => Py.Ok tt
         | Some e => Py.Err e
         end,
         write_all (written o) d,
         printed f ::
         (if String.eqb f hardcoded
          then [printed "this one will have the level 2b cube built"]
          else []) ++
         [{| what := Run Spec2 cfg f; failed := raised o |}])
    end.
Proof.
  unfold MRS.spec2_body, bind, print, emit, lift, raise, ret, run.
  cbn [raised wrote written write_all foldl].
  destruct (Py.unpack2 (Py.split "." f)) as [br|e]; [|done].
  unfold spec2_config. cbn [emit].
  destruct (String.eqb f hardcoded);
    by destruct (raised (pipeline ext Spec2 _ f d)).
Qed.

End MRSBodies.

Section Parsing.

Context (ext : externals).

Lemma detector1_name_dec f : Decision (detector1_name f).
Proof. unfold detector1_name. apply _. Qed.

(** A calwebb_detector1 turn on a name it can take apart runs the stage
    on it, with the base and the date string put together as output
    name. *)
Lemma detector1_body_parsed pipe f d :
  detector1_name f ->
  exists base rest before date tail,
    Py.partition "." f = Some (base, rest) /\
    Py.partition "20210413_" f = Some (before, after_date f) /\
    Py.partition "_mirisim" (after_date f) = Some (date, tail) /\
    MRS.detector1_body ext pipe f d =
      (let cfg := detector1_config pipe base date in
       let o := pipeline ext Detector1 cfg f d in
       (match raised o with
        | None => Py.Ok cfg
        | Some e => Py.Err e
        end,
        write_all (written o) d,
        [printed f; {| what := Run Detector1 cfg f; failed := raised o |}])).
Proof.
  intros (H1 & H2 & H3). rewrite detector1_body_run.
  pose proof (unpack2_split "." f ltac:(done)) as U1.
  destruct (Py.unpack2 (Py.split "." f)) as [[base rest]|e];
    [destruct U1 as [_ U1]|destruct U1 as [_ U1]; contradiction].
  pose proof (unpack2_split "20210413_" f ltac:(done)) as U2.
  destruct (Py.unpack2 (Py.split "20210413_" f)) as [[before after]|e];
    [destruct U2 as [_ U2]|destruct U2 as [_ U2]; contradiction].
  assert (after_date f = after) as Hafter by (unfold after_date; by rewrite U2).
  cbn [snd]. rewrite <- Hafter.
  pose proof (unpack2_split "_mirisim" (after_date f) ltac:(done)) as U3.
  destruct (Py.unpack2 (Py.split "_mirisim" (after_date f)))
    as [[date tail]|e];
    [destruct U3 as [_ U3]|destruct U3 as [_ U3]; contradiction].
  exists base, rest, before, date, tail.
  rewrite Hafter at 1. done.
Qed.

(** On any other name the turn stops on [ValueError] after printing the
    name: nothing is run. *)
Lemma detector1_body_unparsed pipe f d :
  ~ detector1_name f ->
  MRS.detector1_body ext pipe f d = (Py.Err Py.ValueError, d, [printed f]).
Proof.
  intros Hn. rewrite detector1_body_run.
  pose proof (unpack2_split "." f ltac:(done)) as U1.
  destruct (Py.unpack2 (Py.split "." f)) as [[base rest]|e];
    [destruct U1 as [C1 U1]|by destruct U1 as [-> _]].
  pose proof (unpack2_split "20210413_" f ltac:(done)) as U2.
  destruct (Py.unpack2 (Py.split "20210413_" f)) as [[before after]|e];
    [destruct U2 as [C2 U2]|by destruct U2 as [-> _]].
  assert (after_date f = after) as Hafter by (unfold after_date; by rewrite U2).
  cbn [snd]. rewrite <- Hafter.
  pose proof (unpack2_split "_mirisim" (after_date f) ltac:(done)) as U3.
  destruct (Py.unpack2 (Py.split "_mirisim" (after_date f)))
    as [[date tail]|e];
    [destruct U3 as [C3 U3]|by destruct U3 as [-> _]].
  destruct Hn. done.
Qed.

Lemma spec2_body_parsed hardcoded f d :
  Py.count "." f = 1 ->
  MRS.spec2_body ext hardcoded f d =
    (let cfg := spec2_config hardcoded f (base_of f) in
     let o := pipeline ext Spec2 cfg f d in
     (match raised o with
      | None => Py.Ok tt
      | Some e => Py.Err e
      end,
      write_all (written o) d,
      printed f ::
      (if String.eqb f hardcoded
       then [printed "this one will have the level 2b cube built"]
       else []) ++
      [{| what := Run Spec2 cfg f; failed := raised o |}])).
Proof.
  intros H1. rewrite spec2_body_run.
  pose proof (unpack2_split "." f ltac:(done)) as U1.
  destruct (Py.unpack2 (Py.split "." f)) as [[base rest]|e];
    [destruct U1 as [_ U1]|destruct U1 as [_ U1]; contradiction].
  unfold base_of. by rewrite U1.
Qed.

Lemma spec2_body_unparsed hardcoded f d :
  Py.count "." f <> 1 ->
  MRS.spec2_body ext hardcoded f d = (Py.Err Py.ValueError, d, [printed f]).
Proof.
  intros H1. rewrite spec2_body_run.
  pose proof (unpack2_split "." f ltac:(done)) as U1.
  destruct (Py.unpack2 (Py.split "." f)) as [[base rest]|e];
    [destruct U1 as [C1 U1]; contradiction|by destruct U1 as [-> _]].
Qed.

End Parsing.

(** ** The header-fix step *)

Section HeaderFix.

Lemma ext_first_lt name hdus i :
  ext_first name hdus = Some i -> i < length hdus.
Proof.
  revert i. induction hdus as [|h hdus IH]; intros i; simpl; [done|].
  destruct (same_name name (extname h)).
  - intros [= <-]. lia.
  - destruct (ext_first name hdus) as [j|]; simpl; [|done].
    intros [= <-]. specialize (IH j eq_refl). lia.
Qed.

Lemma ext_index_lt name hdus i :
  ext_index name hdus = Some i -> i < length hdus.
Proof.
  unfold ext_index. destruct (same_name name "PRIMARY").
  - destruct hdus; [done|]. intros [= <-]. simpl. lia.
  - apply ext_first_lt.
Qed.

Lemma ext_first_name name hdus i :
  ext_first name hdus = Some i ->
  exists h, hdus !! i = Some h /\ same_name name (extname h) = true.
Proof.
  revert i. induction hdus as [|h hdus IH]; intros i; simpl; [done|].
  destruct (same_name name (extname h)) eqn:E.
  - intros [= <-]. by exists h.
  - destruct (ext_first name hdus) as [j|]; simpl; [|done].
    intros [= <-]. by apply IH.
Qed.

Lemma ext_index_sci hdus : ext_index "SCI" hdus = ext_first "SCI" hdus.
Proof. reflexivity. Qed.

(** The source detection of the MRS notebook itself asks for
    [('sci', 1)]: the case of the name does not count. *)
Example ext_index_any_case :
  ext_index "SCI" [{| extname := "PRIMARY"; header := ∅ |};
                   {| extname := "sci "; header := ∅ |}] = Some 1 /\
  ext_index "primary" [{| extname := ""; header := ∅ |}] = Some 0.
Proof. split; reflexivity. Qed.

(** One turn of the header-fix loop. *)
Lemma header_fix_body_run targra targdec f d :
  MRS.header_fix_body targra targdec f d =
    match Py.unpack2 (Py.split "." f) with
    | Py.Err e => (Py.Err e, d, [])
    | Py.Ok br =>
        let out := MRS.fix_name br.1 br.2 in
        match d !! Path.norm f with
        | Some (File (Fits hdus)) =>
            match ext_index "SCI" hdus with
            | Some i =>
                (Py.Ok tt,
                 <[Path.norm out := File (Fits (point_source targra targdec hdus))]> d,
                 [printed out;
                  {| what := FitsOpen f; failed := None |};
                  {| what := Writeto out true; failed := None |}])
            | None =>
                (Py.Err Py.KeyError, d,
                 [printed out; {| what := FitsOpen f; failed := None |}])
            end
        | Some _ =>
            (Py.Err (Py.Raised "OSError"), d,
             [printed out;
              {| what := FitsOpen f; failed := Some (Py.Raised "OSError") |}])
        | None =>
            (Py.Err (Py.Raised "FileNotFoundError"), d,
             [printed out;
              {| what := FitsOpen f;
                 failed := Some (Py.Raised "FileNotFoundError") |}])
        end
    end.
Proof.
  unfold MRS.header_fix_body, bind, lift, raise, ret.
  destruct (Py.unpack2 (Py.split "." f)) as [br|e]; [|done].
  unfold print, emit, fits_open. cbn [raised wrote written write_all foldl].
  destruct (d !! Path.norm f) as [[[b|hdus]|]|] eqn:Hf; try done.
  unfold set_by_name, point_source.
  destruct (ext_index "SCI" hdus) as [i|] eqn:Hi; [|done].
  pose proof (ext_index_lt _ _ _ Hi) as Hlt.
  unfold ret, set_by_index.
  destruct (alter (set_card "SRCTYPE" (HStr "POINT")) i hdus !! 0)
    as [h0|] eqn:H0.
  2: { apply lookup_ge_None in H0. rewrite length_alter in H0. lia. }
  unfold ret.
  destruct (alter (set_card "TARG_RA" (HNum targra)) 0
              (alter (set_card "SRCTYPE" (HStr "POINT")) i hdus) !! 0)
    as [h1|] eqn:H1.
  2: { apply lookup_ge_None in H1. rewrite !length_alter in H1. lia. }
  unfold writeto, emit. rewrite andb_false_r.
  reflexivity.
Qed.

End HeaderFix.

(** ** Names met by a pattern *)

Section GlobFacts.

Implicit Types (s pat : string).

Lemma wild_nil s : Glob.wild "" s = true -> s = "".
Proof. by destruct s. Qed.

Lemma wild_literal p pat s :
  Glob.wild (String p pat) s = true ->
  Ascii.eqb p "*" = false ->
  exists s', s = String p s' /\ Glob.wild pat s' = true.
Proof.
  intros H Hp. cbn [Glob.wild] in H. rewrite Hp in H.
  destruct s as [|c s]; [done|].
  apply andb_true_iff in H as [Hc H].
  apply Ascii.eqb_eq in Hc as ->. eauto.
Qed.

Lemma wild_star pat s :
  Glob.wild (String "*" pat) s = true ->
  exists m s', s = m +:+ s' /\ Glob.wild pat s' = true.
Proof.
  cbn [Glob.wild]. rewrite Ascii.eqb_refl.
  induction s as [|c s IH]; intros H.
  - apply orb_true_iff in H as [H|H]; [|done]. by exists "", "".
  - apply orb_true_iff in H as [H|H].
    + by exists "", (String c s).
    + destruct (IH H) as (m & s' & -> & Hs'). by exists (String c m), s'.
Qed.

Lemma split_singleton sep s c :
  sep <> "" -> Py.split sep s = [c] -> s = c.
Proof.
  intros Hsep H. rewrite split_partition in H by done.
  destruct (Py.partition sep s) as [[a b]|]; [|by injection H].
  injection H as _ H. apply (f_equal length) in H.
  by rewrite length_split in H.
Qed.

(** A pattern of one component meets names of one component only. *)
Lemma matches_single pat s :
  Py.split "/" pat = [pat] ->
  Glob.matches pat s = true ->
  Glob.component pat s = true.
Proof.
  unfold Glob.matches. intros ->.
  destruct (Py.split "/" s) as [|c [|c' l]] eqn:Hs; simpl; try done.
  - apply split_singleton in Hs as ->; [|done].
    by rewrite andb_true_r.
  - by rewrite andb_false_r.
Qed.

Lemma component_wild pat s :
  Glob.component pat s = true -> Glob.wild pat s = true.
Proof. unfold Glob.component. by intros [_ H]%andb_true_iff. Qed.

End GlobFacts.

Ltac wild_inv H :=
  repeat first
    [ apply wild_nil in H; subst
    | apply wild_literal in H;
      [|reflexivity];
      let s := fresh "s" in destruct H as (s & -> & H)
    | apply wild_star in H;
      let m := fresh "m" in
      let s := fresh "s" in destruct H as (m & s & -> & H) ].

Section GlobShapes.

(** The names the header-fix cell globs for. *)
Lemma cal_name f :
  Glob.matches "det_image_*_cal.fits" f = true ->
  exists m, f = "det_image_" +:+ m +:+ "_cal.fits".
Proof.
  intros H. apply matches_single in H; [|reflexivity].
  apply component_wild in H. wild_inv H. by eexists.
Qed.

End GlobShapes.

Section NameFacts.

Implicit Types (s x y : string).

(** Texts that end in tails of one length agree part by part. *)
Lemma append_inj_tail x y a b :
  x +:+ a = y +:+ b -> String.length a = String.length b ->
  x = y /\ a = b.
Proof.
  revert y. induction x as [|c x IH]; intros y H Hlen.
  - destruct y as [|c' y]; [done|].
    apply (f_equal String.length) in H. rewrite append_nil_l in H.
    rewrite length_append in H. simpl in H. lia.
  - destruct y as [|c' y].
    + apply (f_equal String.length) in H. rewrite append_nil_l in H.
      rewrite length_append in H. simpl in H. lia.
    + rewrite !append_cons in H. injection H as -> H.
      destruct (IH y H Hlen) as [-> ->]. done.
Qed.

Lemma count_dot_cons c s :
  Py.count "." (String c s) =
    (if Ascii.eqb c "." then 1 else 0) + Py.count "." s.
Proof.
  unfold Py.count. cbn [Py.count_at]. rewrite startswith_cons.
  destruct (ascii_dec "." c) as [<-|Hne].
  - by rewrite startswith_nil.
  - destruct (Ascii.eqb c ".") eqn:E; [|done].
    apply Ascii.eqb_eq in E. congruence.
Qed.

Lemma count_dot_append x y :
  Py.count "." (x +:+ y) = Py.count "." x + Py.count "." y.
Proof.
  induction x as [|c x IH]; [done|].
  rewrite append_cons, !count_dot_cons, IH. lia.
Qed.

(** The first dot of a text is where [partition] cuts it. *)
Lemma partition_first_dot x y :
  Py.count "." x = 0 ->
  Py.partition "." (x +:+ "." +:+ y) = Some (x, y).
Proof.
  induction x as [|c x IH]; intros H.
  - rewrite append_nil_l. change ("." +:+ y) with (String "." y).
    cbn [Py.partition]. rewrite startswith_cons, startswith_nil.
    by destruct (ascii_dec "." ".").
  - rewrite count_dot_cons in H.
    destruct (Ascii.eqb c ".") eqn:E; [done|].
    rewrite append_cons. cbn [Py.partition].
    rewrite startswith_cons.
    destruct (ascii_dec "." c) as [<-|Hne]; [done|].
    rewrite IH by done. done.
Qed.

Lemma strip_slash_append x y :
  Path.strip_slash y = y -> y <> "" ->
  Path.strip_slash (x +:+ y) = x +:+ y.
Proof.
  intros Hy Hne. induction x as [|c x IH]; [done|].
  rewrite append_cons. cbn [Path.strip_slash]. rewrite IH.
  destruct (x +:+ y) eqn:E; [|done].
  destruct x; [by rewrite append_nil_l in E|done].
Qed.

(** A name with one dot that ends in [.fits] is cut before [.fits]. *)
Lemma partition_fits p :
  Py.count "." (p +:+ ".fits") = 1 ->
  Py.partition "." (p +:+ ".fits") = Some (p, "fits").
Proof.
  intros H. rewrite count_dot_append in H.
  change (Py.count "." ".fits") with 1 in H.
  apply (partition_first_dot p "fits"). lia.
Qed.

End NameFacts.

Section CalNames.

Lemma cal_name_parts f :
  Glob.matches "det_image_*_cal.fits" f = true ->
  Py.count "." f = 1 ->
  exists p,
    f = p +:+ ".fits" /\
    Py.partition "." f = Some (p, "fits") /\
    fixed_name f = p +:+ "_fix.fits" /\
    Path.norm f = f /\
    Path.norm (fixed_name f) = fixed_name f.
Proof.
  intros Hm Hdot. destruct (cal_name f Hm) as [m ->].
  set (p := "det_image_" +:+ m +:+ "_cal").
  assert ("det_image_" +:+ m +:+ "_cal.fits" = p +:+ ".fits") as Hp.
  { unfold p. by rewrite !append_assoc. }
  rewrite Hp in *. exists p.
  pose proof (partition_fits p Hdot) as Hpart.
  assert (fixed_name (p +:+ ".fits") = p +:+ "_fix.fits") as Hfix.
  { unfold fixed_name. by rewrite Hpart. }
  rewrite Hfix.
  assert (forall tail, Path.strip_slash tail = tail -> tail <> "" ->
                       Path.norm (p +:+ tail) = p +:+ tail) as Hnorm.
  { intros tail Ht Hne. unfold Path.norm.
    rewrite strip_slash_append by done. by unfold p. }
  repeat split; try done.
  - by apply Hnorm.
  - by apply Hnorm.
Qed.

Lemma fixed_name_not_input f g :
  Glob.matches "det_image_*_cal.fits" f = true -> Py.count "." f = 1 ->
  Glob.matches "det_image_*_cal.fits" g = true ->
  fixed_name f <> g.
Proof.
  intros Hf Hdot Hg.
  destruct (cal_name_parts f Hf Hdot) as (p & Hp & _ & -> & _).
  destruct (cal_name g Hg) as [m ->]. intros H.
  assert ("det_image_" +:+ m +:+ "_cal.fits"
          = ("det_image_" +:+ m) +:+ "_cal.fits") as E
      by (by rewrite !append_assoc).
  rewrite E in H. by apply append_inj_tail in H as [_ ?].
Qed.

Lemma fixed_name_inj f g :
  Glob.matches "det_image_*_cal.fits" f = true -> Py.count "." f = 1 ->
  Glob.matches "det_image_*_cal.fits" g = true -> Py.count "." g = 1 ->
  fixed_name f = fixed_name g -> f = g.
Proof.
  intros Hf Hdf Hg Hdg.
  destruct (cal_name_parts f Hf Hdf) as (p & -> & _ & -> & _).
  destruct (cal_name_parts g Hg Hdg) as (q & -> & _ & -> & _).
  intros H. by apply append_inj_tail in H as [-> _].
Qed.

End CalNames.

Section HeaderFixLoop.

Context (targra targdec : Q).

Lemma ext_first_alter name (g : hdu -> hdu) j hdus :
  (forall h, extname (g h) = extname h) ->
  ext_first name (alter g j hdus) = ext_first name hdus.
Proof.
  intros Hg. revert j. induction hdus as [|h hdus IH]; intros j; [done|].
  destruct j as [|j]; simpl.
  - by rewrite Hg.
  - change (list_alter g j hdus) with (alter g j hdus). by rewrite IH.
Qed.

Lemma ext_index_alter name (g : hdu -> hdu) j hdus :
  (forall h, extname (g h) = extname h) ->
  ext_index name (alter g j hdus) = ext_index name hdus.
Proof.
  intros Hg. unfold ext_index. destruct (same_name name "PRIMARY").
  - by destruct hdus, j.
  - by apply ext_first_alter.
Qed.

(** What the written copy carries in its headers. *)
Lemma point_source_cards hdus :
  is_Some (ext_index "SCI" hdus) ->
  card_of (point_source targra targdec hdus) "SCI" "SRCTYPE"
    = Some (HStr "POINT") /\
  card_at (point_source targra targdec hdus) 0 "TARG_RA"
    = Some (HNum targra) /\
  card_at (point_source targra targdec hdus) 0 "TARG_DEC"
    = Some (HNum targdec).
Proof.
  intros [i Hi]. unfold point_source, card_of. rewrite Hi.
  rewrite !ext_index_alter by done. rewrite Hi. simpl.
  pose proof (ext_index_lt _ _ _ Hi) as Hlt.
  destruct (lookup_lt_is_Some_2 hdus i Hlt) as [h Hh].
  unfold card_at. destruct i as [|i].
  - rewrite !list_lookup_alter_eq, Hh. simpl. by simplify_map_eq.
  - destruct (lookup_lt_is_Some_2 hdus 0 ltac:(lia)) as [h0 Hh0].
    rewrite !(list_lookup_alter_ne _ _ 0 (S i)) by done.
    rewrite !list_lookup_alter_eq.
    rewrite (list_lookup_alter_ne _ _ (S i) 0) by done.
    rewrite Hh, Hh0. simpl. by simplify_map_eq.
Qed.

(** The loop, on files it can work on: it returns, writes the copy of
    each file under the file's fixed name, and touches no other name. *)
Lemma header_fix_loop files : forall d,
  Forall (cal_input d) files ->
  let r := for_ files (MRS.header_fix_body targra targdec) d in
  result_of r = Py.Ok tt /\
  (forall k, k ∉ fixed_name <$> files -> disk_of r !! k = d !! k) /\
  (forall f, f ∈ files ->
     exists hdus,
       d !! f = Some (File (Fits hdus)) /\
       disk_of r !! fixed_name f
         = Some (File (Fits (point_source targra targdec hdus)))) /\
  writes_to (trace_of r) = (fun f => (fixed_name f, true)) <$> files.
Proof.
  induction files as [|f files IH]; intros d Hall.
  - cbv zeta. simpl. repeat split; try done. intros f Hf. by inversion Hf.
  - apply Forall_cons in Hall as [Hf Hall].
    destruct Hf as (Hm & Hdot & hdus & Hd & Hsci).
    destruct (cal_name_parts f Hm Hdot) as (p & Hp & Hpart & Hfix & Hnf & Hnfix).
    cbv zeta. cbn [for_]. rewrite result_bind, disk_bind, trace_bind.
    rewrite header_fix_body_run.
    pose proof (unpack2_split "." f ltac:(done)) as U.
    destruct (Py.unpack2 (Py.split "." f)) as [[base rest]|e];
      [destruct U as [_ U]|destruct U as [_ U]; contradiction].
    assert (MRS.fix_name (base, rest).1 (base, rest).2 = fixed_name f) as Hout.
    { unfold fixed_name. by rewrite U. }
    cbv zeta. rewrite Hout, Hnf, Hd, Hnfix.
    destruct Hsci as [i Hi]. rewrite Hi.
    unfold result_of, disk_of, trace_of. cbn [fst snd].
    set (d1 := <[fixed_name f := File (Fits (point_source targra targdec hdus))]> d).
    assert (Forall (cal_input d1) files) as Hall1.
    { eapply Forall_impl; [exact Hall|].
      intros g (Hgm & Hgdot & hg & Hgd & Hgsci).
      repeat split; try done. exists hg. split; [|done].
      unfold d1. rewrite lookup_insert_ne; [done|].
      by apply fixed_name_not_input. }
    destruct (IH d1 Hall1) as (IHr & IHframe & IHout & IHw).
    fold (result_of (for_ files (MRS.header_fix_body targra targdec) d1)).
    fold (disk_of (for_ files (MRS.header_fix_body targra targdec) d1)).
    fold (trace_of (for_ files (MRS.header_fix_body targra targdec) d1)).
    split; [done|]. split; [|split].
    + intros k Hk. rewrite fmap_cons in Hk.
      apply not_elem_of_cons in Hk as [Hk1 Hk2].
      rewrite IHframe by done. unfold d1. by rewrite lookup_insert_ne.
    + intros g Hg. apply elem_of_cons in Hg as [->|Hg].
      * exists hdus. split; [done|].
        destruct (decide (fixed_name f ∈ fixed_name <$> files)) as [Hin|Hnin].
        -- apply list_elem_of_fmap in Hin as (g & Hfg & Hg).
           pose proof Hall as Hall'. rewrite Forall_forall in Hall'.
           destruct (Hall' g Hg) as (Hgm & Hgdot & _).
           assert (f = g) as <- by (by apply fixed_name_inj).
           destruct (IHout f Hg) as (h' & Hh' & Hfin).
           unfold d1 in Hh'. rewrite lookup_insert_ne in Hh'
             by (by apply fixed_name_not_input).
           rewrite Hd in Hh'. by injection Hh' as <-.
        -- rewrite IHframe by done. unfold d1. by rewrite lookup_insert_eq.
      * destruct (IHout g Hg) as (h' & Hh' & Hfin).
        exists h'. split; [|done].
        rewrite Forall_forall in Hall.
        destruct (Hall g Hg) as (Hgm & _).
        unfold d1 in Hh'. rewrite lookup_insert_ne in Hh'
          by (by apply fixed_name_not_input). done.
    + unfold writes_to at 1. rewrite omap_app.
      fold (writes_to (trace_of (for_ files (MRS.header_fix_body targra targdec) d1))).
      by rewrite IHw.
Qed.

End HeaderFixLoop.

Section HeaderFixCell.

Lemma globbed_matches pat (d : gmap string node) f :
  f ∈ globbed pat d -> Glob.matches pat f = true /\ is_Some (d !! f).
Proof.
  unfold globbed. intros [Hm Hin]%list_elem_of_filter. split; [done|].
  apply list_elem_of_fmap in Hin as ([k v] & -> & Hkv).
  apply elem_of_map_to_list in Hkv. by exists v.
Qed.

Lemma globbed_NoDup pat (d : gmap string node) : NoDup (globbed pat d).
Proof. apply NoDup_filter, NoDup_fst_map_to_list. Qed.

Lemma cell_header_fix_run radec (d : gmap string node) :
  MRS.cell_header_fix radec d =
    for_ (globbed "det_image_*_cal.fits" d)
         (MRS.header_fix_body radec.1 radec.2) d.
Proof. unfold MRS.cell_header_fix. by rewrite bind_glob. Qed.

End HeaderFixCell.

(** ** The stage loops *)

Section StageLoops.

Context (ext : externals).

Lemma run_trace st cfg input d :
  trace_of (run ext st cfg input d) =
    [{| what := Run st cfg input;
        failed := raised (pipeline ext st cfg input d) |}].
Proof. reflexivity. Qed.

Lemma run_result st cfg input d :
  result_of (run ext st cfg input d) =
    match raised (pipeline ext st cfg input d) with
    | None => Py.Ok tt
    | Some e => Py.Err e
    end.
Proof. reflexivity. Qed.

Lemma detector1_body_runs pipe f d :
  runs (trace_of (MRS.detector1_body ext pipe f d)) `prefix_of` [(Detector1, f)] /\
  (returned (result_of (MRS.detector1_body ext pipe f d)) ->
   runs (trace_of (MRS.detector1_body ext pipe f d)) = [(Detector1, f)]).
Proof.
  destruct (detector1_name_dec f) as [Hy|Hn].
  - destruct (detector1_body_parsed ext pipe f d Hy)
      as (base & rest & before & date & tail & _ & _ & _ & ->).
    split; [by exists []|done].
  - rewrite (detector1_body_unparsed ext pipe f d Hn).
    split; [by exists [(Detector1, f)]|done].
Qed.

Lemma spec2_body_runs hardcoded f d :
  runs (trace_of (MRS.spec2_body ext hardcoded f d)) `prefix_of` [(Spec2, f)] /\
  (returned (result_of (MRS.spec2_body ext hardcoded f d)) ->
   runs (trace_of (MRS.spec2_body ext hardcoded f d)) = [(Spec2, f)]).
Proof.
  destruct (decide (Py.count "." f = 1)) as [Hy|Hn].
  - rewrite (spec2_body_parsed ext hardcoded f d Hy).
    cbv zeta. unfold trace_of, result_of. cbn [fst snd].
    destruct (String.eqb f hardcoded); (split; [by exists []|done]).
  - rewrite (spec2_body_unparsed ext hardcoded f d Hn).
    split; [by exists [(Spec2, f)]|done].
Qed.

Lemma pipelines_body_runs df d :
  runs (trace_of (NIRISS.pipelines_body ext df d)) `prefix_of` niriss_runs df /\
  (returned (result_of (NIRISS.pipelines_body ext df d)) ->
   runs (trace_of (NIRISS.pipelines_body ext df d)) = niriss_runs df).
Proof.
  unfold NIRISS.pipelines_body. cbv zeta.
  rewrite !trace_bind, !result_bind, !run_result, !run_trace.
  destruct (raised (pipeline ext Detector1 _ df d)); [split; [by eexists|done]|].
  destruct (raised (pipeline ext Image2 _ _ _)); [split; [by eexists|done]|].
  destruct (raised (pipeline ext Image2 _ _ _)); (split; [by exists []|done]).
Qed.

Lemma detector1_loop_once files d :
  once_per_file Detector1 files (MRS.detector1_loop ext files d).
Proof.
  unfold once_per_file, MRS.detector1_loop.
  rewrite <- (concat_singletons (fun f => (Detector1, f)) files).
  apply (for_with_reads runs (fun f => [(Detector1, f)]) runs_app).
  - intros s x d'. apply detector1_body_runs.
  - intros s x d'. apply detector1_body_runs.
Qed.

Lemma spec2_loop_once hardcoded files d :
  once_per_file Spec2 files (for_ files (MRS.spec2_body ext hardcoded) d).
Proof.
  unfold once_per_file.
  rewrite <- (concat_singletons (fun f => (Spec2, f)) files).
  apply (for_reads runs (fun f => [(Spec2, f)]) runs_app).
  - intros x d'. apply spec2_body_runs.
  - intros x d'. apply spec2_body_runs.
Qed.

Lemma pipelines_loop_once datafiles d :
  let r := NIRISS.cell_pipelines ext datafiles d in
  runs (trace_of r) `prefix_of` concat (niriss_runs <$> datafiles) /\
  (returned (result_of r) ->
   runs (trace_of r) = concat (niriss_runs <$> datafiles)).
Proof.
  unfold NIRISS.cell_pipelines.
  apply (for_reads runs niriss_runs runs_app).
  - intros x d'. apply pipelines_body_runs.
  - intros x d'. apply pipelines_body_runs.
Qed.

End StageLoops.

Section StageCells.

Context (ext : externals).

Lemma detector1_loop_returns files d :
  stages_return ext -> Forall detector1_name files ->
  returned (result_of (MRS.detector1_loop ext files d)).
Proof.
  intros Hext Hall. apply for_with_returns. intros s x d' Hx.
  rewrite Forall_forall in Hall.
  destruct (detector1_body_parsed ext s x d' (Hall x Hx))
    as (base & rest & before & date & tail & _ & _ & _ & ->).
  cbv zeta. unfold result_of. cbn [fst]. by rewrite Hext.
Qed.

Lemma spec2_loop_returns hardcoded files d :
  stages_return ext -> Forall (fun f => Py.count "." f = 1) files ->
  returned (result_of (for_ files (MRS.spec2_body ext hardcoded) d)).
Proof.
  intros Hext Hall. apply for_returns. intros x d' Hx.
  rewrite Forall_forall in Hall.
  rewrite (spec2_body_parsed ext hardcoded x d' (Hall x Hx)).
  cbv zeta. unfold result_of. cbn [fst]. by rewrite Hext.
Qed.

Lemma pipelines_loop_returns datafiles d :
  stages_return ext ->
  returned (result_of (NIRISS.cell_pipelines ext datafiles d)).
Proof.
  intros Hext. apply for_returns. intros x d' _.
  unfold NIRISS.pipelines_body. cbv zeta.
  rewrite !result_bind, !run_result, !Hext. done.
Qed.

(** The calwebb_detector1 cell: both lists are globbed before either
    loop starts. *)
Lemma cell_detector1_once d :
  once_per_file Detector1
    (globbed "20210413_*_mirisim/det_images/*MIRIFUSHORT*fits" d ++
     globbed "20210413_*_mirisim/det_images/*MIRIFULONG*fits" d)
    (MRS.cell_detector1 ext d).
Proof.
  unfold once_per_file, MRS.cell_detector1. rewrite !bind_glob.
  set (short := globbed "20210413_*_mirisim/det_images/*MIRIFUSHORT*fits" d).
  set (long := globbed "20210413_*_mirisim/det_images/*MIRIFULONG*fits" d).
  rewrite fmap_app.
  destruct (detector1_loop_once ext short d) as [P1 E1].
  rewrite trace_bind, result_bind, runs_app.
  destruct (result_of (MRS.detector1_loop ext short d)) as [pipe|e].
  - rewrite E1 by done.
    destruct (detector1_loop_once ext long
                (disk_of (MRS.detector1_loop ext short d))) as [P2 E2].
    rewrite trace_bind_ret, returned_bind_ret.
    split; [by apply prefix_app|]. intros H. by rewrite E2.
  - change (runs []) with (@nil (stage * string)). rewrite app_nil_r.
    split; [by apply prefix_app_r|done].
Qed.

Lemma cell_spec2_once d :
  let r := MRS.cell_spec2 ext d in
  let files := globbed "det_image_*_MIRIFUSHORT_*_rate.fits" d ++
               globbed "det_image_*_MIRIFULONG_*_rate.fits" d in
  once_per_file Spec2 files r.
Proof.
  unfold once_per_file, MRS.cell_spec2. cbv zeta. rewrite !bind_glob.
  set (short := globbed "det_image_*_MIRIFUSHORT_*_rate.fits" d).
  set (long := globbed "det_image_*_MIRIFULONG_*_rate.fits" d).
  rewrite fmap_app.
  destruct (spec2_loop_once ext MRS.short_cube_rate short d) as [P1 E1].
  rewrite trace_bind, result_bind, runs_app.
  destruct (result_of (for_ short (MRS.spec2_body ext MRS.short_cube_rate) d))
    as [[]|e].
  - rewrite E1 by done.
    destruct (spec2_loop_once ext MRS.long_cube_rate long
                (disk_of (for_ short (MRS.spec2_body ext MRS.short_cube_rate) d)))
      as [P2 E2].
    split; [by apply prefix_app|]. intros H. by rewrite E2.
  - change (runs []) with (@nil (stage * string)). rewrite app_nil_r.
    split; [by apply prefix_app_r|done].
Qed.

End StageCells.

Section Counting.

Lemma times_fmap_pair (st : stage) (files : list string) f :
  NoDup files ->
  times (st, f) ((fun g => (st, g)) <$> files)
    = if decide (f ∈ files) then 1 else 0.
Proof.
  unfold times. induction files as [|g files IH]; intros Hnd.
  - by destruct (decide (f ∈ [])) as [H|H]; [inversion H|].
  - apply NoDup_cons in Hnd as [Hg Hnd]. specialize (IH Hnd).
    rewrite fmap_cons, filter_cons.
    destruct (decide ((st, g) = (st, f))) as [[= ->]|Hne].
    + simpl. rewrite IH.
      destruct (decide (f ∈ files)); [done|].
      destruct (decide (f ∈ f :: files)) as [|Hn]; [done|].
      destruct Hn. by left.
    + rewrite IH.
      destruct (decide (f ∈ files)) as [Hin|Hnin].
      * destruct (decide (f ∈ g :: files)) as [|Hn]; [done|].
        destruct Hn. by right.
      * destruct (decide (f ∈ g :: files)) as [Hin'|]; [|done].
        apply elem_of_cons in Hin' as [->|]; [|done]. by destruct Hne.
Qed.

Lemma sample_stages_return : stages_return Sample.quiet.
Proof.
  intros st cfg input d. destruct st; simpl; repeat case_match; done.
Qed.

End Counting.

(** ** What a computation can leave in its trace *)

Section Emits.

Context (X : call -> Prop).

Lemma emits_ret {A} (a : A) : emits X (ret a).
Proof. intros d. constructor. Qed.

Lemma emits_raise {A} e : emits X (@raise A e).
Proof. intros d. constructor. Qed.

Lemma emits_lift {A} (r : Py.result A) : emits X (lift r).
Proof. destruct r; [apply emits_ret|apply emits_raise]. Qed.

Lemma emits_bind {A B} (m : M A) (k : A -> M B) :
  emits X m -> (forall a, emits X (k a)) -> emits X (bind m k).
Proof.
  intros Hm Hk d. rewrite trace_bind. apply Forall_app. split; [apply Hm|].
  destruct (result_of (m d)); [apply Hk|constructor].
Qed.

Lemma emits_for {A} (l : list A) (body : A -> M unit) :
  (forall x, emits X (body x)) -> emits X (for_ l body).
Proof.
  intros H. induction l as [|x l IH]; [apply emits_ret|].
  apply emits_bind; [apply H|]. intros _. apply IH.
Qed.

Lemma emits_for_with {A S} (l : list A) (s : S) (body : S -> A -> M S) :
  (forall s x, emits X (body s x)) -> emits X (for_with l s body).
Proof.
  intros H. revert s. induction l as [|x l IH]; intros s; [apply emits_ret|].
  apply emits_bind; [apply H|]. intros s'. apply IH.
Qed.

(** A loop over an object that keeps a property [I] from turn to
    turn. *)
Lemma emits_for_with_inv {A S} (I : S -> Prop) (l : list A) (s : S)
  (body : S -> A -> M S) :
  I s ->
  (forall s x, I s -> emits X (body s x)) ->
  (forall s x d s', I s -> result_of (body s x d) = Py.Ok s' -> I s') ->
  emits X (for_with l s body).
Proof.
  intros Hs Hbody Hkeep. revert s Hs.
  induction l as [|x l IH]; intros s Hs; [apply emits_ret|].
  intros d. cbn [for_with]. rewrite trace_bind. apply Forall_app.
  split; [by apply Hbody|].
  destruct (result_of (body s x d)) as [s'|e] eqn:Hr; [|constructor].
  apply IH. by eapply Hkeep.
Qed.

Lemma emits_emit c o : X c -> emits X (emit c o).
Proof. intros Hc d. by repeat constructor. Qed.

Lemma emits_exists p : emits X (exists_ p).
Proof. intros d. constructor. Qed.

Lemma emits_glob pat : emits X (glob pat).
Proof. intros d. constructor. Qed.

Lemma emits_print text : X (Print text) -> emits X (print text).
Proof. apply emits_emit. Qed.

Lemma emits_show ext what_ : X (Show what_) -> emits X (show ext what_).
Proof. intros Hc d. by repeat constructor. Qed.

Lemma emits_urlretrieve ext url filename :
  X (Urlretrieve url filename) -> emits X (urlretrieve ext url filename).
Proof. apply emits_emit. Qed.

Lemma emits_extractall ext archive :
  X (Extractall archive) -> emits X (extractall ext archive).
Proof. intros Hc d. by repeat constructor. Qed.

Lemma emits_mkdir p : X (Mkdir p) -> emits X (mkdir p).
Proof. intros Hc d. by repeat constructor. Qed.

Lemma emits_run ext st cfg input :
  X (Run st cfg input) -> emits X (run ext st cfg input).
Proof. intros Hc d. by repeat constructor. Qed.

Lemma emits_detect ext cube : X (Detect cube) -> emits X (detect ext cube).
Proof.
  intros Hc d. unfold detect. destruct (brightest ext cube d);
    by repeat constructor.
Qed.

Lemma emits_fits_open p : X (FitsOpen p) -> emits X (fits_open p).
Proof.
  intros Hc d. unfold fits_open.
  destruct (d !! Path.norm p) as [[[]|]|]; by repeat constructor.
Qed.

Lemma emits_writeto hdus p overwrite :
  X (Writeto p overwrite) -> emits X (writeto hdus p overwrite).
Proof. intros Hc d. by repeat constructor. Qed.

Lemma emits_asn_from_list ext files name :
  X (AsnFromList files name) -> emits X (asn_from_list ext files name).
Proof.
  intros Hc d. unfold asn_from_list. destruct (asn_dump ext files name);
    by repeat constructor.
Qed.

Lemma emits_write_text p text : X (WriteText p) -> emits X (write_text p text).
Proof. apply emits_emit. Qed.

Lemma emits_correct_fitsfiles ext indir odir :
  X (CorrectFitsfiles indir odir) -> emits X (correct_fitsfiles ext indir odir).
Proof. intros Hc d. by repeat constructor. Qed.

Lemma emits_set_by_name name key v hdus : emits X (set_by_name name key v hdus).
Proof.
  unfold set_by_name. destruct (ext_index name hdus);
    [apply emits_ret|apply emits_raise].
Qed.

Lemma emits_set_by_index i key v hdus : emits X (set_by_index i key v hdus).
Proof.
  unfold set_by_index. destruct (hdus !! i);
    [apply emits_ret|apply emits_raise].
Qed.

Lemma emits_getheader p : X (Getheader p) -> emits X (getheader p).
Proof.
  intros Hc d. unfold getheader.
  destruct (d !! Path.norm p) as [[[|[|]]|]|]; by repeat constructor.
Qed.

Lemma emits_setval p key value :
  X (Setval p key value) -> emits X (setval p key value).
Proof. intros Hc d. by repeat constructor. Qed.

Lemma emits_card hdr key : emits X (card hdr key).
Proof. unfold card. destruct (hdr !! key); [apply emits_ret|apply emits_raise]. Qed.

Lemma emits_replace_in old new v : emits X (replace_in old new v).
Proof. destruct v; [apply emits_ret|apply emits_raise]. Qed.

Lemma emits_fit_fringes ext ff p :
  X (FitFringes ff p) -> emits X (fit_fringes ext ff p).
Proof. intros Hc d. by repeat constructor. Qed.

Lemma emits_calibrate_oifits ext targ cal dir :
  X (CalibrateOifits targ cal dir) -> emits X (calibrate_oifits ext targ cal dir).
Proof. intros Hc d. by repeat constructor. Qed.

End Emits.

Lemma emits_weaken {A} (X Y : call -> Prop) (m : M A) :
  (forall c, X c -> Y c) -> emits X m -> emits Y m.
Proof. intros H Hm d. eapply Forall_impl; [apply Hm|]. intros e. apply H. Qed.

(** Takes a computation apart down to its calls. *)
Ltac emits_step :=
  lazymatch goal with
  | |- emits _ (bind _ _) => apply emits_bind; [|intros ?]
  | |- emits _ (ret _) => apply emits_ret
  | |- emits _ (raise _) => apply emits_raise
  | |- emits _ (lift _) => apply emits_lift
  | |- emits _ (for_ _ _) => apply emits_for; intros ?
  | |- emits _ (for_with _ _ _) => apply emits_for_with; intros ? ?
  | |- emits _ (exists_ _) => apply emits_exists
  | |- emits _ (glob _) => apply emits_glob
  | |- emits _ (print _) => apply emits_print
  | |- emits _ (show _ _) => apply emits_show
  | |- emits _ (urlretrieve _ _ _) => apply emits_urlretrieve
  | |- emits _ (extractall _ _) => apply emits_extractall
  | |- emits _ (mkdir _) => apply emits_mkdir
  | |- emits _ (run _ _ _ _) => apply emits_run
  | |- emits _ (detect _ _) => apply emits_detect
  | |- emits _ (fits_open _) => apply emits_fits_open
  | |- emits _ (writeto _ _ _) => apply emits_writeto
  | |- emits _ (asn_from_list _ _ _) => apply emits_asn_from_list
  | |- emits _ (write_text _ _) => apply emits_write_text
  | |- emits _ (correct_fitsfiles _ _ _) => apply emits_correct_fitsfiles
  | |- emits _ (set_by_name _ _ _ _) => apply emits_set_by_name
  | |- emits _ (set_by_index _ _ _ _) => apply emits_set_by_index
  | |- emits _ (getheader _) => apply emits_getheader
  | |- emits _ (setval _ _ _) => apply emits_setval
  | |- emits _ (card _ _) => apply emits_card
  | |- emits _ (replace_in _ _ _) => apply emits_replace_in
  | |- emits _ (fit_fringes _ _ _) => apply emits_fit_fringes
  | |- emits _ (calibrate_oifits _ _ _ _) => apply emits_calibrate_oifits
  | |- emits _ (if ?b then _ else _) => destruct b
  | |- emits _ (match ?x with _ => _ end) => destruct x
  | |- emits _ (let _ := _ in _) => cbv zeta
  end.

Ltac emits_all := repeat emits_step.

(** ** The attributes of the pipeline objects *)

Section Flags.

Context (ext : externals).

Lemma detector1_loop_flags files : emits mrs_flags (MRS.detector1_loop ext files).
Proof.
  unfold MRS.detector1_loop.
  apply (emits_for_with_inv mrs_flags
           (fun pipe => flags pipe = ∅ \/
                        flags pipe = {["refpix.skip" := ABool true]})).
  - left. done.
  - intros pipe f Hpipe d. rewrite detector1_body_run.
    destruct (Py.unpack2 (Py.split "." f)) as [br|e];
      [|by repeat constructor].
    destruct (Py.unpack2 (Py.split "20210413_" f)) as [bd|e];
      [|by repeat constructor].
    destruct (Py.unpack2 (Py.split "_mirisim" bd.2)) as [da|e];
      [|by repeat constructor].
    cbv zeta. unfold trace_of. cbn [snd].
    repeat constructor. cbn [what mrs_flags].
    unfold flags, detector1_config in *. rewrite delete_insert_eq.
    rewrite delete_insert_ne by done.
    destruct Hpipe as [->| ->]; [done|].
    apply map_eq. intros k.
    destruct (decide (k = "refpix.skip")) as [->|]; by simplify_map_eq.
  - intros pipe f d pipe' Hpipe. rewrite detector1_body_run.
    destruct (Py.unpack2 (Py.split "." f)) as [br|e]; [|done].
    destruct (Py.unpack2 (Py.split "20210413_" f)) as [bd|e]; [|done].
    destruct (Py.unpack2 (Py.split "_mirisim" bd.2)) as [da|e]; [|done].
    cbv zeta. unfold result_of. cbn [fst].
    destruct (raised _); [done|]. intros [= <-]. right.
    unfold flags, detector1_config in *. rewrite delete_insert_eq.
    rewrite delete_insert_ne by done.
    destruct Hpipe as [->| ->]; [done|].
    apply map_eq. intros k.
    destruct (decide (k = "refpix.skip")) as [->|]; by simplify_map_eq.
Qed.

Lemma spec2_body_flags hardcoded f :
  hardcoded = MRS.short_cube_rate \/ hardcoded = MRS.long_cube_rate ->
  emits mrs_flags (MRS.spec2_body ext hardcoded f).
Proof.
  intros Hh d. rewrite spec2_body_run.
  destruct (Py.unpack2 (Py.split "." f)) as [br|e]; [|by repeat constructor].
  cbv zeta. unfold trace_of. cbn [snd]. unfold spec2_config, flags.
  destruct (String.eqb f hardcoded) eqn:E.
  - apply String.eqb_eq in E as ->. cbn [app].
    apply Forall_cons; split; [done|].
    apply Forall_cons; split; [done|].
    apply Forall_cons; split; [|done].
    cbn [what mrs_flags]. right. split; [|done].
    unfold flags. by rewrite delete_insert_eq.
  - cbn [app].
    apply Forall_cons; split; [done|].
    apply Forall_cons; split; [|done].
    cbn [what mrs_flags]. left.
    unfold flags. by rewrite delete_insert_eq.
Qed.

End Flags.

Section NotebookFlags.

Context (ext : externals).

Lemma mrs_notebook_flags : emits mrs_flags (MRS.notebook ext).
Proof.
  unfold MRS.notebook, MRS.cell_download, MRS.cell_untar, MRS.cell_detector1,
    MRS.cell_spec2, MRS.cell_detect, MRS.cell_header_fix,
    MRS.header_fix_body, MRS.cell_asn, MRS.cell_spec3.
  repeat first
    [ apply detector1_loop_flags
    | apply spec2_body_flags; [by auto]
    | emits_step ]; done.
Qed.

Lemma niriss_notebook_flags : emits niriss_flags (NIRISS.notebook ext).
Proof.
  unfold NIRISS.notebook, NIRISS.cell_download, NIRISS.cell_datafiles,
    NIRISS.cell_examine_raw, NIRISS.cell_outdir, NIRISS.cell_pipelines,
    NIRISS.pipelines_body, NIRISS.cell_listing, NIRISS.listing,
    NIRISS.cell_info, NIRISS.cell_display_cal, NIRISS.cell_bp_fix,
    NIRISS.cell_display_corr, NIRISS.cell_implaneia, NIRISS.implaneia_body,
    NIRISS.main, NIRISS.raw_observables, NIRISS.examine_observables,
    NIRISS.cell_products, NIRISS.cell_calibrate.
  emits_all; done.
Qed.

End NotebookFlags.

(** C3 as stated fails: on a disk with the rate file the notebook
    names and one more, the calwebb_spec2 cell runs the stage on both,
    with [cube_build.skip] unset for the first and set for the second. *)
Lemma flag_depends_on_file :
  (fun x => (x.1.1, x.1.2 !! "cube_build.skip", x.2))
    <$> configured_runs (trace_of (MRS.cell_spec2 Sample.quiet Sample.rates))
  = [(Spec2, None,
      "det_image_seq1_MIRIFUSHORT_12LONGexp1125354_rate.fits");
     (Spec2, Some (ABool true),
      "det_image_seq2_MIRIFUSHORT_12LONGexp1125354_rate.fits")].
Proof. by vm_compute. Qed.

Section Unpacking.

Context (ext : externals).

Lemma header_fix_body_calls targra targdec f d :
  Py.count "." f = 1 ->
  exists t,
    calls (trace_of (MRS.header_fix_body targra targdec f d))
      = Print (fixed_name f) :: FitsOpen f :: t.
Proof.
  intros Hdot. rewrite header_fix_body_run.
  pose proof (unpack2_split "." f ltac:(done)) as U.
  destruct (Py.unpack2 (Py.split "." f)) as [[base rest]|e];
    [destruct U as [_ U]|destruct U as [_ U]; contradiction].
  assert (MRS.fix_name (base, rest).1 (base, rest).2 = fixed_name f) as ->.
  { unfold fixed_name. by rewrite U. }
  cbv zeta.
  destruct (d !! Path.norm f) as [[[b|hdus]|]|]; try by eexists.
  destruct (ext_index "SCI" hdus); by eexists.
Qed.

Lemma header_fix_body_unparsed targra targdec f d :
  Py.count "." f <> 1 ->
  MRS.header_fix_body targra targdec f d = (Py.Err Py.ValueError, d, []).
Proof.
  intros Hdot. rewrite header_fix_body_run.
  pose proof (unpack2_split "." f ltac:(done)) as U.
  destruct (Py.unpack2 (Py.split "." f)) as [[base rest]|e];
    [destruct U as [C1 U]; contradiction|by destruct U as [-> _]].
Qed.

End Unpacking.

(** C10, as the code has it.  What a loop asks of a name depends on
    the loop.  A calwebb_detector1 turn unpacks three splits: it runs
    the stage when the name has one dot, one [20210413_] and one
    [_mirisim] in what follows the [20210413_], and otherwise raises
    [ValueError] without running the stage.  A calwebb_spec2 turn and a
    header-fix turn unpack one split, at the dot: they go on when the
    name has one dot and otherwise raise [ValueError], before the stage
    is run or the file opened.  For these three separators Python's
    count of non-overlapping occurrences is the number of
    occurrences. *)
Theorem filename_unpacking (ext : externals) (f : string)
  (d : gmap string node) :
  (forall s, Py.count "." s = Py.occurrences "." s /\
             Py.count "20210413_" s = Py.occurrences "20210413_" s /\
             Py.count "_mirisim" s = Py.occurrences "_mirisim" s) /\
  (forall pipe,
     let r := MRS.detector1_body ext pipe f d in
     (detector1_name f -> runs (trace_of r) = [(Detector1, f)]) /\
     (~ detector1_name f ->
      result_of r = Py.Err Py.ValueError /\ runs (trace_of r) = [])) /\
  (forall hardcoded,
     let r := MRS.spec2_body ext hardcoded f d in
     (Py.count "." f = 1 -> runs (trace_of r) = [(Spec2, f)]) /\
     (Py.count "." f <> 1 ->
      result_of r = Py.Err Py.ValueError /\ runs (trace_of r) = [])) /\
  (forall targra targdec,
     let r := MRS.header_fix_body targra targdec f d in
     (Py.count "." f = 1 ->
      exists t, calls (trace_of r) = Print (fixed_name f) :: FitsOpen f :: t) /\
     (Py.count "." f <> 1 -> r = (Py.Err Py.ValueError, d, []))).
Proof.
  split; [|split; [|split]].
  - intros s. repeat split; by apply count_occurrences.
  - intros pipe. cbv zeta. split.
    + intros Hy.
      destruct (detector1_body_parsed ext pipe f d Hy)
        as (base & rest & before & date & tail & _ & _ & _ & ->). done.
    + intros Hn. by rewrite (detector1_body_unparsed ext pipe f d Hn).
  - intros hardcoded. cbv zeta. split.
    + intros Hy. rewrite (spec2_body_parsed ext hardcoded f d Hy).
      cbv zeta. unfold trace_of. cbn [snd].
      by destruct (String.eqb f hardcoded).
    + intros Hn. by rewrite (spec2_body_unparsed ext hardcoded f d Hn).
  - intros targra targdec. cbv zeta. split.
    + apply header_fix_body_calls.
    + apply header_fix_body_unparsed.
Qed.

Lemma filename_unpacking_witness :
  runs (trace_of (MRS.detector1_body Sample.quiet ∅
    "20210413_125354_mirisim/det_images/det_image_seq1_MIRIFUSHORT_12LONGexp1.fits"
    Sample.raw))
  = [(Detector1,
      "20210413_125354_mirisim/det_images/det_image_seq1_MIRIFUSHORT_12LONGexp1.fits")] /\
  runs (trace_of (MRS.spec2_body Sample.quiet MRS.short_cube_rate
    "det_image_seq1.5_MIRIFUSHORT_12LONGexp1125354_rate.fits" Sample.rates)) = [].
Proof.
  split.
  - destruct (filename_unpacking Sample.quiet
      "20210413_125354_mirisim/det_images/det_image_seq1_MIRIFUSHORT_12LONGexp1.fits"
      Sample.raw) as (_ & H & _).
    apply (H ∅). repeat split; by vm_compute.
  - destruct (filename_unpacking Sample.quiet
      "det_image_seq1.5_MIRIFUSHORT_12LONGexp1125354_rate.fits"
      Sample.rates) as (_ & _ & H & _).
    apply (H MRS.short_cube_rate). by vm_compute.
Defined.

(** C10 as stated fails.  The rate file the notebook itself names has
    no [20210413_] and no [_mirisim] in it, and the calwebb_spec2 loop
    runs the stage on it without raising.  And a raw file under a
    directory the calwebb_detector1 cell globs can have [_mirisim] twice
    in its path and still be run. *)
Lemma unpacking_asks_less :
  let rate := "det_image_seq1_MIRIFUSHORT_12LONGexp1125354_rate.fits" in
  let uncal := "20210413_mirisim_x_mirisim/det_images/aMIRIFUSHORTb.fits" in
  (Glob.matches "det_image_*_MIRIFUSHORT_*_rate.fits" rate = true /\
   Py.occurrences "20210413_" rate = 0 /\
   Py.occurrences "_mirisim" rate = 0 /\
   result_of (MRS.spec2_body Sample.quiet MRS.short_cube_rate rate Sample.rates)
     = Py.Ok tt /\
   runs (trace_of (MRS.spec2_body Sample.quiet MRS.short_cube_rate rate
                     Sample.rates)) = [(Spec2, rate)]) /\
  (Glob.matches "20210413_*_mirisim/det_images/*MIRIFUSHORT*fits" uncal = true /\
   Py.occurrences "_mirisim" uncal = 2 /\
   returned (result_of (MRS.detector1_body Sample.quiet ∅ uncal ∅)) /\
   runs (trace_of (MRS.detector1_body Sample.quiet ∅ uncal ∅))
     = [(Detector1, uncal)]).
Proof. cbv zeta. repeat split; by vm_compute. Qed.

(** ** Replacing in names *)

Section Replacing.

Implicit Types (s p x t old new : string) (a : ascii).

Lemma has_char_append a x q : has_char a (x +:+ String a q) = true.
Proof.
  induction x as [|c x IH]; [|rewrite append_cons; simpl; by rewrite IH, orb_true_r].
  rewrite append_nil_l. simpl. by rewrite Ascii.eqb_refl.
Qed.

Lemma startswith_append_r p x t :
  Py.startswith p x = true -> Py.startswith p (x +:+ t) = true.
Proof.
  revert x. induction p as [|c p IH]; intros x H; [apply startswith_nil|].
  destruct x as [|c' x]; [done|].
  rewrite append_cons, startswith_cons in *.
  destruct (ascii_dec c c'); [by apply IH|done].
Qed.

(** An occurrence that begins in [x] and is followed by a character
    foreign to [p] lies within [x]. *)
Lemma startswith_append_inv p x a t :
  has_char a p = false ->
  Py.startswith p (x +:+ String a t) = true -> Py.startswith p x = true.
Proof.
  revert x. induction p as [|c p IH]; intros x Ha H; [apply startswith_nil|].
  simpl in Ha. apply orb_false_iff in Ha as [Hac Ha].
  destruct x as [|c' x].
  - rewrite append_nil_l, startswith_cons in H.
    destruct (ascii_dec c a) as [->|]; [|done].
    by rewrite Ascii.eqb_refl in Hac.
  - rewrite append_cons, startswith_cons in H. rewrite startswith_cons.
    destruct (ascii_dec c c'); [by apply IH|done].
Qed.

(** Replacement goes through a text part by part when the parts meet
    at a character foreign to what is replaced. *)
Lemma replace_at_append old new a t :
  has_char a old = false ->
  forall b k, k <= String.length b ->
    Py.replace_at old new k (b +:+ String a t) =
      Py.replace_at old new k b +:+ Py.replace_at old new 0 (String a t).
Proof.
  intros Ha. induction b as [|c b IH]; intros k Hk.
  - simpl in Hk. assert (k = 0) as -> by lia. by rewrite !append_nil_l.
  - rewrite append_cons. cbn [Py.replace_at]. destruct k as [|k].
    + destruct (Py.startswith old (String c (b +:+ String a t))) eqn:Hp.
      * assert (Py.startswith old (String c b) = true) as Hp'.
        { apply (startswith_append_inv old (String c b) a t Ha).
          by rewrite append_cons. }
        rewrite Hp'. rewrite IH, append_assoc; [done|].
        apply startswith_length in Hp'. simpl in Hp'. lia.
      * assert (Py.startswith old (String c b) = false) as Hp'.
        { destruct (Py.startswith old (String c b)) eqn:E; [|done].
          apply (startswith_append_r _ _ (String a t)) in E.
          rewrite append_cons in E. congruence. }
        rewrite Hp'. rewrite IH by lia. by rewrite append_cons.
    + apply IH. simpl in Hk. lia.
Qed.

Lemma replace_append old new a t b :
  has_char a old = false ->
  Py.replace old new (b +:+ String a t) =
    Py.replace old new b +:+ Py.replace old new (String a t).
Proof. intros Ha. apply replace_at_append; [done|lia]. Qed.

(** Where nothing occurs, nothing is replaced. *)
Lemma replace_none old new s :
  Py.occurrences old s = 0 -> Py.replace old new s = s.
Proof.
  unfold Py.replace. induction s as [|c s IH]; intros H; [done|].
  cbn [Py.occurrences] in H. cbn [Py.replace_at].
  destruct (Py.startswith old (String c s)); [simpl in H; lia|].
  rewrite IH; [done|]. simpl in H. lia.
Qed.

(** The two names the NIRISS loop hands to Image2, for a file called
    [<base>_uncal.fits]. *)
Lemma rate_names base :
  Py.replace "uncal" "rate" (base +:+ "_uncal.fits")
    = Py.replace "uncal" "rate" base +:+ "_rate.fits" /\
  Py.replace "uncal" "rateints" (base +:+ "_uncal.fits")
    = Py.replace "uncal" "rateints" base +:+ "_rateints.fits".
Proof.
  split.
  - by rewrite (replace_append "uncal" "rate" "_" "uncal.fits" base).
  - by rewrite (replace_append "uncal" "rateints" "_" "uncal.fits" base).
Qed.

End Replacing.

Section GlobShapes2.

Lemma split_two sep p c1 c2 :
  sep <> "" -> Py.split sep p = [c1; c2] -> p = c1 +:+ sep +:+ c2.
Proof.
  intros Hsep H. rewrite split_partition in H by done.
  destruct (Py.partition sep p) as [[a b]|] eqn:Hp; [|done].
  injection H as -> H. apply split_singleton in H as ->; [|done].
  by apply partition_spec.
Qed.

(** A pattern of two components meets names of two components. *)
Lemma matches_two pat a b p :
  Py.split "/" pat = [a; b] ->
  Glob.matches pat p = true ->
  exists c1 c2,
    p = c1 +:+ "/" +:+ c2 /\ Glob.wild a c1 = true /\ Glob.wild b c2 = true.
Proof.
  unfold Glob.matches. intros ->.
  destruct (Py.split "/" p) as [|c1 [|c2 [|c3 l]]] eqn:Hs; simpl; try done.
  - by rewrite andb_false_r.
  - rewrite andb_true_r. intros [H1 H2]%andb_true_iff.
    apply component_wild in H1, H2.
    exists c1, c2. split; [|done]. by apply split_two.
  - rewrite !andb_false_r. done.
Qed.

Ltac shape H :=
  lazymatch type of H with
  | Glob.matches ?pat _ = true =>
      let l := eval vm_compute in (Py.split "/" pat) in
      lazymatch l with
      | [_] =>
          apply matches_single in H; [|reflexivity];
          apply component_wild in H; wild_inv H
      | [?a; ?b] =>
          apply (matches_two pat a b) in H; [|reflexivity];
          let c1 := fresh "c" in
          let c2 := fresh "c" in
          let H1 := fresh "H" in
          let H2 := fresh "H" in
          destruct H as (c1 & c2 & -> & H1 & H2);
          wild_inv H1; wild_inv H2
      end
  end;
  by repeat eexists.

(** What the later cells glob for. *)
Lemma later_globs p :
  (Glob.matches "det_image_*_MIRIFUSHORT_*_rate.fits" p = true ->
   exists x y, p = "det_image_" +:+ x +:+ "_MIRIFUSHORT_" +:+ y +:+ "_rate.fits") /\
  (Glob.matches "det_image_*_MIRIFULONG_*_rate.fits" p = true ->
   exists x y, p = "det_image_" +:+ x +:+ "_MIRIFULONG_" +:+ y +:+ "_rate.fits") /\
  (Glob.matches "det_image_*_cal.fits" p = true ->
   exists x, p = "det_image_" +:+ x +:+ "_cal.fits") /\
  (Glob.matches "det_image_*_cal_fix.fits" p = true ->
   exists x, p = "det_image_" +:+ x +:+ "_cal_fix.fits") /\
  (Glob.matches (Path.joinpath NIRISS.outdir "jw*rate.fits") p = true ->
   exists x, p = "pipeline_calibrated_data/jw" +:+ x +:+ "rate.fits") /\
  (Glob.matches (Path.joinpath NIRISS.outdir "jw*rateints.fits") p = true ->
   exists x, p = "pipeline_calibrated_data/jw" +:+ x +:+ "rateints.fits") /\
  (Glob.matches (Path.joinpath NIRISS.outdir "jw*cal.fits") p = true ->
   exists x, p = "pipeline_calibrated_data/jw" +:+ x +:+ "cal.fits") /\
  (Glob.matches (Path.joinpath NIRISS.outdir "jw*calints.fits") p = true ->
   exists x, p = "pipeline_calibrated_data/jw" +:+ x +:+ "calints.fits") /\
  (Glob.matches (Path.joinpath NIRISS.datasuperdir "*calints.fits") p = true ->
   exists x, p = "pipeline_calibrated_data_corr/" +:+ x +:+ "calints.fits").
Proof.
  repeat split; intros H; shape H.
Qed.

End GlobShapes2.

Section ProductNames.

Context (ext : externals).

Lemma niriss_notebook_fringe_dirs : emits fringe_dirs (NIRISS.notebook ext).
Proof.
  unfold NIRISS.notebook, NIRISS.cell_download, NIRISS.cell_datafiles,
    NIRISS.cell_examine_raw, NIRISS.cell_outdir, NIRISS.cell_pipelines,
    NIRISS.pipelines_body, NIRISS.cell_listing, NIRISS.listing,
    NIRISS.cell_info, NIRISS.cell_display_cal, NIRISS.cell_bp_fix,
    NIRISS.cell_display_corr, NIRISS.cell_implaneia, NIRISS.implaneia_body,
    NIRISS.main, NIRISS.raw_observables, NIRISS.examine_observables,
    NIRISS.cell_products, NIRISS.cell_calibrate.
  emits_all; done.
Qed.

Lemma pipelines_body_names base df d :
  Path.name df = base +:+ "_uncal.fits" ->
  let expected :=
    [(Detector1, df);
     (Image2, "pipeline_calibrated_data/"
                +:+ Py.replace "uncal" "rate" base +:+ "_rate.fits");
     (Image2, "pipeline_calibrated_data/"
                +:+ Py.replace "uncal" "rateints" base +:+ "_rateints.fits")] in
  runs (trace_of (NIRISS.pipelines_body ext df d)) `prefix_of` expected /\
  (returned (result_of (NIRISS.pipelines_body ext df d)) ->
   runs (trace_of (NIRISS.pipelines_body ext df d)) = expected).
Proof.
  intros Hname. cbv zeta.
  destruct (rate_names base) as [R1 R2].
  pose proof (pipelines_body_runs ext df d) as H.
  unfold niriss_runs in H. rewrite Hname, R1, R2 in H. exact H.
Qed.

End ProductNames.

(** The names the notebooks hand on and look for.  The names the
    NIRISS loop hands to Image2 are made with [str.replace]: for a file
    called [<base>_uncal.fits] the two Image2 runs are on
    [<base'>_rate.fits] and [<base'>_rateints.fits] in the output
    directory, [<base'>] being [<base>] with its own [uncal]s replaced,
    which is [<base>] when it has none.  The later cells glob for
    names that end in [rate.fits],
    [rateints.fits], [cal.fits], [calints.fits], and [_rate.fits],
    [_cal.fits], [_cal_fix.fits] for the MRS notebook; the two cube
    files the MRS notebook opens are the two hard-coded rate names with
    [_s3d] for [_rate].  Every fringe fit of the NIRISS notebook is
    told to write under [Saveoit] and [Saveoif] of the corrected-data
    directory, and the calibration reads and writes under [Saveoif]. *)
Theorem product_names (ext : externals) :
  (forall base df d,
     Path.name df = base +:+ "_uncal.fits" ->
     let expected :=
       [(Detector1, df);
        (Image2, "pipeline_calibrated_data/"
                   +:+ Py.replace "uncal" "rate" base +:+ "_rate.fits");
        (Image2, "pipeline_calibrated_data/"
                   +:+ Py.replace "uncal" "rateints" base +:+ "_rateints.fits")] in
     runs (trace_of (NIRISS.pipelines_body ext df d)) `prefix_of` expected /\
     (returned (result_of (NIRISS.pipelines_body ext df d)) ->
      runs (trace_of (NIRISS.pipelines_body ext df d)) = expected)) /\
  (forall base new,
     Py.occurrences "uncal" base = 0 -> Py.replace "uncal" new base = base) /\
  (forall p,
     (Glob.matches "det_image_*_MIRIFUSHORT_*_rate.fits" p = true ->
      exists x y,
        p = "det_image_" +:+ x +:+ "_MIRIFUSHORT_" +:+ y +:+ "_rate.fits") /\
     (Glob.matches "det_image_*_MIRIFULONG_*_rate.fits" p = true ->
      exists x y,
        p = "det_image_" +:+ x +:+ "_MIRIFULONG_" +:+ y +:+ "_rate.fits") /\
     (Glob.matches "det_image_*_cal.fits" p = true ->
      exists x, p = "det_image_" +:+ x +:+ "_cal.fits") /\
     (Glob.matches "det_image_*_cal_fix.fits" p = true ->
      exists x, p = "det_image_" +:+ x +:+ "_cal_fix.fits") /\
     (Glob.matches (Path.joinpath NIRISS.outdir "jw*rate.fits") p = true ->
      exists x, p = "pipeline_calibrated_data/jw" +:+ x +:+ "rate.fits") /\
     (Glob.matches (Path.joinpath NIRISS.outdir "jw*rateints.fits") p = true ->
      exists x, p = "pipeline_calibrated_data/jw" +:+ x +:+ "rateints.fits") /\
     (Glob.matches (Path.joinpath NIRISS.outdir "jw*cal.fits") p = true ->
      exists x, p = "pipeline_calibrated_data/jw" +:+ x +:+ "cal.fits") /\
     (Glob.matches (Path.joinpath NIRISS.outdir "jw*calints.fits") p = true ->
      exists x, p = "pipeline_calibrated_data/jw" +:+ x +:+ "calints.fits") /\
     (Glob.matches (Path.joinpath NIRISS.datasuperdir "*calints.fits") p = true ->
      exists x, p = "pipeline_calibrated_data_corr/" +:+ x +:+ "calints.fits")) /\
  (exists stem,
     MRS.short_cube_rate = stem +:+ "_rate.fits" /\
     MRS.s_cube_file = stem +:+ "_s3d.fits") /\
  (exists stem,
     MRS.long_cube_rate = stem +:+ "_rate.fits" /\
     MRS.l_cube_file = stem +:+ "_s3d.fits") /\
  emits fringe_dirs (NIRISS.notebook ext).
Proof.
  split; [intros; by apply pipelines_body_names|].
  split; [intros; by apply replace_none|].
  split; [apply later_globs|].
  split; [by exists "det_image_seq1_MIRIFUSHORT_12LONGexp1125354"|].
  split; [by exists "det_image_seq1_MIRIFULONG_34SHORTexp1120546"|].
  apply niriss_notebook_fringe_dirs.
Qed.

Lemma product_names_witness :
  let df :=
    "niriss_ami_binary2_inflight/jw01093012001_03102_00001_nis_uncal.fits" in
  runs (trace_of (NIRISS.pipelines_body Sample.quiet df ∅)) =
    [(Detector1, df);
     (Image2, "pipeline_calibrated_data/jw01093012001_03102_00001_nis_rate.fits");
     (Image2, "pipeline_calibrated_data/jw01093012001_03102_00001_nis_rateints.fits")].
Proof.
  cbv zeta.
  destruct (product_names Sample.quiet) as (H & Hnone & _).
  destruct (H "jw01093012001_03102_00001_nis"
              "niriss_ami_binary2_inflight/jw01093012001_03102_00001_nis_uncal.fits"
              ∅) as [_ E].
  - by vm_compute.
  - rewrite !(Hnone "jw01093012001_03102_00001_nis") in E by (by vm_compute).
    apply E. by vm_compute.
Defined.

(** C4.  The loop of the NIRISS notebook misses the name of the rate
    product when the name of the raw file has [uncal] in its base as
    well: [str.replace] rewrites every [uncal], not the suffix alone.
    The file [jw_uncal_01_uncal.fits] is one the notebook globs;
    Detector1 is run on it, and Image2 is handed
    [jw_rate_01_rate.fits], not the [jw_uncal_01_rate.fits] that the
    suffix scheme gives. *)
Lemma replace_is_not_suffix_only :
  let df := "niriss_ami_binary2_inflight/jw_uncal_01_uncal.fits" in
  Glob.matches (Path.joinpath NIRISS.inflightdata "jw*uncal.fits") df = true /\
  Path.name df = "jw_uncal_01" +:+ "_uncal.fits" /\
  runs (trace_of (NIRISS.pipelines_body Sample.quiet df ∅)) =
    [(Detector1, df);
     (Image2, "pipeline_calibrated_data/jw_rate_01_rate.fits");
     (Image2, "pipeline_calibrated_data/jw_rateints_01_rateints.fits")] /\
  "pipeline_calibrated_data/jw_rate_01_rate.fits"
    <> "pipeline_calibrated_data/" +:+ "jw_uncal_01" +:+ "_rate.fits".
Proof. cbv zeta. repeat split; by vm_compute. Qed.

(** ** Exceptions *)

Section Propagates.

Lemma propagates_ret {A} (a : A) : propagates (ret a).
Proof. intros d. constructor. Qed.

Lemma propagates_raise {A} e : propagates (@raise A e).
Proof. intros d. left. constructor. Qed.

Lemma propagates_lift {A} (r : Py.result A) : propagates (lift r).
Proof. destruct r; [apply propagates_ret|apply propagates_raise]. Qed.

Lemma propagates_bind {A B} (m : M A) (k : A -> M B) :
  propagates m -> (forall a, propagates (k a)) -> propagates (bind m k).
Proof.
  intros Hm Hk d. specialize (Hm d). unfold uncaught in *.
  rewrite result_bind, trace_bind.
  destruct (result_of (m d)) as [a|e].
  - specialize (Hk a (disk_of (m d))). unfold uncaught in Hk.
    destruct (result_of (k a (disk_of (m d)))) as [b|e].
    + by apply Forall_app.
    + destruct Hk as [Hk|(t & c & Ht & Hc)].
      * left. by apply Forall_app.
      * right. exists (trace_of (m d) ++ t), c.
        rewrite Ht, app_assoc. split; [done|]. by apply Forall_app.
  - by rewrite app_nil_r.
Qed.

Lemma propagates_for {A} (l : list A) (body : A -> M unit) :
  (forall x, propagates (body x)) -> propagates (for_ l body).
Proof.
  intros H. induction l as [|x l IH]; [apply propagates_ret|].
  apply propagates_bind; [apply H|]. intros _. apply IH.
Qed.

Lemma propagates_for_with {A S} (l : list A) (s : S) (body : S -> A -> M S) :
  (forall s x, propagates (body s x)) -> propagates (for_with l s body).
Proof.
  intros H. revert s. induction l as [|x l IH]; intros s; [apply propagates_ret|].
  apply propagates_bind; [apply H|]. intros s'. apply IH.
Qed.

Lemma uncaught_emit c o d : uncaught (emit c o d).
Proof.
  unfold uncaught, emit, result_of, trace_of. cbn [fst snd].
  destruct (raised o) as [e|].
  - right. exists [], c. split; [done|constructor].
  - by repeat constructor.
Qed.

Lemma propagates_emit c o : propagates (emit c o).
Proof. intros d. apply uncaught_emit. Qed.

(** A call that answers or raises, and leaves the disk alone. *)
Lemma uncaught_ask {A} c (r : Py.result A) d :
  uncaught (match r with
            | Py.Ok a => (Py.Ok a, d, [{| what := c; failed := None |}])
            | Py.Err e => (Py.Err e, d, [{| what := c; failed := Some e |}])
            end).
Proof.
  destruct r as [a|e].
  - by repeat constructor.
  - right. exists [], c. split; [done|constructor].
Qed.

Lemma propagates_exists p : propagates (exists_ p).
Proof. intros d. constructor. Qed.

Lemma propagates_glob pat : propagates (glob pat).
Proof. intros d. constructor. Qed.

Lemma propagates_print text : propagates (print text).
Proof. apply propagates_emit. Qed.

Lemma propagates_show ext what_ : propagates (show ext what_).
Proof. intros d. apply uncaught_emit. Qed.

Lemma propagates_urlretrieve ext url filename :
  propagates (urlretrieve ext url filename).
Proof. apply propagates_emit. Qed.

Lemma propagates_extractall ext archive : propagates (extractall ext archive).
Proof. intros d. apply uncaught_emit. Qed.

Lemma propagates_mkdir p : propagates (mkdir p).
Proof. intros d. apply uncaught_emit. Qed.

Lemma propagates_run ext st cfg input : propagates (run ext st cfg input).
Proof. intros d. apply uncaught_emit. Qed.

Lemma propagates_detect ext cube : propagates (detect ext cube).
Proof. intros d. apply (uncaught_ask (Detect cube) (brightest ext cube d)). Qed.

Lemma propagates_fits_open p : propagates (fits_open p).
Proof.
  intros d. unfold fits_open.
  destruct (d !! Path.norm p) as [[[b|hdus]|]|].
  - apply (uncaught_ask (FitsOpen p) (@Py.Err (list hdu) _)).
  - apply (uncaught_ask (FitsOpen p) (Py.Ok hdus)).
  - apply (uncaught_ask (FitsOpen p) (@Py.Err (list hdu) _)).
  - apply (uncaught_ask (FitsOpen p) (@Py.Err (list hdu) _)).
Qed.

Lemma propagates_writeto hdus p overwrite : propagates (writeto hdus p overwrite).
Proof. intros d. apply uncaught_emit. Qed.

Lemma propagates_asn_from_list ext files name :
  propagates (asn_from_list ext files name).
Proof.
  intros d. apply (uncaught_ask (AsnFromList files name) (asn_dump ext files name)).
Qed.

Lemma propagates_write_text p text : propagates (write_text p text).
Proof. apply propagates_emit. Qed.

Lemma propagates_correct_fitsfiles ext indir odir :
  propagates (correct_fitsfiles ext indir odir).
Proof. intros d. apply uncaught_emit. Qed.

Lemma propagates_set_by_name name key v hdus :
  propagates (set_by_name name key v hdus).
Proof.
  unfold set_by_name. destruct (ext_index name hdus);
    [apply propagates_ret|apply propagates_raise].
Qed.

Lemma propagates_set_by_index i key v hdus :
  propagates (set_by_index i key v hdus).
Proof.
  unfold set_by_index. destruct (hdus !! i);
    [apply propagates_ret|apply propagates_raise].
Qed.

Lemma propagates_getheader p : propagates (getheader p).
Proof.
  intros d. unfold getheader.
  destruct (d !! Path.norm p) as [[[b|[|h hdus]]|]|].
  - apply (uncaught_ask (Getheader p) (@Py.Err (gmap string hval) _)).
  - apply (uncaught_ask (Getheader p) (@Py.Err (gmap string hval) _)).
  - apply (uncaught_ask (Getheader p) (Py.Ok (header h))).
  - apply (uncaught_ask (Getheader p) (@Py.Err (gmap string hval) _)).
  - apply (uncaught_ask (Getheader p) (@Py.Err (gmap string hval) _)).
Qed.

Lemma propagates_setval p key value : propagates (setval p key value).
Proof. intros d. apply uncaught_emit. Qed.

Lemma propagates_card hdr key : propagates (card hdr key).
Proof.
  unfold card. destruct (hdr !! key);
    [apply propagates_ret|apply propagates_raise].
Qed.

Lemma propagates_replace_in old new v : propagates (replace_in old new v).
Proof. destruct v; [apply propagates_ret|apply propagates_raise]. Qed.

Lemma propagates_fit_fringes ext ff p : propagates (fit_fringes ext ff p).
Proof. intros d. apply uncaught_emit. Qed.

Lemma propagates_calibrate_oifits ext targ cal dir :
  propagates (calibrate_oifits ext targ cal dir).
Proof. intros d. apply uncaught_emit. Qed.

End Propagates.

Ltac propagates_step :=
  lazymatch goal with
  | |- propagates (bind _ _) => apply propagates_bind; [|intros ?]
  | |- propagates (ret _) => apply propagates_ret
  | |- propagates (raise _) => apply propagates_raise
  | |- propagates (lift _) => apply propagates_lift
  | |- propagates (for_ _ _) => apply propagates_for; intros ?
  | |- propagates (for_with _ _ _) => apply propagates_for_with; intros ? ?
  | |- propagates (exists_ _) => apply propagates_exists
  | |- propagates (glob _) => apply propagates_glob
  | |- propagates (print _) => apply propagates_print
  | |- propagates (show _ _) => apply propagates_show
  | |- propagates (urlretrieve _ _ _) => apply propagates_urlretrieve
  | |- propagates (extractall _ _) => apply propagates_extractall
  | |- propagates (mkdir _) => apply propagates_mkdir
  | |- propagates (run _ _ _ _) => apply propagates_run
  | |- propagates (detect _ _) => apply propagates_detect
  | |- propagates (fits_open _) => apply propagates_fits_open
  | |- propagates (writeto _ _ _) => apply propagates_writeto
  | |- propagates (asn_from_list _ _ _) => apply propagates_asn_from_list
  | |- propagates (write_text _ _) => apply propagates_write_text
  | |- propagates (correct_fitsfiles _ _ _) => apply propagates_correct_fitsfiles
  | |- propagates (set_by_name _ _ _ _) => apply propagates_set_by_name
  | |- propagates (set_by_index _ _ _ _) => apply propagates_set_by_index
  | |- propagates (getheader _) => apply propagates_getheader
  | |- propagates (setval _ _ _) => apply propagates_setval
  | |- propagates (card _ _) => apply propagates_card
  | |- propagates (replace_in _ _ _) => apply propagates_replace_in
  | |- propagates (fit_fringes _ _ _) => apply propagates_fit_fringes
  | |- propagates (calibrate_oifits _ _ _ _) => apply propagates_calibrate_oifits
  | |- propagates (if ?b then _ else _) => destruct b
  | |- propagates (match ?x with _ => _ end) => destruct x
  | |- propagates (let _ := _ in _) => cbv zeta
  end.

Section NotebooksPropagate.

Context (ext : externals).

Lemma mrs_notebook_propagates : propagates (MRS.notebook ext).
Proof.
  unfold MRS.notebook, MRS.cell_download, MRS.cell_untar, MRS.cell_detector1,
    MRS.detector1_loop, MRS.detector1_body,
    MRS.cell_spec2, MRS.spec2_body, MRS.cell_detect, MRS.cell_header_fix,
    MRS.header_fix_body, MRS.cell_asn, MRS.cell_spec3.
  repeat propagates_step.
Qed.

Lemma niriss_notebook_propagates : propagates (NIRISS.notebook ext).
Proof.
  unfold NIRISS.notebook, NIRISS.cell_download, NIRISS.cell_datafiles,
    NIRISS.cell_examine_raw, NIRISS.cell_outdir, NIRISS.cell_pipelines,
    NIRISS.pipelines_body, NIRISS.cell_listing, NIRISS.listing,
    NIRISS.cell_info, NIRISS.cell_display_cal, NIRISS.cell_bp_fix,
    NIRISS.cell_display_corr, NIRISS.cell_implaneia, NIRISS.implaneia_body,
    NIRISS.main, NIRISS.raw_observables, NIRISS.examine_observables,
    NIRISS.cell_products, NIRISS.cell_calibrate.
  repeat propagates_step.
Qed.

(** What [uncaught] says of the single lines of a trace. *)
Lemma uncaught_lines {A} (x : Py.result A * gmap string node * list entry)
  i c e :
  uncaught x ->
  trace_of x !! i = Some {| what := c; failed := Some e |} ->
  S i = length (trace_of x) /\ result_of x = Py.Err e.
Proof.
  unfold uncaught. intros H Hi.
  assert (forall t, clean t -> t !! i = Some {| what := c; failed := Some e |}
                    -> False) as Hclean.
  { intros t Ht Hti. unfold clean in Ht. rewrite Forall_lookup in Ht.
    by specialize (Ht i _ Hti). }
  destruct (result_of x) as [a|e'].
  - by destruct (Hclean _ H Hi).
  - destruct H as [H|(t & c' & Ht & Hc)]; [by destruct (Hclean _ H Hi)|].
    rewrite Ht in Hi |- *. rewrite length_app. simpl.
    destruct (decide (i < length t)) as [Hlt|Hge].
    + rewrite lookup_app_l in Hi by done. by destruct (Hclean _ Hc Hi).
    + rewrite lookup_app_r in Hi by lia.
      destruct (i - length t) as [|n] eqn:En; [|by destruct n].
      injection Hi as -> ->. split; [lia|done].
Qed.

End NotebooksPropagate.

(** ** Calls made at most once *)

Section AtMost.

Context {X : Type} (pick : entry -> option X).

Lemma at_most_bind {A B} l1 l2 (m : M A) (k : A -> M B) :
  at_most (omap pick) l1 m -> (forall a, at_most (omap pick) l2 (k a)) ->
  at_most (omap pick) (l1 ++ l2) (bind m k).
Proof.
  intros Hm Hk d. rewrite trace_bind, omap_app. apply sublist_app; [apply Hm|].
  destruct (result_of (m d)); [apply Hk|apply sublist_nil_l].
Qed.

Lemma at_most_nil {A} (m : M A) :
  emits (fun c => forall f, pick {| what := c; failed := f |} = None) m ->
  at_most (omap pick) [] m.
Proof.
  intros Hm d. specialize (Hm d).
  induction (trace_of (m d)) as [|e t IH]; [done|].
  apply Forall_cons in Hm as [He Ht]. simpl.
  destruct e as [c f]. simpl in He. rewrite He. by apply IH.
Qed.

Lemma at_most_weaken {A} l (m : M A) :
  at_most (omap pick) [] m -> at_most (omap pick) l m.
Proof. intros Hm d. etrans; [apply Hm|apply sublist_nil_l]. Qed.

Lemma at_most_one {A} (m : M A) x :
  (forall d, omap pick (trace_of (m d)) = [x]) -> at_most (omap pick) [x] m.
Proof. intros Hm d. by rewrite Hm. Qed.

End AtMost.

Section OnceOnly.

Context (ext : externals).

Lemma no_retrieval_at_most {A} (m : M A) l :
  emits (fun c => ~ is_retrieval c) m -> at_most retrievals l m.
Proof.
  intros Hm. apply at_most_weaken, at_most_nil.
  eapply emits_weaken; [|exact Hm]. intros c Hc f. by destruct c.
Qed.

Lemma no_extraction_at_most {A} (m : M A) l :
  emits (fun c => ~ is_extraction c) m -> at_most extractions l m.
Proof.
  intros Hm. apply at_most_weaken, at_most_nil.
  eapply emits_weaken; [|exact Hm]. intros c Hc f. by destruct c.
Qed.

Lemma fetch_unless_present_at_most name url :
  at_most retrievals [(url, "./" +:+ name)]
          (MRS.fetch_unless_present ext name url).
Proof.
  intros d. rewrite fetch_unless_present_run.
  destruct (path_exists d name); [apply sublist_nil_l|].
  by destruct (fetch ext url).
Qed.

Lemma mrs_retrievals_at_most :
  at_most retrievals
    [(MRS.url_120546, "./20210413_120546_mirisim.tar.gz");
     (MRS.url_123047, "./20210413_123047_mirisim.tar.gz");
     (MRS.url_125354, "./20210413_125354_mirisim.tar.gz")]
    (MRS.notebook ext).
Proof.
  unfold MRS.notebook.
  apply (at_most_bind _ [_; _; _] []).
  - rewrite cell_download_guards.
    apply (at_most_bind _ [_] [_; _]);
      [apply fetch_unless_present_at_most|intros _].
    apply (at_most_bind _ [_] [_]);
      [apply fetch_unless_present_at_most|intros _].
    apply fetch_unless_present_at_most.
  - intros _. apply no_retrieval_at_most.
    unfold MRS.cell_untar, MRS.cell_detector1,
      MRS.detector1_loop, MRS.detector1_body,
      MRS.cell_spec2, MRS.spec2_body, MRS.cell_detect, MRS.cell_header_fix,
      MRS.header_fix_body, MRS.cell_asn, MRS.cell_spec3.
    emits_all; by intros [].
Qed.

Lemma untar_guard_at_most dir text archive :
  at_most extractions [archive]
    (b <- exists_ dir ;; if b then print text else extractall ext archive)%nb.
Proof.
  apply (at_most_bind _ [] [_]).
  - apply at_most_nil. emits_all.
  - intros [|].
    + apply at_most_weaken, at_most_nil. emits_all. done.
    + by apply at_most_one.
Qed.

Lemma mrs_extractions_at_most :
  at_most extractions
    ["./20210413_120546_mirisim.tar.gz";
     "./20210413_123047_mirisim.tar.gz";
     "./20210413_125354_mirisim.tar.gz"]
    (MRS.notebook ext).
Proof.
  unfold MRS.notebook.
  apply (at_most_bind _ [] [_; _; _]).
  { apply at_most_nil. unfold MRS.cell_download. emits_all; done. }
  intros _. apply (at_most_bind _ [_; _; _] []).
  - unfold MRS.cell_untar.
    apply (at_most_bind _ [_] [_; _]); [apply untar_guard_at_most|intros _].
    apply (at_most_bind _ [_] [_]); [apply untar_guard_at_most|intros _].
    apply untar_guard_at_most.
  - intros _. apply no_extraction_at_most.
    unfold MRS.cell_detector1,
      MRS.detector1_loop, MRS.detector1_body,
      MRS.cell_spec2, MRS.spec2_body, MRS.cell_detect, MRS.cell_header_fix,
      MRS.header_fix_body, MRS.cell_asn, MRS.cell_spec3.
    emits_all; by intros [].
Qed.

Lemma niriss_rest_quiet (X : call -> Prop) datafiles_k :
  (forall c, ~ is_retrieval c -> ~ is_extraction c -> X c) ->
  datafiles_k =
    (datafiles <- NIRISS.cell_datafiles ;;
     NIRISS.cell_examine_raw ext datafiles ;;
     NIRISS.cell_outdir ;;
     NIRISS.cell_pipelines ext datafiles ;;
     lists <- NIRISS.cell_listing ;;
     NIRISS.cell_info ext lists.1.1.2 lists.1.1.1 ;;
     NIRISS.cell_info ext lists.2 lists.1.2 ;;
     NIRISS.cell_display_cal ext lists.2 ;;
     calintfiles_corr <- NIRISS.cell_bp_fix ext ;;
     NIRISS.cell_display_corr ext calintfiles_corr ;;
     NIRISS.cell_implaneia ext ;;
     NIRISS.cell_products ext ;;
     NIRISS.cell_calibrate ext)%nb ->
  emits X datafiles_k.
Proof.
  intros HX ->.
  unfold NIRISS.cell_datafiles,
    NIRISS.cell_examine_raw, NIRISS.cell_outdir, NIRISS.cell_pipelines,
    NIRISS.pipelines_body, NIRISS.cell_listing, NIRISS.listing,
    NIRISS.cell_info, NIRISS.cell_display_cal, NIRISS.cell_bp_fix,
    NIRISS.cell_display_corr, NIRISS.cell_implaneia, NIRISS.implaneia_body,
    NIRISS.main, NIRISS.raw_observables, NIRISS.examine_observables,
    NIRISS.cell_products, NIRISS.cell_calibrate.
  emits_all; apply HX; simpl; tauto.
Qed.

Lemma niriss_once_only :
  at_most retrievals [(NIRISS.boxlink, NIRISS.boxfile)] (NIRISS.notebook ext) /\
  at_most extractions [NIRISS.boxfile] (NIRISS.notebook ext).
Proof.
  unfold NIRISS.notebook. split.
  - apply (at_most_bind _ [_] []).
    + intros d. rewrite niriss_download_run.
      destruct (path_exists d NIRISS.boxfile); [apply sublist_nil_l|].
      by destruct (fetch ext NIRISS.boxlink).
    + intros _. apply no_retrieval_at_most.
      eapply niriss_rest_quiet; [|reflexivity]. auto.
  - apply (at_most_bind _ [_] []).
    + intros d. rewrite niriss_download_run.
      destruct (path_exists d NIRISS.boxfile); [apply sublist_nil_l|].
      destruct (fetch ext NIRISS.boxlink); [done|apply sublist_nil_l].
    + intros _. apply no_extraction_at_most.
      eapply niriss_rest_quiet; [|reflexivity]. auto.
Qed.

End OnceOnly.

(** C6. The notebooks handle no exception.  In the trace of either
    notebook, run from any disk in any surroundings, a call that raised
    is the last call made, and the notebook ends on the exception it
    raised: nothing is tried again and nothing is done after it.  A
    notebook that returned made no call that raised.  Each archive is
    retrieved at most once and unpacked at most once. *)
Theorem exceptions_propagate (ext : externals) (d : gmap string node) :
  uncaught (MRS.notebook ext d) /\
  uncaught (NIRISS.notebook ext d) /\
  (forall i c e,
     trace_of (MRS.notebook ext d) !! i
       = Some {| what := c; failed := Some e |} ->
     S i = length (trace_of (MRS.notebook ext d)) /\
     result_of (MRS.notebook ext d) = Py.Err e) /\
  (forall i c e,
     trace_of (NIRISS.notebook ext d) !! i
       = Some {| what := c; failed := Some e |} ->
     S i = length (trace_of (NIRISS.notebook ext d)) /\
     result_of (NIRISS.notebook ext d) = Py.Err e) /\
  retrievals (trace_of (MRS.notebook ext d)) `sublist_of`
    [(MRS.url_120546, "./20210413_120546_mirisim.tar.gz");
     (MRS.url_123047, "./20210413_123047_mirisim.tar.gz");
     (MRS.url_125354, "./20210413_125354_mirisim.tar.gz")] /\
  extractions (trace_of (MRS.notebook ext d)) `sublist_of`
    ["./20210413_120546_mirisim.tar.gz";
     "./20210413_123047_mirisim.tar.gz";
     "./20210413_125354_mirisim.tar.gz"] /\
  retrievals (trace_of (NIRISS.notebook ext d)) `sublist_of`
    [(NIRISS.boxlink, "niriss_ami_binary2_inflight.zip")] /\
  extractions (trace_of (NIRISS.notebook ext d)) `sublist_of`
    ["niriss_ami_binary2_inflight.zip"].
Proof.
  pose proof (mrs_notebook_propagates ext d) as Hm.
  pose proof (niriss_notebook_propagates ext d) as Hn.
  split; [done|]. split; [done|].
  split; [intros i c e; by apply uncaught_lines|].
  split; [intros i c e; by apply uncaught_lines|].
  split; [apply mrs_retrievals_at_most|].
  split; [apply mrs_extractions_at_most|].
  split; apply niriss_once_only.
Qed.

Lemma exceptions_propagate_witness :
  result_of (MRS.notebook Sample.offline ∅) = Py.Err (Py.Raised "URLError") /\
  length (trace_of (MRS.notebook Sample.offline ∅)) = 1.
Proof.
  destruct (exceptions_propagate Sample.offline ∅) as (_ & _ & H & _).
  destruct (H 0 (Urlretrieve MRS.url_120546 "./20210413_120546_mirisim.tar.gz")
              (Py.Raised "URLError")) as [Hlast Hres].
  - by vm_compute.
  - split; [exact Hres|]. by rewrite <- Hlast.
Defined.

(** ** The order of the phases *)

Section Order.

Context (ph : call -> option nat).

Lemma in_order_app k t1 t2 :
  Forall (fun e => at_level ph k (what e)) t1 ->
  Forall (fun e => from_level ph k (what e)) t2 ->
  in_order ph t2 -> in_order ph (t1 ++ t2).
Proof.
  intros H1 H2 O2 i j e1 e2 m n Hi Hj Pm Pn Hlt.
  rewrite Forall_lookup in H1. rewrite Forall_lookup in H2.
  destruct (decide (i < length t1)) as [Li|Li];
    destruct (decide (j < length t1)) as [Lj|Lj].
  - rewrite lookup_app_l in Hi by done. rewrite lookup_app_l in Hj by done.
    pose proof (H1 _ _ Hi _ Pm). pose proof (H1 _ _ Hj _ Pn). lia.
  - lia.
  - rewrite lookup_app_r in Hi by lia. rewrite lookup_app_l in Hj by done.
    pose proof (H2 _ _ Hi _ Pm). pose proof (H1 _ _ Hj _ Pn). lia.
  - rewrite lookup_app_r in Hi by lia. rewrite lookup_app_r in Hj by lia.
    pose proof (O2 _ _ _ _ _ _ Hi Hj Pm Pn Hlt). lia.
Qed.

Lemma in_order_nil : in_order ph [].
Proof. intros i j e1 e2 m n Hi. by rewrite lookup_nil in Hi. Qed.

Lemma staged_bind {A B} k (m : M A) (f : A -> M B) :
  emits (at_level ph k) m -> (forall a, staged ph k (f a)) ->
  staged ph k (bind m f).
Proof.
  intros Hm Hf. split.
  - apply emits_bind; [|intros a; apply Hf].
    eapply emits_weaken; [|exact Hm]. intros c Hc n Hn.
    by rewrite (Hc n Hn).
  - intros d. rewrite trace_bind. apply (in_order_app k); [apply Hm|..].
    + destruct (result_of (m d)); [apply Hf|constructor].
    + destruct (result_of (m d)); [apply Hf|apply in_order_nil].
Qed.

Lemma staged_last {A} k (m : M A) :
  emits (at_level ph k) m -> staged ph k m.
Proof.
  intros Hm. split.
  - eapply emits_weaken; [|exact Hm]. intros c Hc n Hn.
    by rewrite (Hc n Hn).
  - intros d. rewrite <- (app_nil_r (trace_of (m d))).
    apply (in_order_app k); [apply Hm|constructor|apply in_order_nil].
Qed.

Lemma staged_later {A} k k' (m : M A) :
  k <= k' -> staged ph k' m -> staged ph k m.
Proof.
  intros Hk [Hm Ho]. split; [|done].
  eapply emits_weaken; [|exact Hm]. intros c Hc n Hn.
  specialize (Hc n Hn). lia.
Qed.

End Order.

Ltac at_level_all := emits_all; intros ? ?; simplify_eq/=; done.

Section NotebookOrder.

Context (ext : externals).

Lemma mrs_notebook_staged : staged mrs_phase 0 (MRS.notebook ext).
Proof.
  unfold MRS.notebook.
  apply staged_bind; [unfold MRS.cell_download; at_level_all|intros _].
  apply staged_bind; [unfold MRS.cell_untar; at_level_all|intros _].
  apply (staged_later _ 0 1); [lia|].
  apply staged_bind;
    [unfold MRS.cell_detector1, MRS.detector1_loop, MRS.detector1_body;
     at_level_all|intros _].
  apply (staged_later _ 1 2); [lia|].
  apply staged_bind;
    [unfold MRS.cell_spec2, MRS.spec2_body; at_level_all|intros _].
  apply staged_bind; [unfold MRS.cell_detect; at_level_all|intros radec].
  apply staged_bind;
    [unfold MRS.cell_header_fix, MRS.header_fix_body; at_level_all|intros _].
  apply staged_bind; [unfold MRS.cell_asn; at_level_all|intros asnallfile].
  apply (staged_later _ 2 3); [lia|].
  apply staged_last. unfold MRS.cell_spec3. at_level_all.
Qed.

Lemma niriss_notebook_staged : staged niriss_phase 0 (NIRISS.notebook ext).
Proof.
  unfold NIRISS.notebook.
  apply staged_bind; [unfold NIRISS.cell_download; at_level_all|intros _].
  apply (staged_later _ 0 1); [lia|].
  apply staged_bind; [unfold NIRISS.cell_datafiles; at_level_all|intros datafiles].
  apply staged_bind; [unfold NIRISS.cell_examine_raw; at_level_all|intros _].
  apply staged_bind; [unfold NIRISS.cell_outdir; at_level_all|intros _].
  apply staged_bind;
    [unfold NIRISS.cell_pipelines, NIRISS.pipelines_body; at_level_all|intros _].
  apply staged_bind;
    [unfold NIRISS.cell_listing, NIRISS.listing; at_level_all|intros lists].
  apply staged_bind; [unfold NIRISS.cell_info; at_level_all|intros _].
  apply staged_bind; [unfold NIRISS.cell_info; at_level_all|intros _].
  apply staged_bind; [unfold NIRISS.cell_display_cal; at_level_all|intros _].
  apply staged_bind; [unfold NIRISS.cell_bp_fix; at_level_all|intros corr].
  apply staged_bind; [unfold NIRISS.cell_display_corr; at_level_all|intros _].
  apply (staged_later _ 1 2); [lia|].
  apply staged_bind;
    [unfold NIRISS.cell_implaneia, NIRISS.implaneia_body, NIRISS.main,
       NIRISS.raw_observables, NIRISS.examine_observables;
     at_level_all|intros _].
  apply staged_bind; [unfold NIRISS.cell_products; at_level_all|intros _].
  apply (staged_later _ 2 3); [lia|].
  apply staged_last. unfold NIRISS.cell_calibrate. at_level_all.
Qed.

End NotebookOrder.

(** ** The runs made by the time the analysis starts *)

Section Reaches.

Context (X : call -> Prop).

Lemma runs_none {A} (m : M A) d :
  emits (fun c => ~ is_run c) m -> runs (trace_of (m d)) = [].
Proof.
  intros Hm. specialize (Hm d).
  induction Hm as [|e t He _ IH]; [done|].
  unfold runs in *. cbn [omap list_omap]. rewrite IH.
  destruct e as [c r]. simpl in He |- *. by destruct c.
Qed.

Lemma never_made {A} (m : M A) d :
  emits (fun c => ~ X c) m ->
  Exists (fun e => X (what e)) (trace_of (m d)) -> False.
Proof.
  intros Hm H. specialize (Hm d). rewrite Forall_forall in Hm.
  apply Exists_exists in H as (e & He & HX). by apply (Hm e).
Qed.

Lemma reaches_bind {A B} l1 l2 (m : M A) (f : A -> M B) d :
  emits (fun c => ~ X c) m ->
  runs (trace_of (m d)) `prefix_of` l1 ->
  (returned (result_of (m d)) -> runs (trace_of (m d)) = l1) ->
  (forall a, result_of (m d) = Py.Ok a ->
             reaches X l2 (f a (disk_of (m d)))) ->
  reaches X (l1 ++ l2) (bind m f d).
Proof.
  intros Hm P1 E1 Hf. unfold reaches.
  rewrite trace_bind, result_bind, runs_app.
  destruct (result_of (m d)) as [a|e] eqn:Hr.
  - destruct (Hf a eq_refl) as [P2 E2]. rewrite E1 by done.
    split; [by apply prefix_app|]. intros H. f_equal. apply E2.
    destruct H as [H|H]; [by left|right].
    apply Exists_app in H as [H|H]; [|done].
    by destruct (never_made m d Hm H).
  - change (runs []) with (@nil (stage * string)). rewrite !app_nil_r.
    split; [by apply prefix_app_r|]. intros [H|H]; [done|].
    by destruct (never_made m d Hm H).
Qed.

Lemma reaches_skip {A B} l (m : M A) (f : A -> M B) d :
  emits (fun c => ~ X c /\ ~ is_run c) m ->
  (forall a, result_of (m d) = Py.Ok a ->
             reaches X l (f a (disk_of (m d)))) ->
  reaches X l (bind m f d).
Proof.
  intros Hm Hf.
  assert (runs (trace_of (m d)) = []) as Hnone.
  { apply runs_none. eapply emits_weaken; [|exact Hm]. by intros c [_ H]. }
  apply (reaches_bind [] l); [|by rewrite Hnone..|done].
  eapply emits_weaken; [|exact Hm]. by intros c [H _].
Qed.

Lemma reaches_rest {A} (m : M A) d :
  emits (fun c => ~ is_run c) m -> reaches X [] (m d).
Proof. intros Hm. unfold reaches. by rewrite (runs_none m d Hm). Qed.

Lemma reaches_all {A} l (x : Py.result A * gmap string node * list entry) :
  runs (trace_of x) = l -> reaches X l x.
Proof. intros <-. by split. Qed.

End Reaches.

Section NotebookRuns.

Context (ext : externals).

Lemma cell_asn_result d a :
  result_of (MRS.cell_asn ext d) = Py.Ok a -> a = "for_spec3_all.json".
Proof.
  unfold MRS.cell_asn. rewrite bind_glob, result_bind.
  destruct (result_of (asn_from_list ext _ _ d)); [|done].
  rewrite result_bind.
  destruct (result_of (write_text _ _ _)); [|done].
  unfold result_of, ret. cbn [fst]. congruence.
Qed.

Lemma cell_datafiles_result d a :
  result_of (NIRISS.cell_datafiles d) = Py.Ok a ->
  a = Glob.sorted (globbed (Path.joinpath NIRISS.inflightdata "jw*uncal.fits") d).
Proof.
  unfold NIRISS.cell_datafiles. rewrite bind_glob, result_bind.
  destruct (result_of (for_ _ _ _)); [|done].
  unfold result_of, ret. cbn [fst]. congruence.
Qed.

Ltac quiet := emits_all; simpl; tauto.

Lemma mrs_notebook_reaches d :
  let d1 := disk_of (MRS.cell_download ext d) in
  let d2 := disk_of (MRS.cell_untar ext d1) in
  let d3 := disk_of (MRS.cell_detector1 ext d2) in
  reaches is_analysis
    (((fun f => (Detector1, f)) <$>
        globbed "20210413_*_mirisim/det_images/*MIRIFUSHORT*fits" d2 ++
        globbed "20210413_*_mirisim/det_images/*MIRIFULONG*fits" d2) ++
     ((fun f => (Spec2, f)) <$>
        globbed "det_image_*_MIRIFUSHORT_*_rate.fits" d3 ++
        globbed "det_image_*_MIRIFULONG_*_rate.fits" d3) ++
     [(Spec3, "for_spec3_all.json")])
    (MRS.notebook ext d).
Proof.
  cbv zeta. unfold MRS.notebook.
  apply reaches_skip; [unfold MRS.cell_download; quiet|intros [] _].
  apply reaches_skip; [unfold MRS.cell_untar; quiet|intros [] _].
  apply reaches_bind;
    [unfold MRS.cell_detector1, MRS.detector1_loop, MRS.detector1_body; quiet
    |apply cell_detector1_once..|intros [] _].
  apply reaches_bind;
    [unfold MRS.cell_spec2, MRS.spec2_body; quiet
    |apply cell_spec2_once..|intros [] _].
  apply reaches_skip; [unfold MRS.cell_detect; quiet|intros radec _].
  apply reaches_skip;
    [unfold MRS.cell_header_fix, MRS.header_fix_body; quiet|intros [] _].
  apply reaches_skip; [unfold MRS.cell_asn; quiet|intros a Ha].
  apply cell_asn_result in Ha as ->. by apply reaches_all.
Qed.

Lemma niriss_notebook_reaches d :
  reaches is_analysis
    (concat (niriss_runs <$>
       Glob.sorted (globbed (Path.joinpath NIRISS.inflightdata "jw*uncal.fits")
                            (disk_of (NIRISS.cell_download ext d)))))
    (NIRISS.notebook ext d).
Proof.
  unfold NIRISS.notebook.
  apply reaches_skip; [unfold NIRISS.cell_download; quiet|intros [] _].
  apply reaches_skip; [unfold NIRISS.cell_datafiles; quiet|intros a Ha].
  apply cell_datafiles_result in Ha as ->.
  apply reaches_skip; [unfold NIRISS.cell_examine_raw; quiet|intros [] _].
  apply reaches_skip; [unfold NIRISS.cell_outdir; quiet|intros [] _].
  rewrite <- (app_nil_r (concat _)).
  apply reaches_bind;
    [unfold NIRISS.cell_pipelines, NIRISS.pipelines_body; quiet
    |apply pipelines_loop_once..|intros [] _].
  apply reaches_rest.
  unfold NIRISS.cell_listing, NIRISS.listing,
    NIRISS.cell_info, NIRISS.cell_display_cal, NIRISS.cell_bp_fix,
    NIRISS.cell_display_corr, NIRISS.cell_implaneia, NIRISS.implaneia_body,
    NIRISS.main, NIRISS.raw_observables, NIRISS.examine_observables,
    NIRISS.cell_products, NIRISS.cell_calibrate.
  quiet.
Qed.

Lemma earlier_returned {A} (x : Py.result A * gmap string node * list entry)
  i e :
  uncaught x -> trace_of x !! i = Some e -> S i < length (trace_of x) ->
  failed e = None.
Proof.
  intros Hx Hi Hlt. destruct e as [c [exn|]]; [|done].
  destruct (uncaught_lines x i c exn Hx Hi) as [Hlast _]. lia.
Qed.

Lemma made_exists (X : call -> Prop) (t : list entry) i e :
  t !! i = Some e -> X (what e) -> Exists (fun e => X (what e)) t.
Proof.
  intros Hi HX. apply Exists_exists. exists e. split; [|done].
  by apply list_elem_of_lookup_2 in Hi.
Qed.

End NotebookRuns.

(** C5. Both notebooks run their phases in order.  In the trace of
    either, from any disk and in any surroundings, a call of an earlier
    phase comes before every call of a later one: the retrievals and
    extractions, then the calwebb_detector1 runs, then the calwebb_spec2
    runs, then the calwebb_spec3 run on the association (MRS); the
    retrieval and extraction, then the Detector1 and Image2 runs, then
    the fringe fitting, then the calibration (NIRISS).  A call that is
    followed by another one has returned.  The stage runs are the first
    of a fixed list, which for the NIRISS notebook has, file after
    file, the Detector1 run on the file and then the Image2 runs on its
    two products; and once a call of the analysis is made, the stage
    runs are the whole list. *)
Theorem phases_in_order (ext : externals) (d : gmap string node) :
  let mrs := MRS.notebook ext d in
  let niriss := NIRISS.notebook ext d in
  let d1 := disk_of (MRS.cell_download ext d) in
  let d2 := disk_of (MRS.cell_untar ext d1) in
  let d3 := disk_of (MRS.cell_detector1 ext d2) in
  let mrs_runs :=
    ((fun f => (Detector1, f)) <$>
       globbed "20210413_*_mirisim/det_images/*MIRIFUSHORT*fits" d2 ++
       globbed "20210413_*_mirisim/det_images/*MIRIFULONG*fits" d2) ++
    ((fun f => (Spec2, f)) <$>
       globbed "det_image_*_MIRIFUSHORT_*_rate.fits" d3 ++
       globbed "det_image_*_MIRIFULONG_*_rate.fits" d3) ++
    [(Spec3, "for_spec3_all.json")] in
  let datafiles :=
    Glob.sorted (globbed (Path.joinpath NIRISS.inflightdata "jw*uncal.fits")
                         (disk_of (NIRISS.cell_download ext d))) in
  in_order mrs_phase (trace_of mrs) /\
  in_order niriss_phase (trace_of niriss) /\
  (forall i e, trace_of mrs !! i = Some e -> S i < length (trace_of mrs) ->
               failed e = None) /\
  (forall i e, trace_of niriss !! i = Some e ->
               S i < length (trace_of niriss) -> failed e = None) /\
  runs (trace_of mrs) `prefix_of` mrs_runs /\
  runs (trace_of niriss) `prefix_of` concat (niriss_runs <$> datafiles) /\
  (forall i e, trace_of mrs !! i = Some e -> is_analysis (what e) ->
               runs (trace_of mrs) = mrs_runs) /\
  (forall i e, trace_of niriss !! i = Some e -> is_analysis (what e) ->
               runs (trace_of niriss) = concat (niriss_runs <$> datafiles)).
Proof.
  cbv zeta.
  destruct (mrs_notebook_reaches ext d) as [Pm Em].
  destruct (niriss_notebook_reaches ext d) as [Pn En].
  split; [apply mrs_notebook_staged|].
  split; [apply niriss_notebook_staged|].
  split.
  { intros i e. apply earlier_returned, mrs_notebook_propagates. }
  split.
  { intros i e. apply earlier_returned, niriss_notebook_propagates. }
  split; [exact Pm|]. split; [exact Pn|]. split.
  - intros i e Hi He. apply Em. right. by apply (made_exists _ _ i e).
  - intros i e Hi He. apply En. right. by apply (made_exists _ _ i e).
Qed.

Lemma phases_in_order_witness :
  runs (trace_of (MRS.notebook Sample.quiet ∅)) =
    [(Detector1,
      "20210413_125354_mirisim/det_images/det_image_seq1_MIRIFUSHORT_12LONGexp1.fits");
     (Detector1,
      "20210413_120546_mirisim/det_images/det_image_seq1_MIRIFULONG_34SHORTexp1.fits");
     (Spec2, "det_image_seq1_MIRIFUSHORT_12LONGexp1125354_rate.fits");
     (Spec2, "det_image_seq1_MIRIFULONG_34SHORTexp1120546_rate.fits");
     (Spec3, "for_spec3_all.json")].
Proof.
  destruct (phases_in_order Sample.quiet ∅)
    as (_ & _ & _ & _ & _ & _ & C & _).
  etrans.
  - apply (C 25 {| what := Run Spec3 MRS.spec3_config "for_spec3_all.json";
                   failed := None |}); [by vm_compute|exact I].
  - by vm_compute.
Defined.

(** ** Files of the notebooks' own *)

Section OwnFiles.

Context (ext : externals).





End OwnFiles.




(** * Further properties of the cells *)

(** ** Running the set-up cells again *)

Section Disk.

Implicit Types (d : gmap string node).

Lemma write_all_is_Some ws d k :
  is_Some (d !! k) -> is_Some (write_all ws d !! k).
Proof.
  unfold write_all. revert d.
  induction ws as [|w ws IH]; intros d Hk; [done|].
  cbn [foldl]. apply IH.
  destruct (decide (Path.norm w.1 = k)) as [<-|Hne].
  - rewrite lookup_insert_eq. by eexists.
  - by rewrite lookup_insert_ne.
Qed.

Lemma write_all_other ws d k :
  k ∉ (Path.norm ∘ fst) <$> ws -> write_all ws d !! k = d !! k.
Proof.
  unfold write_all. revert d.
  induction ws as [|w ws IH]; intros d Hk; [done|].
  cbn [foldl]. rewrite fmap_cons in Hk. apply not_elem_of_cons in Hk as [Hw Hk].
  rewrite IH by done. rewrite lookup_insert_ne; [done|].
  intros E. by apply Hw.
Qed.

Lemma path_exists_plain d p :
  Path.wants_dir p = false -> is_Some (d !! Path.norm p) ->
  path_exists d p = true.
Proof.
  intros Hp [n Hn]. unfold path_exists. rewrite Hn, Hp. by destruct n.
Qed.

Lemma path_exists_plain_inv d p :
  Path.wants_dir p = false -> path_exists d p = false ->
  d !! Path.norm p = None.
Proof.
  intros Hp. unfold path_exists. rewrite Hp.
  by destruct (d !! Path.norm p) as [[]|].
Qed.

End Disk.

Section Rerun.

Context (ext : externals).

Lemma fetch_unless_present_leaves name url d :
  Path.wants_dir name = false ->
  Path.norm ("./" +:+ name) = Path.norm name ->
  let r := MRS.fetch_unless_present ext name url d in
  returned (result_of r) ->
  path_exists (disk_of r) name = true /\
  (forall p, path_exists d p = true -> Path.wants_dir p = false ->
             path_exists (disk_of r) p = true).
Proof.
  intros Hplain Hnorm. cbv zeta. rewrite fetch_unless_present_run.
  destruct (path_exists d name) eqn:Hex; [done|].
  destruct (fetch ext url) as [c|e]; [|done].
  intros _. unfold disk_of. cbn [fst snd]. split.
  - apply path_exists_plain; [done|]. rewrite Hnorm, lookup_insert_eq.
    by eexists.
  - intros p Hp Hpp. apply path_exists_plain; [done|].
    apply path_exists_lookup in Hp.
    destruct (decide (Path.norm ("./" +:+ name) = Path.norm p)) as [->|Hne].
    + rewrite lookup_insert_eq. by eexists.
    + by rewrite lookup_insert_ne.
Qed.

(** What a download cell that returned leaves behind: its archives. *)
Lemma mrs_download_leaves d name url :
  (name, url) ∈ MRS.archives ->
  returned (result_of (MRS.cell_download ext d)) ->
  path_exists (disk_of (MRS.cell_download ext d)) name = true.
Proof.
  intros Hin. rewrite cell_download_guards.
  rewrite !result_bind, !disk_bind.
  set (g1 := MRS.fetch_unless_present ext "20210413_120546_mirisim.tar.gz" _).
  set (g2 := MRS.fetch_unless_present ext "20210413_123047_mirisim.tar.gz" _).
  set (g3 := MRS.fetch_unless_present ext "20210413_125354_mirisim.tar.gz" _).
  pose proof (fetch_unless_present_leaves
                "20210413_120546_mirisim.tar.gz" MRS.url_120546 d
                eq_refl eq_refl) as H1.
  cbv zeta in H1. fold g1 in H1.
  destruct (result_of (g1 d)) as [[]|e1]; [|done].
  destruct (H1 I) as [E1 K1].
  pose proof (fetch_unless_present_leaves
                "20210413_123047_mirisim.tar.gz" MRS.url_123047 (disk_of (g1 d))
                eq_refl eq_refl) as H2.
  cbv zeta in H2. fold g2 in H2.
  destruct (result_of (g2 (disk_of (g1 d)))) as [[]|e2]; [|done].
  destruct (H2 I) as [E2 K2].
  pose proof (fetch_unless_present_leaves
                "20210413_125354_mirisim.tar.gz" MRS.url_125354
                (disk_of (g2 (disk_of (g1 d))))
                eq_refl eq_refl) as H3.
  cbv zeta in H3. fold g3 in H3.
  intros Hr. destruct (H3 Hr) as [E3 K3].
  unfold MRS.archives in Hin.
  apply elem_of_cons in Hin as [[= -> ->]|Hin].
  { apply K3; [|done]. by apply K2. }
  apply elem_of_cons in Hin as [[= -> ->]|Hin].
  { by apply K3. }
  apply list_elem_of_singleton in Hin as [= -> ->]. done.
Qed.

Lemma mrs_download_present d :
  (forall name url, (name, url) ∈ MRS.archives -> path_exists d name = true) ->
  MRS.cell_download ext d =
    (Py.Ok tt, d,
     [printed "20210413_120546_mirisim.tar.gz Exists";
      printed "20210413_123047_mirisim.tar.gz Exists";
      printed "20210413_125354_mirisim.tar.gz Exists"]).
Proof.
  intros H. rewrite cell_download_guards. unfold bind.
  rewrite !fetch_unless_present_run.
  rewrite (H "20210413_120546_mirisim.tar.gz" MRS.url_120546)
    by (by repeat constructor).
  rewrite fetch_unless_present_run.
  rewrite (H "20210413_123047_mirisim.tar.gz" MRS.url_123047)
    by (by repeat constructor).
  rewrite fetch_unless_present_run.
  rewrite (H "20210413_125354_mirisim.tar.gz" MRS.url_125354)
    by (by repeat constructor).
  reflexivity.
Qed.

Lemma niriss_download_leaves d :
  returned (result_of (NIRISS.cell_download ext d)) ->
  path_exists (disk_of (NIRISS.cell_download ext d)) NIRISS.boxfile = true.
Proof.
  rewrite niriss_download_run.
  destruct (path_exists d NIRISS.boxfile) eqn:Hex; [done|].
  destruct (fetch ext NIRISS.boxlink) as [c|e]; [|done].
  cbv zeta. unfold result_of, disk_of. cbn [fst snd].
  unfold extractall, emit. rewrite lookup_insert_eq. cbn [fst snd].
  destruct (members ext c) as [ws|e]; [|done].
  intros _. apply path_exists_plain; [done|].
  apply write_all_is_Some. rewrite lookup_insert_eq. by eexists.
Qed.

End Rerun.

(** X1. Running a download cell a second time is harmless.  When the
    MRS download cell has returned, all three archives exist, and the
    cell run again on the disk it left retrieves nothing, prints its
    three lines and leaves the disk as it is.  When the NIRISS download
    cell has returned, the cell run again makes no call at all and
    leaves the disk as it is: in particular it does not unpack again. *)
Theorem download_again (ext : externals) (d : gmap string node) :
  (returned (result_of (MRS.cell_download ext d)) ->
   let d' := disk_of (MRS.cell_download ext d) in
   (forall name url, (name, url) ∈ MRS.archives ->
                     path_exists d' name = true) /\
   MRS.cell_download ext d' =
     (Py.Ok tt, d',
      [printed "20210413_120546_mirisim.tar.gz Exists";
       printed "20210413_123047_mirisim.tar.gz Exists";
       printed "20210413_125354_mirisim.tar.gz Exists"])) /\
  (returned (result_of (NIRISS.cell_download ext d)) ->
   let d' := disk_of (NIRISS.cell_download ext d) in
   NIRISS.cell_download ext d' = (Py.Ok tt, d', [])).
Proof.
  split.
  - intros Hr. cbv zeta.
    assert (forall name url, (name, url) ∈ MRS.archives ->
              path_exists (disk_of (MRS.cell_download ext d)) name = true) as H.
    { intros name url Hin. by apply (mrs_download_leaves ext d name url). }
    split; [exact H|]. by apply mrs_download_present.
  - intros Hr. cbv zeta. rewrite niriss_download_run.
    by rewrite niriss_download_leaves.
Qed.

Lemma download_again_witness :
  retrievals (trace_of (MRS.cell_download Sample.quiet
                (disk_of (MRS.cell_download Sample.quiet ∅)))) = [] /\
  NIRISS.cell_download Sample.quiet
    (disk_of (NIRISS.cell_download Sample.quiet ∅))
  = (Py.Ok tt, disk_of (NIRISS.cell_download Sample.quiet ∅), []).
Proof.
  destruct (download_again Sample.quiet ∅) as [Hm Hn]. split.
  - destruct Hm as [_ ->]; [by vm_compute|done].
  - apply Hn. by vm_compute.
Defined.

(** ** Unpacking and the output directory *)

Section Untar.

Context (ext : externals).

Lemma extractall_missing archive (d : gmap string node) :
  d !! Path.norm archive = None ->
  extractall ext archive d =
    (Py.Err (Py.Raised "FileNotFoundError"), d,
     [{| what := Extractall archive;
         failed := Some (Py.Raised "FileNotFoundError") |}]).
Proof. intros H. unfold extractall, emit. by rewrite H. Qed.

Lemma untar_guard_run dir text archive (d : gmap string node) :
  (b <- exists_ dir ;; if b then print text else extractall ext archive)%nb d =
    if path_exists d dir
    then (Py.Ok tt, d, [printed text])
    else extractall ext archive d.
Proof.
  unfold bind, exists_. destruct (path_exists d dir); [reflexivity|].
  by destruct (extractall ext archive d) as [[r d'] t].
Qed.

Lemma dir_exists_iff (d : gmap string node) p :
  Path.wants_dir p = true ->
  path_exists d p = true <-> d !! Path.norm p = Some Dir.
Proof.
  intros Hp. unfold path_exists. rewrite Hp.
  destruct (d !! Path.norm p) as [[]|]; split; done.
Qed.

End Untar.

(** X2. The unpacking cell of the MRS notebook looks for the
    directories, not for the archives.  When the three directories
    exist, it prints three lines and does nothing else, whether the
    archives are there or not.  A directory counts as existing only if
    it is a directory: when the first name is absent, or is a regular
    file, the cell starts by opening the first archive; and if that
    archive is not on disk the cell ends there on
    [FileNotFoundError], with the disk as it was. *)
Theorem untar_looks_for_directories (ext : externals) (d : gmap string node) :
  (d !! "20210413_120546_mirisim" = Some Dir ->
   d !! "20210413_123047_mirisim" = Some Dir ->
   d !! "20210413_125354_mirisim" = Some Dir ->
   MRS.cell_untar ext d =
     (Py.Ok tt, d,
      [printed "20210413_120546_mirisim Exists";
       printed "20210413_123047_mirisim Exists";
       printed "20210413_125354_mirisim Exists"])) /\
  (d !! "20210413_120546_mirisim" <> Some Dir ->
   head (calls (trace_of (MRS.cell_untar ext d)))
     = Some (Extractall "./20210413_120546_mirisim.tar.gz")) /\
  (d !! "20210413_120546_mirisim" <> Some Dir ->
   d !! "20210413_120546_mirisim.tar.gz" = None ->
   MRS.cell_untar ext d =
     (Py.Err (Py.Raised "FileNotFoundError"), d,
      [{| what := Extractall "./20210413_120546_mirisim.tar.gz";
          failed := Some (Py.Raised "FileNotFoundError") |}])).
Proof.
  assert (forall p dir, Path.wants_dir p = true -> Path.norm p = dir ->
            d !! dir = Some Dir -> path_exists d p = true) as Hyes.
  { intros p dir Hp <- Hd. by apply dir_exists_iff. }
  assert (forall p dir, Path.wants_dir p = true -> Path.norm p = dir ->
            d !! dir <> Some Dir -> path_exists d p = false) as Hno.
  { intros p dir Hp <- Hd. destruct (path_exists d p) eqn:E; [|done].
    by apply dir_exists_iff in E. }
  split; [|split].
  - intros H1 H2 H3. unfold MRS.cell_untar.
    rewrite (bind_ok _ _ d tt d [printed "20210413_120546_mirisim Exists"])
      by (by rewrite untar_guard_run,
               (Hyes "20210413_120546_mirisim/" _ eq_refl eq_refl H1)).
    rewrite (bind_ok _ _ d tt d [printed "20210413_123047_mirisim Exists"])
      by (by rewrite untar_guard_run,
               (Hyes "20210413_123047_mirisim/" _ eq_refl eq_refl H2)).
    by rewrite untar_guard_run,
         (Hyes "20210413_125354_mirisim/" _ eq_refl eq_refl H3).
  - intros H1. unfold MRS.cell_untar.
    rewrite trace_bind, untar_guard_run.
    rewrite (Hno "20210413_120546_mirisim/" _ eq_refl eq_refl H1).
    unfold calls. rewrite map_app.
    pose proof (extractall_trace ext "./20210413_120546_mirisim.tar.gz" d) as E.
    unfold calls in E. by rewrite E.
  - intros H1 H2. unfold MRS.cell_untar.
    apply bind_err. rewrite untar_guard_run.
    rewrite (Hno "20210413_120546_mirisim/" _ eq_refl eq_refl H1).
    by apply extractall_missing.
Qed.

Lemma untar_looks_for_directories_witness :
  MRS.cell_untar Sample.offline
    {["20210413_120546_mirisim" := Dir; "20210413_123047_mirisim" := Dir;
      "20210413_125354_mirisim" := Dir]}
  = (Py.Ok tt,
     {["20210413_120546_mirisim" := Dir; "20210413_123047_mirisim" := Dir;
       "20210413_125354_mirisim" := Dir]},
     [printed "20210413_120546_mirisim Exists";
      printed "20210413_123047_mirisim Exists";
      printed "20210413_125354_mirisim Exists"]) /\
  result_of (MRS.cell_untar Sample.quiet
               {["20210413_120546_mirisim" := File (Bytes "not a directory")]})
  = Py.Err (Py.Raised "FileNotFoundError").
Proof.
  split.
  - apply untar_looks_for_directories; by vm_compute.
  - destruct (untar_looks_for_directories Sample.quiet
      {["20210413_120546_mirisim" := File (Bytes "not a directory")]})
      as (_ & _ & H).
    rewrite H; [done|by vm_compute|by vm_compute].
Defined.

(** X3. The cell that makes the output directory of the NIRISS
    notebook asks [os.path.exists] first.  When the name exists the
    cell does nothing; when it does not, the first thing the cell does
    is [os.mkdir], and on a disk with nothing of that name the
    directory is made and [Created pipeline_calibrated_data] printed.
    When the cell has returned the name exists, nothing else on the
    disk has changed, and the cell run again does nothing. *)
Theorem outdir_made_once (d : gmap string node) :
  let r := NIRISS.cell_outdir d in
  (path_exists d NIRISS.outdir = true -> r = (Py.Ok tt, d, [])) /\
  (path_exists d NIRISS.outdir = false ->
   head (calls (trace_of r)) = Some (Mkdir NIRISS.outdir)) /\
  (d !! "pipeline_calibrated_data" = None ->
   r = (Py.Ok tt, <["pipeline_calibrated_data" := Dir]> d,
        [{| what := Mkdir "pipeline_calibrated_data"; failed := None |};
         printed "Created pipeline_calibrated_data"])) /\
  (returned (result_of r) ->
   path_exists (disk_of r) NIRISS.outdir = true /\
   (forall k, k <> "pipeline_calibrated_data" -> disk_of r !! k = d !! k) /\
   NIRISS.cell_outdir (disk_of r) = (Py.Ok tt, disk_of r, [])).
Proof.
  cbv zeta.
  assert (forall d' : gmap string node,
            path_exists d' NIRISS.outdir = true ->
            NIRISS.cell_outdir d' = (Py.Ok tt, d', [])) as Hthere.
  { intros d' Hd'. unfold NIRISS.cell_outdir, bind, exists_. by rewrite Hd'. }
  assert (d !! "pipeline_calibrated_data" = None ->
          NIRISS.cell_outdir d =
            (Py.Ok tt, <["pipeline_calibrated_data" := Dir]> d,
             [{| what := Mkdir "pipeline_calibrated_data"; failed := None |};
              printed "Created pipeline_calibrated_data"])) as Habsent.
  { intros Hd. unfold NIRISS.cell_outdir, bind, exists_.
    assert (path_exists d NIRISS.outdir = false) as ->.
    { unfold path_exists.
      change (Path.norm NIRISS.outdir) with "pipeline_calibrated_data".
      by rewrite Hd. }
    cbn [negb]. unfold mkdir, emit.
    change (Path.norm NIRISS.outdir) with "pipeline_calibrated_data".
    rewrite Hd. reflexivity. }
  split; [exact (Hthere d)|]. split; [|split; [exact Habsent|]].
  - intros He. unfold NIRISS.cell_outdir, bind, exists_. rewrite He.
    cbn [negb]. unfold mkdir, emit.
    by destruct (d !! Path.norm NIRISS.outdir).
  - destruct (path_exists d NIRISS.outdir) eqn:He.
    + rewrite (Hthere d He). intros _.
      unfold disk_of. cbn [fst snd]. split; [done|]. split; [done|].
      by apply Hthere.
    + assert (d !! "pipeline_calibrated_data" = None) as Hd.
      { unfold path_exists in He.
        change (Path.norm NIRISS.outdir) with "pipeline_calibrated_data" in He.
        by destruct (d !! "pipeline_calibrated_data") as [[]|]. }
      rewrite (Habsent Hd). intros _. unfold disk_of. cbn [fst snd].
      assert (path_exists (<["pipeline_calibrated_data" := Dir]> d) NIRISS.outdir
              = true) as Hnow.
      { unfold path_exists.
        change (Path.norm NIRISS.outdir) with "pipeline_calibrated_data".
        by rewrite lookup_insert_eq. }
      split; [exact Hnow|].
      split; [intros k Hk; by rewrite lookup_insert_ne|].
      by apply Hthere.
Qed.

Lemma outdir_made_once_witness :
  NIRISS.cell_outdir {["pipeline_calibrated_data" := Dir]}
    = (Py.Ok tt, {["pipeline_calibrated_data" := Dir]}, []) /\
  disk_of (NIRISS.cell_outdir ∅) = {["pipeline_calibrated_data" := Dir]}.
Proof.
  destruct (outdir_made_once {["pipeline_calibrated_data" := Dir]})
    as (H & _).
  destruct (outdir_made_once ∅) as (_ & _ & H' & _).
  split.
  - apply H. by vm_compute.
  - rewrite H' by done. unfold disk_of. cbn [fst snd]. apply insert_empty.
Defined.

(** ** Sorted listings *)

Section Sorting.

Lemma insert_sorted_perm x l : Glob.insert_sorted x l ≡ₚ x :: l.
Proof.
  induction l as [|y l IH]; [done|]. cbn [Glob.insert_sorted].
  destruct (String.leb x y); [done|].
  rewrite IH. apply Permutation_swap.
Qed.

Lemma sorted_perm l : Glob.sorted l ≡ₚ l.
Proof.
  induction l as [|x l IH]; [done|]. unfold Glob.sorted in *. cbn [foldr].
  by rewrite insert_sorted_perm, IH.
Qed.

Lemma insert_sorted_hd x y l :
  leq y x -> HdRel leq y l -> HdRel leq y (Glob.insert_sorted x l).
Proof.
  intros Hyx Hl. destruct l as [|z l]; [by constructor|].
  cbn [Glob.insert_sorted]. destruct (String.leb x z); constructor; [done|].
  by inversion Hl.
Qed.

Lemma insert_sorted_sorted x l :
  Sorted leq l -> Sorted leq (Glob.insert_sorted x l).
Proof.
  induction 1 as [|y l Hl IH Hhd]; [by repeat constructor|].
  cbn [Glob.insert_sorted]. destruct (String.leb x y) eqn:E.
  - constructor; [by constructor|]. by constructor.
  - constructor; [done|]. apply insert_sorted_hd; [|done].
    destruct (String.leb_total x y) as [H|H]; [congruence|done].
Qed.

Lemma sorted_sorted l : Sorted leq (Glob.sorted l).
Proof.
  induction l as [|x l IH]; [constructor|]. unfold Glob.sorted in *.
  cbn [foldr]. by apply insert_sorted_sorted.
Qed.

Lemma for_print l (d : gmap string node) :
  for_ l print d = (Py.Ok tt, d, printed <$> l).
Proof.
  revert d. induction l as [|x l IH]; intros d; [done|].
  cbn [for_]. rewrite (bind_ok _ _ d tt d [printed x]) by reflexivity.
  by rewrite IH.
Qed.

Lemma elem_of_globbed pat (d : gmap string node) f :
  f ∈ globbed pat d <-> Glob.matches pat f = true /\ is_Some (d !! f).
Proof.
  unfold globbed. rewrite list_elem_of_filter.
  split; intros [Hm Hf]; (split; [done|]).
  - apply list_elem_of_fmap in Hf as ([k v] & -> & Hkv).
    apply elem_of_map_to_list in Hkv. by eexists.
  - destruct Hf as [v Hv]. apply list_elem_of_fmap. exists (f, v).
    split; [done|]. by apply elem_of_map_to_list.
Qed.

End Sorting.

Section SortedCells.

Lemma sorted_globbed pat (d : gmap string node) :
  let files := Glob.sorted (globbed pat d) in
  Sorted leq files /\ NoDup files /\
  (forall f, f ∈ files <-> Glob.matches pat f = true /\ is_Some (d !! f)).
Proof.
  cbv zeta. split; [apply sorted_sorted|]. split.
  - rewrite sorted_perm. apply globbed_NoDup.
  - intros f. rewrite sorted_perm. apply elem_of_globbed.
Qed.

End SortedCells.

(** X4. The cell that lists the raw NIRISS exposures always returns.
    Its list holds the names on disk that meet
    [niriss_ami_binary2_inflight/jw*uncal.fits], each once, in
    ascending order; the cell prints them one per line in that order
    and leaves the disk as it is.  On a disk without such a name the
    list is empty and nothing is printed. *)
Theorem datafiles_sorted (d : gmap string node) :
  let files :=
    Glob.sorted (globbed "niriss_ami_binary2_inflight/jw*uncal.fits" d) in
  NIRISS.cell_datafiles d = (Py.Ok files, d, printed <$> files) /\
  Sorted leq files /\
  NoDup files /\
  (forall f, f ∈ files <->
             Glob.matches "niriss_ami_binary2_inflight/jw*uncal.fits" f = true /\
             is_Some (d !! f)) /\
  ((forall f, is_Some (d !! f) ->
              Glob.matches "niriss_ami_binary2_inflight/jw*uncal.fits" f = false) ->
   NIRISS.cell_datafiles d = (Py.Ok [], d, [])).
Proof.
  cbv zeta.
  assert (NIRISS.cell_datafiles d =
            (Py.Ok (Glob.sorted
                      (globbed "niriss_ami_binary2_inflight/jw*uncal.fits" d)),
             d,
             printed <$> Glob.sorted
                      (globbed "niriss_ami_binary2_inflight/jw*uncal.fits" d)))
    as Hrun.
  { unfold NIRISS.cell_datafiles. rewrite bind_glob.
    change (Path.joinpath NIRISS.inflightdata "jw*uncal.fits")
      with "niriss_ami_binary2_inflight/jw*uncal.fits".
    erewrite bind_ok by apply for_print.
    unfold result_of, disk_of, trace_of, ret. cbn [fst snd].
    by rewrite app_nil_r. }
  destruct (sorted_globbed "niriss_ami_binary2_inflight/jw*uncal.fits" d)
    as (Hs & Hn & Hin).
  split; [done|]. split; [done|]. split; [done|]. split; [done|].
  intros Hnone. rewrite Hrun.
  destruct (Glob.sorted _) as [|f l]; [done|].
  destruct (Hin f) as [Hf _]. destruct Hf as [Hm Hd]; [by left|].
  by rewrite (Hnone f Hd) in Hm.
Qed.

Lemma datafiles_sorted_witness :
  NIRISS.cell_datafiles ∅ = (Py.Ok [], ∅, []) /\
  result_of (NIRISS.cell_datafiles
               (disk_of (NIRISS.cell_download Sample.quiet ∅)))
    = Py.Ok ["niriss_ami_binary2_inflight/jw01093012001_03102_00001_nis_uncal.fits";
             "niriss_ami_binary2_inflight/jw01093015001_03102_00001_nis_uncal.fits"].
Proof.
  split.
  - apply datafiles_sorted. intros f [n Hn]. by rewrite lookup_empty in Hn.
  - by vm_compute.
Defined.

(** ** The output names of the MRS stages *)

Section OutputNames.

Context (ext : externals).

Lemma for_with_reads_inv {A X S} (read : list entry -> list X)
  (each : A -> list X) (I : S -> Prop) (body : S -> A -> M S) :
  (forall t1 t2, read (t1 ++ t2) = read t1 ++ read t2) ->
  (forall s x d, I s -> read (trace_of (body s x d)) `prefix_of` each x) ->
  (forall s x d, I s -> returned (result_of (body s x d)) ->
                 read (trace_of (body s x d)) = each x) ->
  (forall s x d s', I s -> result_of (body s x d) = Py.Ok s' -> I s') ->
  forall l s d, I s ->
    read (trace_of (for_with l s body d)) `prefix_of` concat (each <$> l) /\
    (returned (result_of (for_with l s body d)) ->
     read (trace_of (for_with l s body d)) = concat (each <$> l)).
Proof.
  intros read_app Hpre Hok Hkeep.
  induction l as [|x l IH]; intros s d Hs.
  - simpl. rewrite (read_nil read read_app). split; [done|done].
  - rewrite fmap_cons. cbn [for_with concat].
    rewrite trace_bind, result_bind, read_app.
    specialize (Hpre s x d Hs). specialize (Hok s x d Hs).
    specialize (Hkeep s x d).
    destruct (result_of (body s x d)) as [s'|e].
    + rewrite Hok by done.
      destruct (IH s' (disk_of (body s x d))) as [IH1 IH2]; [by apply Hkeep|].
      split; [by apply prefix_app|]. intros H. by rewrite IH2.
    + rewrite (read_nil read read_app), app_nil_r. split; [|done].
      by apply prefix_app_r.
Qed.

Lemma one_dot_parts f :
  Py.count "." f = 1 ->
  exists rest, Py.partition "." f = Some (base_of f, rest) /\
               f = base_of f +:+ "." +:+ rest.
Proof.
  intros H. rewrite (count_partition "." f) in H by done. unfold base_of.
  destruct (Py.partition "." f) as [[base rest]|] eqn:E; [|done].
  exists rest. split; [done|]. by apply partition_spec.
Qed.

Lemma detector1_name_parts f :
  detector1_name f ->
  exists rest before tail,
    f = base_of f +:+ "." +:+ rest /\
    f = before +:+ "20210413_" +:+ date_of f +:+ "_mirisim" +:+ tail.
Proof.
  intros (H1 & H2 & H3).
  destruct (one_dot_parts f H1) as (rest & _ & Hf).
  rewrite (count_partition "20210413_" f) in H2 by done.
  rewrite (count_partition "_mirisim" (after_date f)) in H3 by done.
  unfold date_of. unfold after_date in *.
  destruct (Py.partition "20210413_" f) as [[before after]|] eqn:E2; [|done].
  destruct (Py.partition "_mirisim" after) as [[date tail]|] eqn:E3; [|done].
  exists rest, before, tail. split; [done|].
  apply partition_spec in E2. apply partition_spec in E3.
  by rewrite E2 at 1; rewrite E3.
Qed.

Lemma detector1_config_one_object pipe base date :
  one_object pipe ->
  detector1_config pipe base date =
    {["refpix.skip" := ABool true; "output_file" := AStr (base +:+ date)]}.
Proof.
  intros Hpipe. unfold detector1_config. apply map_eq. intros k.
  destruct (decide (k = "output_file")) as [->|];
    [destruct Hpipe as [->|[o ->]]; by simplify_map_eq|].
  destruct (decide (k = "refpix.skip")) as [->|];
    destruct Hpipe as [->|[o ->]]; by simplify_map_eq.
Qed.

Lemma detector1_body_configured pipe f d :
  one_object pipe ->
  let r := MRS.detector1_body ext pipe f d in
  configured_runs (trace_of r) `prefix_of` [detector1_run f] /\
  (returned (result_of r) -> configured_runs (trace_of r) = [detector1_run f]) /\
  (forall pipe', result_of r = Py.Ok pipe' -> one_object pipe').
Proof.
  intros Hpipe. cbv zeta.
  destruct (detector1_name_dec f) as [Hy|Hn].
  - destruct (detector1_body_parsed ext pipe f d Hy)
      as (base & rest & before & date & tail & P1 & P2 & P3 & ->).
    cbv zeta. unfold trace_of, result_of. cbn [fst snd].
    rewrite (detector1_config_one_object pipe base date Hpipe).
    assert (base_of f = base) as Hb by (unfold base_of; by rewrite P1).
    assert (date_of f = date) as Hd by (unfold date_of; by rewrite P3).
    unfold detector1_run. rewrite Hb, Hd.
    split; [by exists []|]. split; [done|].
    intros pipe'. destruct (raised _); [done|]. intros [= <-].
    right. by eexists.
  - rewrite (detector1_body_unparsed ext pipe f d Hn).
    split; [by eexists|]. split; done.
Qed.

Lemma detector1_loop_configured files d :
  let r := MRS.detector1_loop ext files d in
  configured_runs (trace_of r) `prefix_of` detector1_run <$> files /\
  (returned (result_of r) ->
   configured_runs (trace_of r) = detector1_run <$> files).
Proof.
  cbv zeta. unfold MRS.detector1_loop.
  rewrite <- (concat_singletons detector1_run files).
  apply (for_with_reads_inv configured_runs (fun f => [detector1_run f])
           one_object).
  - apply configured_runs_app.
  - intros s x d' Hs. by apply detector1_body_configured.
  - intros s x d' Hs. by apply detector1_body_configured.
  - intros s x d' s' Hs. by apply detector1_body_configured.
  - by left.
Qed.

Lemma spec2_body_configured hardcoded f d :
  let r := MRS.spec2_body ext hardcoded f d in
  configured_runs (trace_of r) `prefix_of` [spec2_run hardcoded f] /\
  (returned (result_of r) ->
   configured_runs (trace_of r) = [spec2_run hardcoded f]).
Proof.
  cbv zeta. destruct (decide (Py.count "." f = 1)) as [Hy|Hn].
  - rewrite (spec2_body_parsed ext hardcoded f d Hy).
    cbv zeta. unfold trace_of, result_of. cbn [fst snd].
    destruct (String.eqb f hardcoded); (split; [by exists []|done]).
  - rewrite (spec2_body_unparsed ext hardcoded f d Hn).
    split; [by eexists|done].
Qed.

Lemma spec2_loop_configured hardcoded files d :
  let r := for_ files (MRS.spec2_body ext hardcoded) d in
  configured_runs (trace_of r) `prefix_of` spec2_run hardcoded <$> files /\
  (returned (result_of r) ->
   configured_runs (trace_of r) = spec2_run hardcoded <$> files).
Proof.
  cbv zeta. rewrite <- (concat_singletons (spec2_run hardcoded) files).
  apply (for_reads configured_runs (fun f => [spec2_run hardcoded f])
           configured_runs_app).
  - intros x d'. apply spec2_body_configured.
  - intros x d'. apply spec2_body_configured.
Qed.

End OutputNames.

(** X5. How the MRS stage loops name their output.  Every
    calwebb_detector1 run is configured with [refpix.skip] and an
    output name and nothing else, although one pipeline object serves
    the whole loop; the output name is the file's name up to its dot,
    followed by the text between [20210413_] and [_mirisim].  Every
    calwebb_spec2 run has for output name the file's name up to its
    dot.  The configured runs of a loop are those of the first files of
    its list, and of all of them when the loop returns. *)
Theorem output_names
  (ext : externals) (files : list string) (d : gmap string node) :
  (let r := MRS.detector1_loop ext files d in
   configured_runs (trace_of r) `prefix_of` detector1_run <$> files /\
   (returned (result_of r) ->
    configured_runs (trace_of r) = detector1_run <$> files)) /\
  (forall hardcoded,
     let r := for_ files (MRS.spec2_body ext hardcoded) d in
     configured_runs (trace_of r) `prefix_of` spec2_run hardcoded <$> files /\
     (returned (result_of r) ->
      configured_runs (trace_of r) = spec2_run hardcoded <$> files)) /\
  (forall hardcoded f,
     (spec2_run hardcoded f).1.2 !! "output_file" = Some (AStr (base_of f))) /\
  (forall f, detector1_name f ->
     exists rest before tail,
       f = base_of f +:+ "." +:+ rest /\
       f = before +:+ "20210413_" +:+ date_of f +:+ "_mirisim" +:+ tail) /\
  (forall f, Py.count "." f = 1 ->
     exists rest, f = base_of f +:+ "." +:+ rest).
Proof.
  split; [apply detector1_loop_configured|].
  split; [intros; apply spec2_loop_configured|].
  split.
  { intros hardcoded f. unfold spec2_run, spec2_config. cbn [fst snd].
    by rewrite lookup_insert_eq. }
  split; [apply detector1_name_parts|].
  intros f Hf. destruct (one_dot_parts f Hf) as (rest & _ & H). by exists rest.
Qed.

Lemma output_names_witness :
  let short :=
    "20210413_125354_mirisim/det_images/det_image_seq1_MIRIFUSHORT_12LONGexp1.fits" in
  let long :=
    "20210413_120546_mirisim/det_images/det_image_seq1_MIRIFULONG_34SHORTexp1.fits" in
  (fun x => x.1.2 !! "output_file")
    <$> configured_runs
          (trace_of (MRS.detector1_loop Sample.quiet [short; long] Sample.raw))
  = [Some (AStr "20210413_125354_mirisim/det_images/det_image_seq1_MIRIFUSHORT_12LONGexp1125354");
     Some (AStr "20210413_120546_mirisim/det_images/det_image_seq1_MIRIFULONG_34SHORTexp1120546")].
Proof.
  cbv zeta.
  destruct (output_names Sample.quiet
    ["20210413_125354_mirisim/det_images/det_image_seq1_MIRIFUSHORT_12LONGexp1.fits";
     "20210413_120546_mirisim/det_images/det_image_seq1_MIRIFULONG_34SHORTexp1.fits"]
    Sample.raw) as ([_ E] & _).
  rewrite E; by vm_compute.
Defined.

(** ** The level 2b cubes *)

Section Cubes.

Context (ext : externals).

Lemma cubes_app t1 t2 : cubes (t1 ++ t2) = cubes t1 ++ cubes t2.
Proof. unfold cubes. by rewrite configured_runs_app, filter_app, fmap_app. Qed.

Lemma spec2_run_cube hardcoded f :
  (spec2_run hardcoded f).1.2 !! "cube_build.skip" = None <-> f = hardcoded.
Proof.
  unfold spec2_run, spec2_config. cbn [fst snd].
  destruct (String.eqb f hardcoded) eqn:E.
  - apply String.eqb_eq in E. by simplify_map_eq.
  - apply String.eqb_neq in E. by simplify_map_eq.
Qed.

Lemma cubes_of_runs hardcoded files :
  NoDup files ->
  (fun x => x.2)
    <$> filter (fun x => x.1.2 !! "cube_build.skip" = None)
               (spec2_run hardcoded <$> files)
  = if decide (hardcoded ∈ files) then [hardcoded] else [].
Proof.
  induction files as [|f files IH]; intros Hnd.
  - by destruct (decide (hardcoded ∈ [])) as [H|H]; [inversion H|].
  - apply NoDup_cons in Hnd as [Hf Hnd]. specialize (IH Hnd).
    rewrite fmap_cons, filter_cons.
    destruct (decide ((spec2_run hardcoded f).1.2 !! "cube_build.skip" = None))
      as [Hc|Hc].
    + apply spec2_run_cube in Hc as ->. rewrite fmap_cons, IH.
      destruct (decide (hardcoded ∈ files)); [done|].
      destruct (decide (hardcoded ∈ hardcoded :: files)) as [|Hn]; [done|].
      destruct Hn. by left.
    + rewrite IH.
      assert (f <> hardcoded) as Hne by (intros ->; by apply Hc, spec2_run_cube).
      destruct (decide (hardcoded ∈ files)) as [Hin|Hnin].
      * destruct (decide (hardcoded ∈ f :: files)) as [|Hn]; [done|].
        destruct Hn. by right.
      * destruct (decide (hardcoded ∈ f :: files)) as [Hin'|]; [|done].
        apply elem_of_cons in Hin' as [->|]; done.
Qed.

Lemma spec2_loop_cubes hardcoded files d :
  NoDup files ->
  let r := for_ files (MRS.spec2_body ext hardcoded) d in
  let all := if decide (hardcoded ∈ files) then [hardcoded] else [] in
  cubes (trace_of r) `prefix_of` all /\
  (returned (result_of r) -> cubes (trace_of r) = all).
Proof.
  intros Hnd. cbv zeta.
  destruct (spec2_loop_configured ext hardcoded files d) as [[k P] E].
  rewrite <- (cubes_of_runs hardcoded files Hnd). split.
  - rewrite P, filter_app, fmap_app. unfold cubes. by eexists.
  - intros Hr. unfold cubes. by rewrite E.
Qed.

Lemma globbed_one pat (d : gmap string node) f :
  Glob.matches pat f = true ->
  (if decide (f ∈ globbed pat d) then [f] else [])
  = if decide (is_Some (d !! f)) then [f] else [].
Proof.
  intros Hm.
  destruct (decide (f ∈ globbed pat d)) as [Hin|Hnin];
    destruct (decide (is_Some (d !! f))) as [Hd|Hd]; try done.
  - apply elem_of_globbed in Hin as [_ Hin]. done.
  - destruct Hnin. by apply elem_of_globbed.
Qed.

Lemma cell_spec2_cubes d :
  let r := MRS.cell_spec2 ext d in
  let short :=
    if decide (is_Some (d !! MRS.short_cube_rate))
    then [MRS.short_cube_rate] else [] in
  let long :=
    if decide (is_Some (d !! MRS.long_cube_rate))
    then [MRS.long_cube_rate] else [] in
  cubes (trace_of r) `prefix_of` short ++ long /\
  (returned (result_of r) -> cubes (trace_of r) = short ++ long).
Proof.
  cbv zeta. unfold MRS.cell_spec2. rewrite !bind_glob.
  set (shorts := globbed "det_image_*_MIRIFUSHORT_*_rate.fits" d).
  set (longs := globbed "det_image_*_MIRIFULONG_*_rate.fits" d).
  rewrite <- (globbed_one "det_image_*_MIRIFUSHORT_*_rate.fits" d
                MRS.short_cube_rate eq_refl).
  rewrite <- (globbed_one "det_image_*_MIRIFULONG_*_rate.fits" d
                MRS.long_cube_rate eq_refl).
  fold shorts longs.
  destruct (spec2_loop_cubes MRS.short_cube_rate shorts d
              (globbed_NoDup _ _)) as [P1 E1].
  rewrite trace_bind, result_bind, cubes_app.
  destruct (result_of (for_ shorts (MRS.spec2_body ext MRS.short_cube_rate) d))
    as [[]|e].
  - rewrite E1 by done.
    destruct (spec2_loop_cubes MRS.long_cube_rate longs
                (disk_of (for_ shorts (MRS.spec2_body ext MRS.short_cube_rate) d))
                (globbed_NoDup _ _)) as [P2 E2].
    split; [by apply prefix_app|]. intros H. by rewrite E2.
  - change (cubes []) with (@nil string). rewrite app_nil_r.
    split; [by apply prefix_app_r|done].
Qed.

End Cubes.

(** X6. The calwebb_spec2 cell builds at most two level 2b cubes.  The
    runs that do not skip the cube building are, in this order, the
    run on the hard-coded short-wavelength rate file and the run on
    the hard-coded long-wavelength rate file, each made at most once
    and only if the file is on disk when the cell starts; when the cell
    returns, each file that is on disk has had its cube built.  On a
    disk that has neither file every run skips the cube building. *)
Theorem cubes_built (ext : externals) (d : gmap string node) :
  let r := MRS.cell_spec2 ext d in
  let short :=
    if decide (is_Some (d !! "det_image_seq1_MIRIFUSHORT_12LONGexp1125354_rate.fits"))
    then ["det_image_seq1_MIRIFUSHORT_12LONGexp1125354_rate.fits"] else [] in
  let long :=
    if decide (is_Some (d !! "det_image_seq1_MIRIFULONG_34SHORTexp1120546_rate.fits"))
    then ["det_image_seq1_MIRIFULONG_34SHORTexp1120546_rate.fits"] else [] in
  cubes (trace_of r) `prefix_of` short ++ long /\
  (returned (result_of r) -> cubes (trace_of r) = short ++ long) /\
  (d !! "det_image_seq1_MIRIFUSHORT_12LONGexp1125354_rate.fits" = None ->
   d !! "det_image_seq1_MIRIFULONG_34SHORTexp1120546_rate.fits" = None ->
   cubes (trace_of r) = []).
Proof.
  cbv zeta. destruct (cell_spec2_cubes ext d) as [P E].
  split; [exact P|]. split; [exact E|].
  intros H1 H2. cbv zeta in P.
  change MRS.short_cube_rate
    with "det_image_seq1_MIRIFUSHORT_12LONGexp1125354_rate.fits" in P.
  change MRS.long_cube_rate
    with "det_image_seq1_MIRIFULONG_34SHORTexp1120546_rate.fits" in P.
  rewrite H1, H2 in P.
  destruct (decide (is_Some None)) as [[? ?]|_]; [done|].
  by apply prefix_nil_inv in P.
Qed.

Lemma cubes_built_witness :
  cubes (trace_of (MRS.cell_spec2 Sample.quiet Sample.rates))
    = ["det_image_seq1_MIRIFUSHORT_12LONGexp1125354_rate.fits"] /\
  cubes (trace_of (MRS.cell_spec2 Sample.quiet Sample.calibrated)) = [].
Proof.
  destruct (cubes_built Sample.quiet Sample.rates) as (_ & E & _).
  destruct (cubes_built Sample.quiet Sample.calibrated) as (_ & _ & N).
  split.
  - rewrite E; by vm_compute.
  - apply N; by vm_compute.
Defined.

(** ** Names that a pattern meets *)

Section GlobIntro.

Implicit Types (s pat x y : string).

Lemma count_char_cons a c s :
  Py.count (String a "") (String c s) =
    (if Ascii.eqb c a then 1 else 0) + Py.count (String a "") s.
Proof.
  unfold Py.count. cbn [Py.count_at]. rewrite startswith_cons.
  destruct (ascii_dec a c) as [<-|Hne].
  - by rewrite startswith_nil, Ascii.eqb_refl.
  - destruct (Ascii.eqb c a) eqn:E; [|done].
    apply Ascii.eqb_eq in E. congruence.
Qed.

Lemma count_char_append a x y :
  Py.count (String a "") (x +:+ y) =
    Py.count (String a "") x + Py.count (String a "") y.
Proof.
  induction x as [|c x IH]; [done|].
  rewrite append_cons, !count_char_cons, IH. lia.
Qed.

Lemma split_none sep s :
  sep <> "" -> Py.count sep s = 0 -> Py.split sep s = [s].
Proof.
  intros Hsep H. rewrite split_partition by done.
  rewrite count_partition in H by done.
  by destruct (Py.partition sep s) as [[a b]|].
Qed.



Lemma wild_star_intro pat m s :
  Glob.wild pat s = true -> Glob.wild (String "*" pat) (m +:+ s) = true.
Proof.
  intros H. cbn [Glob.wild]. rewrite Ascii.eqb_refl.
  induction m as [|c m IH].
  - rewrite append_nil_l. destruct s; by rewrite H.
  - rewrite append_cons. by rewrite IH, orb_true_r.
Qed.

Lemma wild_prefix lit pat s :
  has_char "*" lit = false ->
  Glob.wild (lit +:+ pat) (lit +:+ s) = Glob.wild pat s.
Proof.
  induction lit as [|p lit IH]; intros H; [by rewrite !append_nil_l|].
  cbn [has_char] in H. apply orb_false_iff in H as [Hp H].
  rewrite !append_cons. cbn [Glob.wild].
  rewrite Ascii.eqb_sym, Hp, Ascii.eqb_refl. by apply IH.
Qed.

End GlobIntro.

(** ** From the header fix to the association *)

Section FixedNames.



End FixedNames.



(** ** The target name set in place *)

Section Steps.

Context {A B : Type}.

Lemma bind_run (m : M A) (k : A -> M B) d a d1 t1 r d2 t2 :
  m d = (Py.Ok a, d1, t1) -> k a d1 = (r, d2, t2) ->
  bind m k d = (r, d2, t1 ++ t2).
Proof. intros Hm Hk. unfold bind. by rewrite Hm, Hk. Qed.

End Steps.

Section SmallSteps.

Implicit Types (d : gmap string node).

Lemma print_run text d : print text d = (Py.Ok tt, d, [printed text]).
Proof. reflexivity. Qed.

Lemma card_run (hdr : gmap string hval) key v d :
  hdr !! key = Some v -> card hdr key d = (Py.Ok v, d, []).
Proof. intros H. unfold card. by rewrite H. Qed.

Lemma card_missing (hdr : gmap string hval) key d :
  hdr !! key = None -> card hdr key d = (Py.Err Py.KeyError, d, []).
Proof. intros H. unfold card. by rewrite H. Qed.

Lemma getheader_run p d h hdus :
  d !! Path.norm p = Some (File (Fits (h :: hdus))) ->
  getheader p d =
    (Py.Ok (header h), d, [{| what := Getheader p; failed := None |}]).
Proof. intros H. unfold getheader. by rewrite H. Qed.

Lemma setval_run p key value d h hdus :
  d !! Path.norm p = Some (File (Fits (h :: hdus))) ->
  setval p key value d =
    (Py.Ok tt,
     <[Path.norm p := File (Fits (set_card key (HStr value) h :: hdus))]> d,
     [{| what := Setval p key value; failed := None |}]).
Proof. intros H. unfold setval, emit. by rewrite H. Qed.

Lemma replace_char_gone a s :
  has_char a (Py.replace (String a "") "" s) = false.
Proof.
  unfold Py.replace. induction s as [|c s IH]; [done|].
  cbn [Py.replace_at]. rewrite startswith_cons.
  destruct (ascii_dec a c) as [<-|Hne].
  - rewrite startswith_nil, append_nil_l. exact IH.
  - cbn [has_char]. rewrite IH, orb_false_r.
    destruct (Ascii.eqb a c) eqn:E; [|done].
    apply Ascii.eqb_eq in E. congruence.
Qed.

End SmallSteps.

Section TargetName.

Context (ext : externals).

Ltac step H := rewrite H; cbv beta iota.

Lemma implaneia_body_missing COUNT fnmir d :
  d !! Path.norm (Path.joinpath NIRISS.datasuperdir fnmir) = None ->
  NIRISS.implaneia_body ext COUNT fnmir d =
    (Py.Err (Py.Raised "FileNotFoundError"), d,
     [printed (NIRISS.nl +:+ "Analyzing" +:+ NIRISS.nl +:+ "   " +:+ " "
               +:+ pretty COUNT +:+ " " +:+ Py.replace ".fits" "" fnmir
               +:+ " ");
      {| what := Getheader (Path.joinpath NIRISS.datasuperdir fnmir);
         failed := Some (Py.Raised "FileNotFoundError") |}]).
Proof.
  intros H. unfold NIRISS.implaneia_body, bind.
  step print_run. unfold getheader. by rewrite H.
Qed.

Lemma implaneia_body_no_card COUNT fnmir d h hdus :
  d !! Path.norm (Path.joinpath NIRISS.datasuperdir fnmir)
    = Some (File (Fits (h :: hdus))) ->
  header h !! "FILTER" = None \/ header h !! "TARGNAME" = None \/
  header h !! "TARGPROP" = None ->
  let r := NIRISS.implaneia_body ext COUNT fnmir d in
  result_of r = Py.Err Py.KeyError /\ disk_of r = d /\
  own_writes (trace_of r) = [].
Proof.
  intros H Hcards. cbv zeta. unfold NIRISS.implaneia_body, bind.
  step print_run. step (getheader_run _ _ _ _ H).
  destruct (header h !! "FILTER") as [band|] eqn:E1;
    [|by rewrite (card_missing _ _ _ E1)].
  step (card_run _ _ _ d E1). step print_run.
  destruct (header h !! "TARGNAME") as [tn|] eqn:E2;
    [|by rewrite (card_missing _ _ _ E2)].
  step (card_run _ _ _ d E2). step print_run.
  destruct (header h !! "TARGPROP") as [tp|] eqn:E3;
    [|by rewrite (card_missing _ _ _ E3)].
  destruct Hcards as [?|[?|?]]; done.
Qed.

Lemma implaneia_body_number COUNT fnmir d h hdus band tn x :
  d !! Path.norm (Path.joinpath NIRISS.datasuperdir fnmir)
    = Some (File (Fits (h :: hdus))) ->
  header h !! "FILTER" = Some band -> header h !! "TARGNAME" = Some tn ->
  header h !! "TARGPROP" = Some (HNum x) ->
  let r := NIRISS.implaneia_body ext COUNT fnmir d in
  result_of r = Py.Err (Py.Raised "AttributeError") /\ disk_of r = d /\
  own_writes (trace_of r) = [].
Proof.
  intros H E1 E2 E3. cbv zeta. unfold NIRISS.implaneia_body, bind.
  step print_run. step (getheader_run _ _ _ _ H).
  step (card_run _ _ _ d E1). step print_run.
  step (card_run _ _ _ d E2). step print_run.
  step (card_run _ _ _ d E3). step print_run.
  step (card_run _ _ _ d E3). done.
Qed.

Lemma implaneia_body_run COUNT fnmir d h hdus band tn tp :
  let p := Path.joinpath NIRISS.datasuperdir fnmir in
  d !! Path.norm p = Some (File (Fits (h :: hdus))) ->
  header h !! "FILTER" = Some band -> header h !! "TARGNAME" = Some tn ->
  header h !! "TARGPROP" = Some (HStr tp) ->
  let cat := Py.replace "-" "" tp in
  let h' := set_card "TARGPROP" (HStr cat) (set_card "TARGNAME" (HStr cat) h) in
  let d2 := <[Path.norm p := File (Fits (h' :: hdus))]> d in
  let m := NIRISS.main ext NIRISS.datasuperdir
             (Path.joinpath NIRISS.datasuperdir "Saveoit")
             (Path.joinpath NIRISS.datasuperdir "Saveoif")
             fnmir NIRISS.OVERSAMPLE NIRISS.FIRSTFEW true false d2 in
  NIRISS.implaneia_body ext COUNT fnmir d =
    (match result_of m with
     | Py.Ok _ => Py.Ok (COUNT + 1)
     | Py.Err e => Py.Err e
     end,
     disk_of m,
     [printed (NIRISS.nl +:+ "Analyzing" +:+ NIRISS.nl +:+ "   " +:+ " "
               +:+ pretty COUNT +:+ " " +:+ Py.replace ".fits" "" fnmir
               +:+ " ");
      {| what := Getheader p; failed := None |};
      printed (text_of band +:+ " ");
      printed (text_of tn +:+ " ");
      printed tp;
      {| what := Setval p "TARGNAME" cat; failed := None |};
      {| what := Setval p "TARGPROP" cat; failed := None |}] ++ trace_of m).
Proof.
  intros p H E1 E2 E3 cat h' d2 m.
  unfold NIRISS.implaneia_body, bind. fold p.
  step print_run. step (getheader_run _ _ _ _ H).
  step (card_run _ _ _ d E1). step print_run.
  step (card_run _ _ _ d E2). step print_run.
  step (card_run _ _ _ d E3). step print_run.
  step (card_run _ _ _ d E3).
  unfold replace_in, ret. cbv beta iota. fold cat.
  step (setval_run p "TARGNAME" cat d h hdus H).
  rewrite (setval_run p "TARGPROP" cat _ (set_card "TARGNAME" (HStr cat) h) hdus)
    by (by rewrite lookup_insert_eq).
  cbv beta iota. rewrite insert_insert_eq. fold h' d2. fold m.
  destruct m as [[[[]|e] dm] tm]; unfold result_of, disk_of, trace_of;
    cbn [fst snd app]; by rewrite ?app_nil_r.
Qed.

End TargetName.

(** X8. Before the fringes of a file are fitted, the ImPlaneIA loop
    rewrites its target name in place.  It reads the primary header
    of the bad-pixel-corrected file, takes [TARGPROP], removes every
    [-] from it, and sets both [TARGNAME] and [TARGPROP] of that file
    to the result; the other cards, the other header data units and
    the other files are as they were when [main] starts, and the name
    written has no [-] left.  Printing apart, these are the only calls
    made before those of [main].  When the file is missing the turn ends on
    [FileNotFoundError]; when one of [FILTER], [TARGNAME], [TARGPROP]
    is missing it ends on [KeyError]; when [TARGPROP] is a number it
    ends on [AttributeError]; in these cases nothing has been written. *)
Theorem target_name_in_place
  (ext : externals) (COUNT : nat) (fnmir : string) (d : gmap string node) :
  let p := Path.joinpath NIRISS.datasuperdir fnmir in
  let r := NIRISS.implaneia_body ext COUNT fnmir d in
  (d !! Path.norm p = None ->
   result_of r = Py.Err (Py.Raised "FileNotFoundError") /\ disk_of r = d) /\
  (forall h hdus,
     d !! Path.norm p = Some (File (Fits (h :: hdus))) ->
     (header h !! "FILTER" = None \/ header h !! "TARGNAME" = None \/
      header h !! "TARGPROP" = None ->
      result_of r = Py.Err Py.KeyError /\ disk_of r = d /\
      own_writes (trace_of r) = []) /\
     (forall band tn x,
        header h !! "FILTER" = Some band -> header h !! "TARGNAME" = Some tn ->
        header h !! "TARGPROP" = Some (HNum x) ->
        result_of r = Py.Err (Py.Raised "AttributeError") /\ disk_of r = d /\
        own_writes (trace_of r) = []) /\
     (forall band tn tp,
        header h !! "FILTER" = Some band -> header h !! "TARGNAME" = Some tn ->
        header h !! "TARGPROP" = Some (HStr tp) ->
        let cat := Py.replace "-" "" tp in
        let h' :=
          {| extname := extname h;
             header := <["TARGPROP" := HStr cat]>
                         (<["TARGNAME" := HStr cat]> (header h)) |} in
        let d2 := <[Path.norm p := File (Fits (h' :: hdus))]> d in
        let m := NIRISS.main ext NIRISS.datasuperdir
                   (Path.joinpath NIRISS.datasuperdir "Saveoit")
                   (Path.joinpath NIRISS.datasuperdir "Saveoif")
                   fnmir NIRISS.OVERSAMPLE NIRISS.FIRSTFEW true false d2 in
        has_char "-" cat = false /\
        result_of r = match result_of m with
                      | Py.Ok _ => Py.Ok (COUNT + 1)
                      | Py.Err e => Py.Err e
                      end /\
        disk_of r = disk_of m /\
        work (trace_of r) =
          [Getheader p; Setval p "TARGNAME" cat; Setval p "TARGPROP" cat]
          ++ work (trace_of m))).
Proof.
  cbv zeta. split.
  - intros H. by rewrite (implaneia_body_missing ext COUNT fnmir d H).
  - intros h hdus H. split; [|split].
    + intros Hc. exact (implaneia_body_no_card ext COUNT fnmir d h hdus H Hc).
    + intros band tn x E1 E2 E3.
      exact (implaneia_body_number ext COUNT fnmir d h hdus band tn x
               H E1 E2 E3).
    + intros band tn tp E1 E2 E3.
      split; [apply replace_char_gone|].
      rewrite (implaneia_body_run ext COUNT fnmir d h hdus band tn tp H E1 E2 E3).
      split; [reflexivity|]. split; [reflexivity|].
      unfold work, calls, trace_of. cbn [snd].
      rewrite map_app, filter_app. reflexivity.
Qed.

Lemma target_name_in_place_witness :
  let d := disk_of (NIRISS.cell_bp_fix Sample.quiet ∅) in
  disk_of (NIRISS.implaneia_body Sample.offline 0
             "jw01093012001_03102_00001_nis_calints.fits" ∅) = ∅ /\
  (fun c => match c with Setval _ key value => Some (key, value) | _ => None end)
    <$> work (trace_of (NIRISS.implaneia_body Sample.quiet 0
                 "jw01093012001_03102_00001_nis_calints.fits" d))
    !! 1 = Some (Some ("TARGNAME", "ABDOR")).
Proof.
  cbv zeta. split.
  - by apply target_name_in_place.
  - destruct (target_name_in_place Sample.quiet 0
                "jw01093012001_03102_00001_nis_calints.fits"
                (disk_of (NIRISS.cell_bp_fix Sample.quiet ∅))) as [_ H].
    destruct (H Sample.primary [Sample.science]) as (_ & _ & Hrun);
      [by vm_compute|].
    destruct (Hrun (HStr "F480M") (HStr "AB-DOR") "AB-DOR")
      as (_ & _ & _ & ->); by vm_compute.
Defined.

(** ** The driver of the fringe fitting *)

Section Alike.







Lemma emits_emits_on {A} (X : call -> Prop) (m : M A) d :
  emits X m -> emits_on X m d.
Proof. intros H. apply H. Qed.


End Alike.

Section Driver.

Context (ext : externals).





End Driver.



(** ** The listings of the stage products *)

Section Listings.

Implicit Types (d : gmap string node) (x y a b s : string).

Lemma same_end x y a b :
  x +:+ a = y +:+ b -> String.length a <= String.length b ->
  Py.drop (String.length b - String.length a) b = a.
Proof.
  revert x. induction y as [|c y IH]; intros x H Hlen.
  - rewrite append_nil_l in H. subst b. rewrite length_append.
    replace (String.length x + String.length a - String.length a)
      with (String.length x) by lia.
    apply drop_append.
  - destruct x as [|c' x].
    + rewrite append_nil_l in H. apply (f_equal String.length) in H.
      rewrite length_append in H. simpl in H. lia.
    + rewrite !append_cons in H. injection H as _ H. by apply (IH x).
Qed.

Lemma ends_apart a b s :
  ends a s -> ends b s ->
  String.length a <= String.length b ->
  Py.drop (String.length b - String.length a) b <> a -> False.
Proof.
  intros [x ->] [y H] Hlen Hne. by apply Hne, (same_end x y).
Qed.

Lemma listed_ends pat f :
  pat ∈ listed ->
  Glob.matches (Path.joinpath NIRISS.outdir pat) f = true ->
  ends (Py.drop 3 pat) f.
Proof.
  unfold listed. intros Hpat H.
  repeat (apply elem_of_cons in Hpat as [->|Hpat]);
    [..|by apply elem_of_nil in Hpat].
  all: match type of H with
       | Glob.matches (Path.joinpath _ ?pt) _ = true =>
           apply (matches_two _ "pipeline_calibrated_data" pt) in H;
           [|reflexivity]
       end.
  all: destruct H as (c1 & c2 & -> & _ & H2); wild_inv H2.
  all: exists (c1 +:+ "/" +:+ "jw" +:+ m); by rewrite !append_assoc.
Qed.

Lemma listing_run pat d :
  NIRISS.listing pat d =
    (Py.Ok (Glob.sorted (globbed (Path.joinpath NIRISS.outdir pat) d)), d,
     [printed (String.concat NIRISS.nl
                 (Glob.sorted (globbed (Path.joinpath NIRISS.outdir pat) d)))]).
Proof. unfold NIRISS.listing. by rewrite bind_glob. Qed.

Lemma cell_listing_run d :
  let l pat := Glob.sorted (globbed (Path.joinpath NIRISS.outdir pat) d) in
  NIRISS.cell_listing d =
    (Py.Ok (l "jw*rate.fits", l "jw*rateints.fits", l "jw*cal.fits",
            l "jw*calints.fits"),
     d,
     (fun pat => printed (String.concat NIRISS.nl (l pat))) <$> listed).
Proof.
  cbv zeta. unfold NIRISS.cell_listing.
  repeat (erewrite bind_run; [|apply listing_run|]); reflexivity.
Qed.

End Listings.

(** X10. The listing cell of the NIRISS notebook reads the output
    directory five times and changes nothing.  It always returns; each
    of its lists holds the names on disk that its pattern meets, each
    once, in ascending order, and it prints each list on lines of its
    own.  No name is in two of the lists: a [rateints] file is not
    listed among the [rate] files, nor a [calints] file among the
    [cal] files. *)
Theorem listings_apart (d : gmap string node) :
  let l pat := Glob.sorted (globbed (Path.joinpath NIRISS.outdir pat) d) in
  NIRISS.cell_listing d =
    (Py.Ok (l "jw*rate.fits", l "jw*rateints.fits", l "jw*cal.fits",
            l "jw*calints.fits"),
     d,
     (fun pat => printed (String.concat NIRISS.nl (l pat))) <$> listed) /\
  (forall pat,
     Sorted leq (l pat) /\ NoDup (l pat) /\
     forall f, f ∈ l pat <->
               Glob.matches (Path.joinpath NIRISS.outdir pat) f = true /\
               is_Some (d !! f)) /\
  (forall pat1 pat2 f,
     pat1 ∈ listed -> pat2 ∈ listed -> pat1 <> pat2 ->
     f ∈ l pat1 -> f ∈ l pat2 -> False).
Proof.
  cbv zeta. split; [apply cell_listing_run|]. split.
  - intros pat. apply sorted_globbed.
  - intros pat1 pat2 f H1 H2 Hne Hf1 Hf2.
    apply sorted_globbed in Hf1 as [Hm1 _].
    apply sorted_globbed in Hf2 as [Hm2 _].
    apply (listed_ends pat1 f H1) in Hm1.
    apply (listed_ends pat2 f H2) in Hm2.
    unfold listed in H1, H2.
    repeat (apply elem_of_cons in H1 as [->|H1]);
      [..|by apply elem_of_nil in H1];
      (repeat (apply elem_of_cons in H2 as [->|H2]);
         [..|by apply elem_of_nil in H2]);
      try done;
      first [ by apply (ends_apart _ _ f Hm1 Hm2); [vm_compute; lia|]
            | by apply (ends_apart _ _ f Hm2 Hm1); [vm_compute; lia|] ].
Qed.

Lemma listings_apart_witness :
  let d : gmap string node :=
    {["pipeline_calibrated_data/jw1_rateints.fits" := File Sample.exposure]} in
  "pipeline_calibrated_data/jw1_rateints.fits"
    ∉ Glob.sorted (globbed (Path.joinpath NIRISS.outdir "jw*rate.fits") d).
Proof.
  cbv zeta. intros Hin.
  destruct (listings_apart
              {["pipeline_calibrated_data/jw1_rateints.fits"
                  := File Sample.exposure]}) as (_ & Hl & Hapart).
  apply (Hapart "jw*rate.fits" "jw*rateints.fits"
           "pipeline_calibrated_data/jw1_rateints.fits").
  - unfold listed. by right; left.
  - unfold listed. by right; right; left.
  - done.
  - exact Hin.
  - apply Hl. split; [by vm_compute|]. exists (File Sample.exposure).
    by vm_compute.
Defined.

(** ** The display cells on fewer than two files *)

Section TwoPanels.

Context (ext : externals).

Lemma stops_bind_l {A B} (m : M A) (k : A -> M B) d :
  ~ returned (result_of (m d)) -> ~ returned (result_of (bind m k d)).
Proof.
  intros H. rewrite result_bind.
  destruct (result_of (m d)); [by destruct H|exact H].
Qed.

Lemma stops_bind_r {A B} (m : M A) (k : A -> M B) d :
  (forall a d', ~ returned (result_of (k a d'))) ->
  ~ returned (result_of (bind m k d)).
Proof.
  intros H. rewrite result_bind.
  destruct (result_of (m d)); [apply H|by intros []].
Qed.

Lemma subscript_short {A} (l : list A) i :
  length l <= i -> Py.subscript l i = Py.Err Py.IndexError.
Proof. intros H. unfold Py.subscript. by rewrite (lookup_ge_None_2 l i). Qed.

Lemma emits_bind_raise {A B} (X : call -> Prop) e (k : A -> M B) :
  emits X (bind (raise e) k).
Proof. intros d. constructor. Qed.

Lemma emits_not_in {A} (c : call) (m : M A) d :
  emits (fun c' => c' <> c) m -> c ∉ calls (trace_of (m d)).
Proof.
  intros H Hin. unfold calls in Hin.
  apply list_elem_of_fmap in Hin as (e & -> & He).
  specialize (H d). rewrite Forall_forall in H. by apply (H e He).
Qed.

(** What is left of a display cell after its loop, when the second
    image is missing: nothing returns. *)
Lemma examine_raw_stops files d :
  (length files < 2)%nat ->
  ~ returned (result_of (NIRISS.cell_examine_raw ext files d)).
Proof.
  intros H. unfold NIRISS.cell_examine_raw.
  apply stops_bind_r. intros _ d1. apply stops_bind_r. intros _ d2.
  apply stops_bind_l. rewrite subscript_short by lia. by intros [].
Qed.

Lemma display_cal_stops files d :
  (length files < 2)%nat ->
  ~ returned (result_of (NIRISS.cell_display_cal ext files d)).
Proof.
  intros H. unfold NIRISS.cell_display_cal.
  do 4 (apply stops_bind_r; intros _ ?).
  apply stops_bind_l. rewrite subscript_short by lia. by intros [].
Qed.

Lemma display_corr_stops files d :
  (length files < 2)%nat ->
  ~ returned (result_of (NIRISS.cell_display_corr ext files d)).
Proof.
  intros H. unfold NIRISS.cell_display_corr.
  do 4 (apply stops_bind_r; intros _ ?).
  apply stops_bind_l. rewrite subscript_short by lia. by intros [].
Qed.

Lemma examine_raw_no_figure files d :
  (length files < 2)%nat ->
  Show "NRM + F480M raw exposures (last group of integration 1) at POS1"
    ∉ calls (trace_of (NIRISS.cell_examine_raw ext files d)).
Proof.
  intros H. apply emits_not_in. unfold NIRISS.cell_examine_raw.
  rewrite (subscript_short files 1) by lia.
  apply emits_bind; [emits_all; done|]. intros _.
  apply emits_bind; [emits_all|]. intros _.
  apply emits_bind_raise.
Qed.

Lemma display_cal_no_second files d :
  (length files < 2)%nat ->
  Show "imshow(data[1][0])" ∉ calls (trace_of (NIRISS.cell_display_cal ext files d)).
Proof.
  intros H. apply emits_not_in. unfold NIRISS.cell_display_cal.
  rewrite (subscript_short files 1) by lia.
  apply emits_bind; [emits_all; done|]. intros _.
  apply emits_bind; [emits_all; done|]. intros _.
  apply emits_bind; [emits_all|]. intros _.
  apply emits_bind; [emits_all; done|]. intros _.
  apply emits_bind_raise.
Qed.

Lemma display_corr_no_second files d :
  (length files < 2)%nat ->
  Show "imshow(data[1])" ∉ calls (trace_of (NIRISS.cell_display_corr ext files d)).
Proof.
  intros H. apply emits_not_in. unfold NIRISS.cell_display_corr.
  rewrite (subscript_short files 1) by lia.
  apply emits_bind; [emits_all; done|]. intros _.
  apply emits_bind; [emits_all; done|]. intros _.
  apply emits_bind; [emits_all|]. intros _.
  apply emits_bind; [emits_all; done|]. intros _.
  apply emits_bind_raise.
Qed.

End TwoPanels.

(** X11. The three display cells of the NIRISS notebook draw two
    panels and need two files.  Given fewer than two, none of them
    returns: each ends on an exception, [IndexError] at the latest
    when the image of the second panel is looked up, and that image is
    never drawn; the cell that examines the raw exposures stops before
    it makes its figure.  Given no file at all, that cell
    ends on [IndexError] without a call, and the two others make their
    figure, if the drawing returns, and end on [IndexError] at the
    first panel. *)
Theorem display_cells_need_two_files
  (ext : externals) (files : list string) (d : gmap string node) :
  (length files < 2)%nat ->
  (~ returned (result_of (NIRISS.cell_examine_raw ext files d)) /\
   ~ returned (result_of (NIRISS.cell_display_cal ext files d)) /\
   ~ returned (result_of (NIRISS.cell_display_corr ext files d))) /\
  ((Show "NRM + F480M raw exposures (last group of integration 1) at POS1"
      ∉ calls (trace_of (NIRISS.cell_examine_raw ext files d))) /\
   (Show "imshow(data[1][0])" ∉ calls (trace_of (NIRISS.cell_display_cal ext files d))) /\
   (Show "imshow(data[1])" ∉ calls (trace_of (NIRISS.cell_display_corr ext files d)))) /\
  (files = [] ->
   NIRISS.cell_examine_raw ext files d = (Py.Err Py.IndexError, d, []) /\
   (viewer ext "NRM + F480M calibrated exposures (first integration) at POS1" d
      = None ->
    NIRISS.cell_display_cal ext files d =
      (Py.Err Py.IndexError, d,
       [{| what := Show "NRM + F480M calibrated exposures (first integration) at POS1";
           failed := None |}])) /\
   (viewer ext "NRM + F480M calibrated exposures at POS1 (after fixing bad pixels)" d
      = None ->
    NIRISS.cell_display_corr ext files d =
      (Py.Err Py.IndexError, d,
       [{| what := Show "NRM + F480M calibrated exposures at POS1 (after fixing bad pixels)";
           failed := None |}]))).
Proof.
  intros H.
  split; [split; [by apply examine_raw_stops|
           split; [by apply display_cal_stops|by apply display_corr_stops]]|].
  split; [split; [by apply examine_raw_no_figure|
           split; [by apply display_cal_no_second|by apply display_corr_no_second]]|].
  intros ->. split; [reflexivity|]. split.
  - intros Hv. unfold NIRISS.cell_display_cal, bind, show, emit. cbn [for_ ret].
    rewrite Hv. reflexivity.
  - intros Hv. unfold NIRISS.cell_display_corr, bind, show, emit. cbn [for_ ret].
    rewrite Hv. reflexivity.
Qed.

Lemma display_cells_need_two_files_witness :
  result_of (NIRISS.cell_examine_raw Sample.quiet
               ["niriss_ami_binary2_inflight/jw01093012001_03102_00001_nis_uncal.fits"]
               (disk_of (NIRISS.cell_download Sample.quiet ∅)))
    = Py.Err Py.IndexError /\
  NIRISS.cell_examine_raw Sample.quiet [] ∅ = (Py.Err Py.IndexError, ∅, []).
Proof.
  split; [by vm_compute|].
  destruct (display_cells_need_two_files Sample.quiet [] ∅) as (_ & _ & H);
    [simpl; lia|].
  by destruct (H eq_refl) as [-> _].
Defined.

(** ** The central pixels of the residual *)

(** X12. What [examine_observables] prints as the central six pixels
    of the residual.  For a residual of at least six rows the slice
    takes the six rows from [n//2 - 3] to [n//2 + 2], which lie within
    the image and are centred: as many rows are left after them as
    before them when [n] is even, one more when it is odd; and the same
    six columns when the image has at least [n//2 + 3] columns.  For a
    residual of fewer than six rows the lower bound is negative and
    counts from the end, so that at most two rows are printed. *)
Theorem central_pixels (n m : Z) :
  (0 <= n)%Z ->
  let tlo := (Window.bounds n).1 in
  let thi := (Window.bounds n).2 in
  ((6 <= n)%Z ->
   Window.slice tlo thi n = (n / 2 - 3, n / 2 + 3)%Z /\
   (0 <= tlo /\ thi <= n)%Z /\
   Window.printed_rows n = 6%Z /\
   (n - thi = tlo \/ n - thi = tlo + 1)%Z /\
   ((n / 2 + 3 <= m)%Z -> Window.printed_columns n m = 6%Z)) /\
  ((n < 6)%Z -> (Window.printed_rows n <= 2)%Z).
Proof.
  intros Hn. cbv zeta.
  unfold Window.printed_rows, Window.printed_columns, Window.taken,
    Window.slice, Window.adjust, Window.bounds. cbn [fst snd].
  pose proof (Z.div_mod n 2 ltac:(lia)) as Hdiv.
  pose proof (Z.mod_pos_bound n 2 ltac:(lia)) as Hmod.
  split.
  - intros H6. repeat split; intros;
      repeat match goal with
             | |- context [(?a <? ?b)%Z] => destruct (Z.ltb_spec a b)
             | |- context [(?a <=? ?b)%Z] => destruct (Z.leb_spec a b)
             end; try lia.
    + f_equal; lia.
    + reflexivity.
  - intros H6.
    repeat match goal with
           | |- context [(?a <? ?b)%Z] => destruct (Z.ltb_spec a b)
           | |- context [(?a <=? ?b)%Z] => destruct (Z.leb_spec a b)
           end; lia.
Qed.

Lemma central_pixels_witness :
  Window.slice (Window.bounds 80).1 (Window.bounds 80).2 80 = (37, 43)%Z /\
  (Window.printed_rows 5 <= 2)%Z.
Proof.
  destruct (central_pixels 80 80 ltac:(lia)) as [H _].
  destruct (central_pixels 5 5 ltac:(lia)) as [_ H'].
  split.
  - destruct H as (-> & _); [lia|done].
  - apply H'. lia.
Defined.

(** ** From the raw exposures to the listings *)

Section ProductsListed.

Implicit Types (s x y b t old new : string) (a : ascii).

Lemma startswith_within p x t :
  Py.startswith p (x +:+ t) = true -> String.length p <= String.length x ->
  Py.startswith p x = true.
Proof.
  revert x. induction p as [|c p IH]; intros x H Hlen; [apply startswith_nil|].
  destruct x as [|c' x]; [simpl in Hlen; lia|].
  rewrite append_cons, startswith_cons in H. rewrite startswith_cons.
  destruct (ascii_dec c c'); [|done]. apply IH; [done|]. simpl in Hlen. lia.
Qed.

(** An occurrence of an unbordered word is not overlapped by an
    occurrence that begins before it. *)
Lemma occurrence_clear old b t :
  unbordered old = true ->
  Py.startswith old (b +:+ old +:+ t) = true ->
  b <> "" ->
  String.length old <= String.length b.
Proof.
  intros Hu H Hb.
  destruct (decide (String.length old <= String.length b)) as [|Hlt]; [done|].
  destruct b as [|c b]; [done|]. exfalso.
  assert (S (String.length b) < String.length old) as Hj
    by (simpl in Hlt; lia).
  pose proof (unbordered_gap old (String c b +:+ old +:+ t)
                (String.length b) Hu H Hj) as Hgap.
  change (S (String.length b)) with (String.length (String c b)) in Hgap.
  rewrite drop_append in Hgap. by rewrite startswith_append in Hgap.
Qed.

Lemma replace_at_before old new t :
  unbordered old = true ->
  forall b k, k <= String.length b ->
    Py.replace_at old new k (b +:+ old +:+ t) =
      Py.replace_at old new k b +:+ Py.replace_at old new 0 (old +:+ t).
Proof.
  intros Hu. induction b as [|c b IH]; intros k Hk.
  - simpl in Hk. assert (k = 0) as -> by lia. by rewrite !append_nil_l.
  - rewrite append_cons. cbn [Py.replace_at]. destruct k as [|k].
    + destruct (Py.startswith old (String c (b +:+ old +:+ t))) eqn:Hp.
      * rewrite <- append_cons in Hp.
        pose proof (occurrence_clear old (String c b) t Hu Hp ltac:(done))
          as Hlen.
        rewrite (startswith_within old (String c b) (old +:+ t) Hp Hlen).
        rewrite IH, append_assoc; [done|]. simpl in Hlen. lia.
      * assert (Py.startswith old (String c b) = false) as Hp'.
        { destruct (Py.startswith old (String c b)) eqn:E; [|done].
          apply (startswith_append_r _ _ (old +:+ t)) in E.
          rewrite append_cons in E. congruence. }
        rewrite Hp'. rewrite IH by lia. by rewrite append_cons.
    + apply IH. simpl in Hk. lia.
Qed.

Lemma replace_at_occurrence old new t :
  old <> "" ->
  Py.replace_at old new 0 (old +:+ t) = new +:+ Py.replace old new t.
Proof.
  intros Hold. destruct old as [|c o]; [done|].
  rewrite append_cons. cbn [Py.replace_at].
  rewrite <- append_cons, startswith_append.
  rewrite replace_at_skip by (rewrite length_append; simpl; lia).
  replace (String.length (String c o) - 1) with (String.length o)
    by (simpl; lia).
  by rewrite drop_append.
Qed.

(** Replacement goes through a text part by part around an occurrence
    of an unbordered word. *)
Lemma replace_around old new b t :
  unbordered old = true -> old <> "" ->
  Py.replace old new (b +:+ old +:+ t) =
    Py.replace old new b +:+ new +:+ Py.replace old new t.
Proof.
  intros Hu Hold. unfold Py.replace.
  rewrite replace_at_before by (done || lia).
  by rewrite replace_at_occurrence.
Qed.

Lemma count_char_replace_at a old new s k :
  Py.count (String a "") new = 0 -> Py.count (String a "") s = 0 ->
  Py.count (String a "") (Py.replace_at old new k s) = 0.
Proof.
  intros Hnew. revert k. induction s as [|c s IH]; intros k Hs; [done|].
  rewrite count_char_cons in Hs. cbn [Py.replace_at].
  destruct k as [|k]; [|apply IH; lia].
  destruct (Py.startswith old (String c s)).
  - rewrite count_char_append, Hnew, IH; [done|lia].
  - rewrite count_char_cons, IH; lia.
Qed.

Lemma partition_first_char a x y :
  Py.count (String a "") x = 0 ->
  Py.partition (String a "") (x +:+ String a y) = Some (x, y).
Proof.
  induction x as [|c x IH]; intros H.
  - rewrite append_nil_l. cbn [Py.partition].
    rewrite startswith_cons, startswith_nil.
    by destruct (ascii_dec a a).
  - rewrite count_char_cons in H.
    destruct (Ascii.eqb c a) eqn:E; [done|].
    rewrite append_cons. cbn [Py.partition]. rewrite startswith_cons.
    destruct (ascii_dec a c) as [<-|Hne]; [by rewrite Ascii.eqb_refl in E|].
    rewrite IH by done. done.
Qed.

Lemma split_two_intro a x y :
  Py.count (String a "") x = 0 -> Py.count (String a "") y = 0 ->
  Py.split (String a "") (x +:+ String a y) = [x; y].
Proof.
  intros Hx Hy. rewrite split_partition by done.
  rewrite partition_first_char by done. by rewrite split_none.
Qed.

Lemma matches_two_intro pat p1 p2 c1 c2 :
  Py.split "/" pat = [p1; p2] ->
  Py.count "/" c1 = 0 -> Py.count "/" c2 = 0 ->
  Glob.component p1 c1 = true -> Glob.component p2 c2 = true ->
  Glob.matches pat (c1 +:+ "/" +:+ c2) = true.
Proof.
  intros Hpat H1 H2 M1 M2. unfold Glob.matches. rewrite Hpat.
  change ("/" +:+ c2) with (String "/" c2).
  rewrite split_two_intro by done. simpl. by rewrite M1, M2.
Qed.

Lemma matches_two_parts pat p1 p2 p :
  Py.split "/" pat = [p1; p2] ->
  Glob.matches pat p = true ->
  exists c1 c2,
    Py.split "/" p = [c1; c2] /\ p = c1 +:+ "/" +:+ c2 /\
    Py.count "/" c2 = 0 /\
    Glob.wild p1 c1 = true /\ Glob.wild p2 c2 = true.
Proof.
  unfold Glob.matches. intros ->.
  destruct (Py.split "/" p) as [|c1 [|c2 [|c3 l]]] eqn:Hs; simpl; try done.
  - by rewrite andb_false_r.
  - rewrite andb_true_r. intros [H1 H2]%andb_true_iff.
    apply component_wild in H1, H2.
    exists c1, c2. split; [done|]. split; [by apply split_two|].
    split; [|done].
    rewrite split_partition in Hs by done.
    destruct (Py.partition "/" p) as [[u v]|]; [|done].
    injection Hs as -> Hs. pose proof (length_split "/" v) as Hl.
    rewrite Hs in Hl. apply split_singleton in Hs as ->; [|done].
    simpl in Hl. lia.
  - rewrite !andb_false_r. done.
Qed.

Lemma raw_name df :
  Glob.matches "niriss_ami_binary2_inflight/jw*uncal.fits" df = true ->
  exists m,
    df = "niriss_ami_binary2_inflight/jw" +:+ m +:+ "uncal.fits" /\
    Path.name df = "jw" +:+ m +:+ "uncal.fits" /\
    Py.count "/" m = 0.
Proof.
  intros H.
  apply (matches_two_parts _ "niriss_ami_binary2_inflight" "jw*uncal.fits")
    in H; [|reflexivity].
  destruct H as (c1 & c2 & Hs & -> & Hc2 & H1 & H2).
  unfold Path.name. rewrite Hs. cbn [List.last].
  wild_inv H1. wild_inv H2. exists m. split; [done|]. split; [done|].
  change (String "j" (String "w" (m +:+ "uncal.fits")))
    with ("jw" +:+ m +:+ "uncal.fits") in Hc2.
  rewrite !count_char_append in Hc2. lia.
Qed.

Lemma product_name new m :
  Py.count "/" new = 0 -> Py.count "/" m = 0 ->
  exists m',
    Py.replace "uncal" new ("jw" +:+ m +:+ "uncal.fits")
      = "jw" +:+ m' +:+ new +:+ ".fits" /\
    Py.count "/" m' = 0.
Proof.
  intros Hnew Hm. exists (Py.replace "uncal" new m). split.
  - assert ("jw" +:+ m +:+ "uncal.fits" = ("jw" +:+ m) +:+ "uncal" +:+ ".fits")
      as -> by (by rewrite !append_assoc).
    rewrite replace_around by done.
    change (Py.replace "uncal" new ".fits") with ".fits".
    assert (Py.replace "uncal" new ("jw" +:+ m)
            = "jw" +:+ Py.replace "uncal" new m) as ->; [|by rewrite !append_assoc].
    unfold Py.replace. change ("jw" +:+ m) with (String "j" (String "w" m)).
    cbn [Py.replace_at]. rewrite !startswith_cons.
    destruct (ascii_dec "u" "j") as [E|_]; [discriminate E|].
    destruct (ascii_dec "u" "w") as [E|_]; [discriminate E|]. done.
  - by apply count_char_replace_at.
Qed.

Lemma product_listed new m' :
  has_char "*" new = false ->
  Py.count "/" new = 0 -> Py.count "/" m' = 0 ->
  Glob.matches (Path.joinpath NIRISS.outdir ("jw*" +:+ new +:+ ".fits"))
    (Path.joinpath NIRISS.outdir ("jw" +:+ m' +:+ new +:+ ".fits")) = true.
Proof.
  intros Hstar Hnew Hm.
  change (Path.joinpath NIRISS.outdir ("jw" +:+ m' +:+ new +:+ ".fits"))
    with ("pipeline_calibrated_data" +:+ "/" +:+ "jw" +:+ m' +:+ new +:+ ".fits").
  change (Path.joinpath NIRISS.outdir ("jw*" +:+ new +:+ ".fits"))
    with ("pipeline_calibrated_data" +:+ String "/" ("jw*" +:+ new +:+ ".fits")).
  apply (matches_two_intro _ "pipeline_calibrated_data"
           ("jw*" +:+ new +:+ ".fits")).
  - apply split_two_intro; [done|].
    change ("jw*" +:+ new +:+ ".fits") with ("jw*" +:+ (new +:+ ".fits")).
    rewrite !count_char_append, Hnew. done.
  - done.
  - rewrite !count_char_append, Hnew, Hm. done.
  - done.
  - unfold Glob.component. apply andb_true_iff. split; [done|].
    change ("jw*" +:+ new +:+ ".fits")
      with ("jw" +:+ String "*" (new +:+ ".fits")).
    rewrite wild_prefix by done. apply wild_star_intro.
    rewrite <- (append_nil_r ".fits") at 1.
    rewrite <- (append_nil_r ".fits") at 2.
    rewrite <- !append_assoc.
    rewrite (wild_prefix (new +:+ ".fits") "" ""); [done|].
    clear -Hstar. induction new as [|c new IH]; [done|].
    cbn [has_char] in Hstar. apply orb_false_iff in Hstar as [Hc Hstar].
    rewrite append_cons. cbn [has_char]. by rewrite Hc, IH.
Qed.

End ProductsListed.

(** ** The runs of the stage loops *)

Section OtherFiles.

Lemma times_absent {X} `{EqDecision X} (x : X) (l : list X) :
  x ∉ l -> times x l = 0.
Proof.
  unfold times. induction l as [|y l IH]; intros H; [done|].
  apply not_elem_of_cons in H as [Hne Hl].
  rewrite filter_cons. destruct (decide (y = x)) as [->|]; [done|].
  by apply IH.
Qed.

Lemma times_app {X} `{EqDecision X} (x : X) (l1 l2 : list X) :
  times x (l1 ++ l2) = times x l1 + times x l2.
Proof. unfold times. by rewrite filter_app, length_app. Qed.

(** The Detector1 runs among the runs of the NIRISS loop. *)
Lemma times_niriss_detector1 (files : list string) f :
  NoDup files ->
  times (Detector1, f) (concat (niriss_runs <$> files))
    = if decide (f ∈ files) then 1 else 0.
Proof.
  induction files as [|g files IH]; intros Hnd.
  - by destruct (decide (f ∈ [])) as [H|H]; [inversion H|].
  - apply NoDup_cons in Hnd as [Hg Hnd]. specialize (IH Hnd).
    rewrite fmap_cons. cbn [concat]. rewrite times_app, IH.
    unfold niriss_runs, times. rewrite !filter_cons, filter_nil.
    destruct (decide ((Detector1, g) = (Detector1, f))) as [[= ->]|Hne].
    + destruct (decide (_ = _)) as [|_]; [done|].
      destruct (decide (_ = _)) as [|_]; [done|].
      destruct (decide (f ∈ files)); [done|].
      destruct (decide (f ∈ f :: files)) as [|Hn]; [done|].
      destruct Hn. by left.
    + destruct (decide (_ = _)) as [|_]; [done|].
      destruct (decide (_ = _)) as [|_]; [done|].
      destruct (decide (f ∈ files)) as [Hin|Hnin].
      * destruct (decide (f ∈ g :: files)) as [|Hn]; [done|].
        destruct Hn. by right.
      * destruct (decide (f ∈ g :: files)) as [Hin'|]; [|done].
        apply elem_of_cons in Hin' as [->|]; [|done]. by destruct Hne.
Qed.

(** No name the NIRISS notebook globs for its loop is a name the loop
    hands to Image2. *)
Lemma product_not_raw f x :
  Glob.matches "niriss_ami_binary2_inflight/jw*uncal.fits" f = true ->
  f <> Path.joinpath NIRISS.outdir x.
Proof.
  intros H. destruct (raw_name f H) as (m & -> & _).
  change (Path.joinpath NIRISS.outdir x)
    with ("pipeline_calibrated_data" +:+ "/" +:+ x).
  discriminate.
Qed.

Lemma niriss_runs_image2 files p :
  (Image2, p) ∈ concat (niriss_runs <$> files) ->
  exists x, p = Path.joinpath NIRISS.outdir x.
Proof.
  induction files as [|g files IH]; [by intros H; inversion H|].
  rewrite fmap_cons. cbn [concat]. intros [Hp|Hp]%elem_of_app; [|by apply IH].
  unfold niriss_runs in Hp.
  repeat (apply elem_of_cons in Hp as [Hp|Hp]); try by inversion Hp.
  - injection Hp as ->. by eexists.
  - injection Hp as ->. by eexists.
Qed.

End OtherFiles.

(** C2, as the code has it.  Every stage loop goes once through its
    list, in the order of the list: the runs made are those of the
    first files of the list, and of all of them when the loop returns.
    In the loops of the MRS notebook (calwebb_detector1,
    calwebb_spec2) the stage is run once on each file of the list and
    on no other file; the lists the cells glob have no repetition, so
    that, when a cell returns, each globbed file is run exactly once.
    In the loop of the NIRISS notebook each turn makes three runs:
    Detector1 on the file of the list, once, and Image2 twice, on the
    two products named after the file in the output directory.  These
    are not files of the list: Image2 is run on no name that the
    notebook globs for the loop.  The loops return when the names can
    be taken apart and the stage runs return. *)
Theorem stage_loops_once_per_file
  (ext : externals) (files : list string) (d : gmap string node) :
  once_per_file Detector1 files (MRS.detector1_loop ext files d) /\
  (forall hardcoded,
     once_per_file Spec2 files (for_ files (MRS.spec2_body ext hardcoded) d)) /\
  (let r := NIRISS.cell_pipelines ext files d in
   runs (trace_of r) `prefix_of` concat (niriss_runs <$> files) /\
   (returned (result_of r) ->
    runs (trace_of r) = concat (niriss_runs <$> files))) /\
  (stages_return ext ->
     (Forall detector1_name files ->
      returned (result_of (MRS.detector1_loop ext files d))) /\
     (forall hardcoded,
        Forall (fun f => Py.count "." f = 1) files ->
        returned (result_of (for_ files (MRS.spec2_body ext hardcoded) d))) /\
     returned (result_of (NIRISS.cell_pipelines ext files d))) /\
  (let globbed1 :=
     globbed "20210413_*_mirisim/det_images/*MIRIFUSHORT*fits" d ++
     globbed "20210413_*_mirisim/det_images/*MIRIFULONG*fits" d in
   once_per_file Detector1 globbed1 (MRS.cell_detector1 ext d) /\
   (returned (result_of (MRS.cell_detector1 ext d)) -> NoDup globbed1 ->
    forall f, times (Detector1, f) (runs (trace_of (MRS.cell_detector1 ext d)))
              = if decide (f ∈ globbed1) then 1 else 0)) /\
  (let globbed2 :=
     globbed "det_image_*_MIRIFUSHORT_*_rate.fits" d ++
     globbed "det_image_*_MIRIFULONG_*_rate.fits" d in
   once_per_file Spec2 globbed2 (MRS.cell_spec2 ext d) /\
   (returned (result_of (MRS.cell_spec2 ext d)) -> NoDup globbed2 ->
    forall f, times (Spec2, f) (runs (trace_of (MRS.cell_spec2 ext d)))
              = if decide (f ∈ globbed2) then 1 else 0)) /\
  (forall pat, NoDup (globbed pat d)) /\
  (let r := NIRISS.cell_pipelines ext files d in
   (returned (result_of r) -> NoDup files ->
    forall f, times (Detector1, f) (runs (trace_of r))
              = if decide (f ∈ files) then 1 else 0) /\
   (forall f,
      Glob.matches "niriss_ami_binary2_inflight/jw*uncal.fits" f = true ->
      times (Image2, f) (runs (trace_of r)) = 0)).
Proof.
  split; [apply detector1_loop_once|].
  split; [intros; apply spec2_loop_once|].
  split; [apply pipelines_loop_once|].
  split.
  { intros Hext. split; [by apply detector1_loop_returns|].
    split; [intros; by apply spec2_loop_returns|].
    by apply pipelines_loop_returns. }
  split.
  { cbv zeta. pose proof (cell_detector1_once ext d) as [P E].
    split; [done|]. intros Hr Hnd f. rewrite E by done.
    by apply times_fmap_pair. }
  split.
  { cbv zeta. pose proof (cell_spec2_once ext d) as [P E].
    split; [done|]. intros Hr Hnd f. rewrite E by done.
    by apply times_fmap_pair. }
  split; [intros pat; apply globbed_NoDup|].
  cbv zeta. destruct (pipelines_loop_once ext files d) as [P E]. split.
  - intros Hr Hnd f. rewrite E by done. by apply times_niriss_detector1.
  - intros f Hf. apply times_absent. intros Hin.
    assert ((Image2, f) ∈ concat (niriss_runs <$> files)) as Hall.
    { destruct P as [rest ->]. apply elem_of_app. by left. }
    apply niriss_runs_image2 in Hall as [x ->].
    by apply (product_not_raw _ x Hf).
Qed.

Lemma stage_loops_once_per_file_witness :
  let short :=
    "20210413_125354_mirisim/det_images/det_image_seq1_MIRIFUSHORT_12LONGexp1.fits" in
  let long :=
    "20210413_120546_mirisim/det_images/det_image_seq1_MIRIFULONG_34SHORTexp1.fits" in
  let first :=
    "niriss_ami_binary2_inflight/jw01093012001_03102_00001_nis_uncal.fits" in
  let second :=
    "niriss_ami_binary2_inflight/jw01093015001_03102_00001_nis_uncal.fits" in
  runs (trace_of (MRS.detector1_loop Sample.quiet [short; long] Sample.raw))
    = [(Detector1, short); (Detector1, long)] /\
  times (Detector1, short)
        (runs (trace_of (MRS.cell_detector1 Sample.quiet Sample.raw))) = 1 /\
  times (Detector1, second)
        (runs (trace_of (NIRISS.cell_pipelines Sample.quiet [first; second] ∅)))
    = 1 /\
  times (Image2, second)
        (runs (trace_of (NIRISS.cell_pipelines Sample.quiet [first; second] ∅)))
    = 0.
Proof.
  cbv zeta.
  destruct (stage_loops_once_per_file Sample.quiet
    ["20210413_125354_mirisim/det_images/det_image_seq1_MIRIFUSHORT_12LONGexp1.fits";
     "20210413_120546_mirisim/det_images/det_image_seq1_MIRIFULONG_34SHORTexp1.fits"]
    Sample.raw) as ([_ E] & _ & _ & L & [_ C] & _ & _).
  destruct (stage_loops_once_per_file Sample.quiet
    ["niriss_ami_binary2_inflight/jw01093012001_03102_00001_nis_uncal.fits";
     "niriss_ami_binary2_inflight/jw01093015001_03102_00001_nis_uncal.fits"]
    ∅) as (_ & _ & _ & _ & _ & _ & _ & N1 & N2).
  destruct (L sample_stages_return) as (L1 & _ & _).
  split; [|split; [|split]].
  - apply E, L1. repeat constructor; by vm_compute.
  - rewrite C.
    + by vm_compute.
    + by vm_compute.
    + assert (globbed "20210413_*_mirisim/det_images/*MIRIFUSHORT*fits" Sample.raw ++
              globbed "20210413_*_mirisim/det_images/*MIRIFULONG*fits" Sample.raw
              = ["20210413_125354_mirisim/det_images/det_image_seq1_MIRIFUSHORT_12LONGexp1.fits";
                 "20210413_120546_mirisim/det_images/det_image_seq1_MIRIFULONG_34SHORTexp1.fits"])
        as -> by (by vm_compute).
      apply NoDup_cons. split; [|apply NoDup_singleton].
      intros H%list_elem_of_singleton. discriminate H.
  - rewrite N1.
    + by vm_compute.
    + by vm_compute.
    + apply NoDup_cons. split; [|apply NoDup_singleton].
      intros H%list_elem_of_singleton. discriminate H.
  - apply N2. by vm_compute.
Defined.

(** C2 as stated fails for the loop of the NIRISS notebook.  On the
    two raw exposures the notebook globs after its download, the loop
    returns having made six runs: Image2 is run four times, on files
    that are not in the list, and on neither file of the list. *)
Lemma image2_runs_outside_the_list :
  let d := disk_of (NIRISS.cell_download Sample.quiet ∅) in
  let first :=
    "niriss_ami_binary2_inflight/jw01093012001_03102_00001_nis_uncal.fits" in
  let second :=
    "niriss_ami_binary2_inflight/jw01093015001_03102_00001_nis_uncal.fits" in
  let r := NIRISS.cell_pipelines Sample.quiet [first; second] d in
  result_of (NIRISS.cell_datafiles d) = Py.Ok [first; second] /\
  result_of r = Py.Ok tt /\
  runs (trace_of r) =
    [(Detector1, first);
     (Image2, "pipeline_calibrated_data/jw01093012001_03102_00001_nis_rate.fits");
     (Image2, "pipeline_calibrated_data/jw01093012001_03102_00001_nis_rateints.fits");
     (Detector1, second);
     (Image2, "pipeline_calibrated_data/jw01093015001_03102_00001_nis_rate.fits");
     (Image2, "pipeline_calibrated_data/jw01093015001_03102_00001_nis_rateints.fits")] /\
  times (Image2, first) (runs (trace_of r)) = 0 /\
  "pipeline_calibrated_data/jw01093012001_03102_00001_nis_rate.fits"
    ∉ [first; second].
Proof.
  cbv zeta. repeat split; try by vm_compute.
  intros H. repeat (apply elem_of_cons in H as [H|H]; [discriminate H|]).
  by inversion H.
Qed.

(** X13. The names the NIRISS loop hands to Image2 are names the
    listing cell looks for.  For every raw exposure that the notebook
    globs as [niriss_ami_binary2_inflight/jw*uncal.fits], whatever
    stands for the [*], the product name derived with
    [replace('uncal', 'rate')] is met by the pattern [jw*rate.fits] of
    the output directory, and the one derived with
    [replace('uncal', 'rateints')] by [jw*rateints.fits]; both names
    lie directly in the output directory. *)
Theorem products_are_listed (df : string) :
  Glob.matches "niriss_ami_binary2_inflight/jw*uncal.fits" df = true ->
  let rate :=
    Path.joinpath NIRISS.outdir (Py.replace "uncal" "rate" (Path.name df)) in
  let rateints :=
    Path.joinpath NIRISS.outdir (Py.replace "uncal" "rateints" (Path.name df)) in
  niriss_runs df = [(Detector1, df); (Image2, rate); (Image2, rateints)] /\
  Glob.matches (Path.joinpath NIRISS.outdir "jw*rate.fits") rate = true /\
  Glob.matches (Path.joinpath NIRISS.outdir "jw*rateints.fits") rateints = true /\
  Py.count "/" rate = 1 /\ Py.count "/" rateints = 1.
Proof.
  intros H. cbv zeta. split; [done|].
  destruct (raw_name df H) as (m & _ & -> & Hm).
  destruct (product_name "rate" m eq_refl Hm) as (m1 & -> & Hm1).
  destruct (product_name "rateints" m eq_refl Hm) as (m2 & -> & Hm2).
  split; [exact (product_listed "rate" m1 eq_refl eq_refl Hm1)|].
  split; [exact (product_listed "rateints" m2 eq_refl eq_refl Hm2)|].
  change (Path.joinpath NIRISS.outdir ("jw" +:+ m1 +:+ "rate" +:+ ".fits"))
    with ("pipeline_calibrated_data/jw" +:+ m1 +:+ "rate" +:+ ".fits").
  change (Path.joinpath NIRISS.outdir ("jw" +:+ m2 +:+ "rateints" +:+ ".fits"))
    with ("pipeline_calibrated_data/jw" +:+ m2 +:+ "rateints" +:+ ".fits").
  rewrite !count_char_append, Hm1, Hm2. done.
Qed.

Lemma products_are_listed_witness :
  Glob.matches (Path.joinpath NIRISS.outdir "jw*rate.fits")
    (Path.joinpath NIRISS.outdir
       (Py.replace "uncal" "rate"
          (Path.name "niriss_ami_binary2_inflight/jwuncal_1uncal.fits")))
  = true.
Proof.
  destruct (products_are_listed
              "niriss_ami_binary2_inflight/jwuncal_1uncal.fits" eq_refl)
    as (_ & H & _).
  exact H.
Defined.

(** ** A header fix that stops half way *)

Section HeaderFixStops.

Lemma bind_assoc {A B C} (m : M A) (k : A -> M B) (k' : B -> M C) d :
  bind (bind m k) k' d = bind m (fun a => bind (k a) k') d.
Proof.
  unfold bind. destruct (m d) as [[[a|e] d1] t1]; [|done].
  destruct (k a d1) as [[[b|e] d2] t2]; [|done].
  destruct (k' b d2) as [[r d3] t3]. by rewrite app_assoc.
Qed.

Lemma bind_ext {A B} (m : M A) (k k' : A -> M B) d :
  (forall a d', k a d' = k' a d') -> bind m k d = bind m k' d.
Proof.
  intros H. unfold bind. destruct (m d) as [[[a|e] d1] t1]; [|done].
  by rewrite H.
Qed.

Lemma for_app {A} (l1 l2 : list A) (body : A -> M unit) d :
  for_ (l1 ++ l2) body d = bind (for_ l1 body) (fun _ => for_ l2 body) d.
Proof.
  revert d. induction l1 as [|x l1 IH]; intros d.
  - rewrite app_nil_l. cbn [for_]. by rewrite bind_ret_l.
  - rewrite <- app_comm_cons. cbn [for_]. rewrite bind_assoc.
    apply bind_ext. intros _ d'. apply IH.
Qed.

End HeaderFixStops.

(** ** The header-fix step on any disk *)

Section HeaderFixAnyDisk.

Context (targra targdec : Q).

Lemma writes_to_app t1 t2 : writes_to (t1 ++ t2) = writes_to t1 ++ writes_to t2.
Proof. unfold writes_to. by rewrite omap_app. Qed.

(** One turn of the loop writes at most the copy of its file, and
    writes it when it returns. *)
Lemma header_fix_body_writes f d :
  let r := MRS.header_fix_body targra targdec f d in
  writes_to (trace_of r) `prefix_of` [(fixed_name f, true)] /\
  (returned (result_of r) -> writes_to (trace_of r) = [(fixed_name f, true)]).
Proof.
  cbv zeta. rewrite header_fix_body_run.
  pose proof (unpack2_split "." f ltac:(done)) as U.
  destruct (Py.unpack2 (Py.split "." f)) as [[base rest]|e].
  - destruct U as [_ U]. cbv zeta.
    assert (MRS.fix_name (base, rest).1 (base, rest).2 = fixed_name f) as ->.
    { unfold fixed_name. by rewrite U. }
    destruct (d !! Path.norm f) as [[[b|hdus]|]|].
    + split; [apply prefix_nil|done].
    + destruct (ext_index "SCI" hdus).
      * split; [done|done].
      * split; [apply prefix_nil|done].
    + split; [apply prefix_nil|done].
    + split; [apply prefix_nil|done].
  - split; [apply prefix_nil|done].
Qed.

(** One turn of the loop changes at most the name of the copy. *)
Lemma header_fix_body_frame f d k :
  (Py.count "." f = 1 -> k <> Path.norm (fixed_name f)) ->
  disk_of (MRS.header_fix_body targra targdec f d) !! k = d !! k.
Proof.
  intros Hk. rewrite header_fix_body_run.
  pose proof (unpack2_split "." f ltac:(done)) as U.
  destruct (Py.unpack2 (Py.split "." f)) as [[base rest]|e]; [|done].
  destruct U as [Hdot U]. cbv zeta.
  assert (MRS.fix_name (base, rest).1 (base, rest).2 = fixed_name f) as ->.
  { unfold fixed_name. by rewrite U. }
  destruct (d !! Path.norm f) as [[[b|hdus]|]|]; try done.
  destruct (ext_index "SCI" hdus); [|done].
  unfold disk_of. cbn [fst snd]. rewrite lookup_insert_ne; [done|].
  intros E. by apply Hk.
Qed.

Lemma header_fix_loop_frame files : forall d k,
  (forall f, f ∈ files -> Py.count "." f = 1 -> k <> Path.norm (fixed_name f)) ->
  disk_of (for_ files (MRS.header_fix_body targra targdec) d) !! k = d !! k.
Proof.
  induction files as [|f files IH]; intros d k Hk; [done|].
  cbn [for_]. rewrite disk_bind.
  destruct (result_of (MRS.header_fix_body targra targdec f d)) as [[]|e].
  - rewrite IH.
    + apply header_fix_body_frame. apply Hk. by left.
    + intros g Hg. apply Hk. by right.
  - apply header_fix_body_frame. apply Hk. by left.
Qed.

Lemma header_fix_loop_writes files d :
  let r := for_ files (MRS.header_fix_body targra targdec) d in
  writes_to (trace_of r) `prefix_of` (fun f => (fixed_name f, true)) <$> files /\
  (returned (result_of r) ->
   writes_to (trace_of r) = (fun f => (fixed_name f, true)) <$> files).
Proof.
  cbv zeta. rewrite <- concat_singletons.
  apply (for_reads writes_to (fun f => [(fixed_name f, true)]) writes_to_app).
  - intros x d'. apply header_fix_body_writes.
  - intros x d'. apply header_fix_body_writes.
Qed.

End HeaderFixAnyDisk.

Section HeaderFixCellAnyDisk.

Context (ext : externals).

(** The cell leaves alone every name its pattern meets. *)
Lemma cell_header_fix_inputs radec (d : gmap string node) k :
  Glob.matches "det_image_*_cal.fits" k = true ->
  disk_of (MRS.cell_header_fix radec d) !! k = d !! k.
Proof.
  intros Hk. rewrite cell_header_fix_run. apply header_fix_loop_frame.
  intros f Hf Hdot. apply globbed_matches in Hf as [Hm _].
  destruct (cal_name_parts f Hm Hdot) as (p & _ & _ & _ & _ & ->).
  intros ->. by apply (fixed_name_not_input f (fixed_name f)).
Qed.

(** The copies of the files the loop can fix, when they come first. *)
Lemma cell_header_fix_good radec (d : gmap string node) good rest :
  globbed "det_image_*_cal.fits" d = good ++ rest ->
  Forall (cal_input d) good ->
  let r := MRS.cell_header_fix radec d in
  (fun f => (fixed_name f, true)) <$> good `prefix_of` writes_to (trace_of r) /\
  (forall f, f ∈ good ->
     exists hdus,
       d !! f = Some (File (Fits hdus)) /\
       disk_of r !! fixed_name f
         = Some (File (Fits (point_source radec.1 radec.2 hdus)))) /\
  (rest = [] -> result_of r = Py.Ok tt).
Proof.
  intros Hfiles Hgood. cbv zeta. rewrite cell_header_fix_run, Hfiles.
  pose proof (globbed_NoDup "det_image_*_cal.fits" d) as Hnd.
  rewrite Hfiles in Hnd.
  assert (forall g, g ∈ rest -> Glob.matches "det_image_*_cal.fits" g = true)
    as Hrest.
  { intros g Hg. apply (globbed_matches _ d). rewrite Hfiles.
    apply elem_of_app. by right. }
  destruct (header_fix_loop radec.1 radec.2 good d Hgood)
    as (Hr & Hframe & Hout & Hw).
  cbv zeta in Hr, Hframe, Hout, Hw.
  set (body := MRS.header_fix_body radec.1 radec.2) in *.
  destruct (for_ good body d) as [[rg dg] tg] eqn:Eg.
  unfold result_of, disk_of, trace_of in Hr, Hframe, Hout, Hw.
  cbn [fst snd] in Hr, Hframe, Hout, Hw. subst rg.
  rewrite for_app, (bind_ok _ _ d tt dg tg Eg).
  unfold result_of at 1, disk_of at 1, trace_of at 1. cbn [fst snd].
  split; [|split].
  - rewrite writes_to_app, Hw. by apply prefix_app_r.
  - intros f Hf. destruct (Hout f Hf) as (hdus & Hd & Hcopy).
    exists hdus. split; [done|]. rewrite <- Hcopy.
    apply header_fix_loop_frame. intros g Hg Hgdot.
    rewrite Forall_forall in Hgood. destruct (Hgood f Hf) as (Hfm & Hfdot & _).
    destruct (cal_name_parts g (Hrest g Hg) Hgdot) as (p & _ & _ & _ & _ & ->).
    intros E. apply fixed_name_inj in E; [|done|done|by apply Hrest|done].
    subst g. apply NoDup_app in Hnd as (_ & Hdisj & _). by apply (Hdisj f).
  - intros ->. cbn [for_]. done.
Qed.

(** The coordinates the header fix writes are those the detection
    ends on; when the detection raises, the header fix is not run. *)
Lemma detect_then_fix_run (d : gmap string node) :
  detect_then_fix ext d =
    match brightest ext MRS.s_cube_file d with
    | Py.Ok radec =>
        (result_of (MRS.cell_header_fix radec d),
         disk_of (MRS.cell_header_fix radec d),
         {| what := Detect MRS.s_cube_file; failed := None |}
           :: trace_of (MRS.cell_header_fix radec d))
    | Py.Err e =>
        (Py.Err e, d,
         [{| what := Detect MRS.s_cube_file; failed := Some e |}])
    end.
Proof.
  unfold detect_then_fix, bind, MRS.cell_detect, detect.
  destruct (brightest ext MRS.s_cube_file d) as [radec|e]; [|done].
  by destruct (MRS.cell_header_fix radec d) as [[r d'] t].
Qed.

Lemma mrs_notebook_detect_then_fix (d : gmap string node) :
  MRS.notebook ext d =
    (MRS.cell_download ext ;;
     MRS.cell_untar ext ;;
     MRS.cell_detector1 ext ;;
     MRS.cell_spec2 ext ;;
     detect_then_fix ext ;;
     asnallfile <- MRS.cell_asn ext ;;
     MRS.cell_spec3 ext asnallfile)%nb d.
Proof.
  unfold MRS.notebook, detect_then_fix.
  do 4 (apply bind_ext; intros _ ?).
  by rewrite bind_assoc.
Qed.

End HeaderFixCellAnyDisk.

Section HeaderFixStopsAnywhere.

(** A turn of the loop that does not return has written nothing. *)
Lemma header_fix_body_stops targra targdec f d :
  ~ returned (result_of (MRS.header_fix_body targra targdec f d)) ->
  writes_to (trace_of (MRS.header_fix_body targra targdec f d)) = [].
Proof.
  rewrite header_fix_body_run.
  destruct (Py.unpack2 (Py.split "." f)) as [[base rest]|e]; [|done].
  cbv zeta. destruct (d !! Path.norm f) as [[[b|hdus]|]|]; try done.
  destruct (ext_index "SCI" hdus); [|done].
  intros H. by destruct H.
Qed.

(** A turn of the loop on a name its pattern meets returns only if
    the file can be worked on. *)
Lemma header_fix_body_returned targra targdec f d :
  Glob.matches "det_image_*_cal.fits" f = true ->
  returned (result_of (MRS.header_fix_body targra targdec f d)) ->
  cal_input d f.
Proof.
  intros Hm. rewrite header_fix_body_run.
  pose proof (unpack2_split "." f ltac:(done)) as U.
  destruct (Py.unpack2 (Py.split "." f)) as [[base rest]|e]; [|done].
  destruct U as [Hdot _]. cbv zeta.
  destruct (cal_name_parts f Hm Hdot) as (p & _ & _ & _ & -> & _).
  destruct (d !! f) as [[[b|hdus]|]|] eqn:Hd; try done.
  destruct (ext_index "SCI" hdus) as [i|] eqn:Hi; [|done].
  intros _. split; [done|]. split; [done|].
  exists hdus. split; [done|]. by exists i.
Qed.

(** The cell on a list whose first files can be fixed and whose next
    file cannot: it does not return, and has written the copies of the
    first files and nothing else. *)
Lemma cell_header_fix_stops radec (d : gmap string node) good bad rest :
  globbed "det_image_*_cal.fits" d = good ++ bad :: rest ->
  Forall (cal_input d) good ->
  ~ cal_input d bad ->
  let r := MRS.cell_header_fix radec d in
  ~ returned (result_of r) /\
  writes_to (trace_of r) = (fun f => (fixed_name f, true)) <$> good.
Proof.
  intros Hfiles Hgood Hbad. cbv zeta. rewrite cell_header_fix_run, Hfiles.
  assert (Glob.matches "det_image_*_cal.fits" bad = true) as Hm.
  { apply (globbed_matches _ d). rewrite Hfiles.
    apply elem_of_app. right. by left. }
  destruct (header_fix_loop radec.1 radec.2 good d Hgood)
    as (Hr & Hframe & _ & Hw).
  cbv zeta in Hr, Hframe, Hw.
  set (body := MRS.header_fix_body radec.1 radec.2) in *.
  destruct (for_ good body d) as [[rg dg] tg] eqn:Eg.
  unfold result_of, disk_of, trace_of in Hr, Hframe, Hw.
  cbn [fst snd] in Hr, Hframe, Hw. subst rg.
  rewrite for_app, (bind_ok _ _ d tt dg tg Eg). cbn [for_].
  assert (~ returned (result_of (body bad dg))) as Hstop.
  { intros Hret. apply Hbad.
    apply (header_fix_body_returned radec.1 radec.2 bad dg Hm) in Hret
      as (_ & Hdot & hdus & Hd & Hsci).
    split; [done|]. split; [done|]. exists hdus. split; [|done].
    rewrite <- Hd. symmetry. apply Hframe. intros Hin.
    apply list_elem_of_fmap in Hin as (f & Hfb & Hf).
    rewrite Forall_forall in Hgood. destruct (Hgood f Hf) as (Hfm & Hfdot & _).
    by apply (fixed_name_not_input f bad). }
  subst body. split.
  - unfold result_of at 1. cbn [fst]. by apply stops_bind_l.
  - unfold trace_of at 1. cbn [snd].
    rewrite writes_to_app, Hw, trace_bind.
    destruct (result_of (MRS.header_fix_body radec.1 radec.2 bad dg))
      as [[]|e] eqn:Hres; [by destruct Hstop|].
    rewrite app_nil_r, (header_fix_body_stops radec.1 radec.2 bad dg).
    + by rewrite app_nil_r.
    + by rewrite Hres.
Qed.

End HeaderFixStopsAnywhere.

(** C9, as the code has it.  The header-fix step never touches its
    inputs: whatever is on the disk and however the cell ends, every
    name its pattern [det_image_*_cal.fits] meets holds afterwards what
    it held before.  What the cell writes, it writes with [writeto] and
    [overwrite=True], under the names [<base>_fix.<extension>] of
    globbed files, in the order of the list and at most once each.  It
    does not write a copy of every globbed file: the files at the head
    of the list that can be fixed (one dot in the name, header data
    units with an extension called [SCI], no directory under the name
    of the copy) have their copies on the disk when the cell ends, with
    [SRCTYPE] set to [POINT] in the [SCI] header and [TARG_RA] and
    [TARG_DEC] set in the primary header; the cell returns when all
    can be fixed, and stops at the first that cannot.  In the notebook
    the coordinates are those the source detection ends on, and the
    header fix is not run when the detection raises. *)
Theorem header_fix_leaves_inputs
  (ext : externals) (radec : Q * Q) (d : gmap string node) :
  let r := MRS.cell_header_fix radec d in
  let files := globbed "det_image_*_cal.fits" d in
  (forall k, Glob.matches "det_image_*_cal.fits" k = true ->
             disk_of r !! k = d !! k) /\
  writes_to (trace_of r) `prefix_of` (fun f => (fixed_name f, true)) <$> files /\
  (forall good rest,
     files = good ++ rest -> Forall (fixable d) good ->
     (fun f => (fixed_name f, true)) <$> good `prefix_of` writes_to (trace_of r) /\
     (forall f, f ∈ good ->
        exists base extension hdus',
          Py.partition "." f = Some (base, extension) /\
          fixed_name f = base +:+ "_fix." +:+ extension /\
          disk_of r !! (base +:+ "_fix." +:+ extension)
            = Some (File (Fits hdus')) /\
          card_of hdus' "SCI" "SRCTYPE" = Some (HStr "POINT") /\
          card_at hdus' 0 "TARG_RA" = Some (HNum radec.1) /\
          card_at hdus' 0 "TARG_DEC" = Some (HNum radec.2)) /\
     (rest = [] -> result_of r = Py.Ok tt)) /\
  (forall good bad rest,
     files = good ++ bad :: rest -> Forall (fixable d) good ->
     ~ cal_input d bad ->
     ~ returned (result_of r) /\
     writes_to (trace_of r) = (fun f => (fixed_name f, true)) <$> good) /\
  detect_then_fix ext d =
    match brightest ext MRS.s_cube_file d with
    | Py.Ok found =>
        (result_of (MRS.cell_header_fix found d),
         disk_of (MRS.cell_header_fix found d),
         {| what := Detect MRS.s_cube_file; failed := None |}
           :: trace_of (MRS.cell_header_fix found d))
    | Py.Err e =>
        (Py.Err e, d,
         [{| what := Detect MRS.s_cube_file; failed := Some e |}])
    end /\
  MRS.notebook ext d =
    (MRS.cell_download ext ;;
     MRS.cell_untar ext ;;
     MRS.cell_detector1 ext ;;
     MRS.cell_spec2 ext ;;
     detect_then_fix ext ;;
     asnallfile <- MRS.cell_asn ext ;;
     MRS.cell_spec3 ext asnallfile)%nb d.
Proof.
  cbv zeta.
  split; [intros k Hk; by apply cell_header_fix_inputs|].
  split.
  { rewrite cell_header_fix_run. apply header_fix_loop_writes. }
  split; [|split;
    [|split; [apply detect_then_fix_run|apply mrs_notebook_detect_then_fix]]].
  2: { intros good bad rest Hfiles Hfix Hbad.
       apply (cell_header_fix_stops radec d good bad rest Hfiles); [|done].
       eapply Forall_impl; [exact Hfix|]. by intros f [Hf _]. }
  intros good rest Hfiles Hfix.
  assert (Forall (cal_input d) good) as Hgood.
  { eapply Forall_impl; [exact Hfix|]. by intros f [Hf _]. }
  destruct (cell_header_fix_good radec d good rest Hfiles Hgood)
    as (Hw & Hout & Hr).
  split; [exact Hw|]. split; [|exact Hr].
  intros f Hf. rewrite Forall_forall in Hgood.
  destruct (Hgood f Hf) as (Hm & Hdot & hdus & Hd & Hsci).
  destruct (cal_name_parts f Hm Hdot) as (p & Hp & Hpart & Hname & _).
  destruct (Hout f Hf) as (hdus0 & Hd0 & Hcopy).
  rewrite Hd in Hd0. injection Hd0 as <-.
  destruct (point_source_cards radec.1 radec.2 hdus Hsci) as (C1 & C2 & C3).
  exists p, "fits", (point_source radec.1 radec.2 hdus).
  assert (p +:+ "_fix." +:+ "fits" = fixed_name f) as E by by rewrite Hname.
  rewrite E. by repeat split.
Qed.

Lemma header_fix_leaves_inputs_witness :
  let r := MRS.cell_header_fix (Qmake 45 1, Qmake (-30) 1) Sample.calibrated in
  let d : gmap string node :=
    {["det_image_a_cal.fits" := File Sample.exposure;
      "det_image_b_cal.fits" := File (Fits [Sample.primary])]} in
  result_of r = Py.Ok tt /\
  disk_of r !! "det_image_seq1_MIRIFUSHORT_12LONGexp1125354_cal.fits"
    = Some (File Sample.exposure) /\
  is_Some (disk_of r !! "det_image_seq1_MIRIFUSHORT_12LONGexp1125354_cal_fix.fits") /\
  writes_to (trace_of (MRS.cell_header_fix (Qmake 45 1, Qmake (-30) 1) d))
    = [("det_image_a_cal_fix.fits", true)].
Proof.
  assert (globbed "det_image_*_cal.fits" Sample.calibrated =
            ["det_image_seq1_MIRIFUSHORT_12LONGexp1125354_cal.fits";
             "det_image_seq1_MIRIFULONG_34SHORTexp1120546_cal.fits"] ++ [])
    as Hglob by (by vm_compute).
  assert (forall f,
            f ∈ ["det_image_seq1_MIRIFUSHORT_12LONGexp1125354_cal.fits";
                 "det_image_seq1_MIRIFULONG_34SHORTexp1120546_cal.fits"] ->
            fixable Sample.calibrated f) as Hfix.
  { intros f Hf.
    assert (f = "det_image_seq1_MIRIFUSHORT_12LONGexp1125354_cal.fits" \/
            f = "det_image_seq1_MIRIFULONG_34SHORTexp1120546_cal.fits") as [->| ->].
    { apply elem_of_cons in Hf as [->|Hf]; [by left|].
      apply list_elem_of_singleton in Hf. by right. }
    - split; [|vm_compute; discriminate].
      split; [reflexivity|]. split; [reflexivity|].
      exists [Sample.primary; Sample.science]. split; [reflexivity|].
      exists 1. reflexivity.
    - split; [|vm_compute; discriminate].
      split; [reflexivity|]. split; [reflexivity|].
      exists [Sample.primary; Sample.science]. split; [reflexivity|].
      exists 1. reflexivity. }
  destruct (header_fix_leaves_inputs Sample.quiet (Qmake 45 1, Qmake (-30) 1)
              Sample.calibrated) as (Hsame & _ & Hgood & _).
  destruct (Hgood _ _ Hglob) as (_ & Hcopies & Hr).
  - by apply Forall_forall.
  - cbv zeta. split; [by apply Hr|]. split; [|split].
    + rewrite (Hsame "det_image_seq1_MIRIFUSHORT_12LONGexp1125354_cal.fits" eq_refl).
      reflexivity.
    + destruct (Hcopies "det_image_seq1_MIRIFUSHORT_12LONGexp1125354_cal.fits")
        as (base & extension & hdus' & Hpart & _ & Hfix' & _); [by left|].
      vm_compute in Hpart. injection Hpart as <- <-.
      by exists (File (Fits hdus')).
    + set (d := ({["det_image_a_cal.fits" := File Sample.exposure;
                   "det_image_b_cal.fits" := File (Fits [Sample.primary])]}
                 : gmap string node)).
      assert (globbed "det_image_*_cal.fits" d =
                ["det_image_a_cal.fits"] ++ "det_image_b_cal.fits" :: [])
        as Hglob' by (by vm_compute).
      destruct (header_fix_leaves_inputs Sample.quiet
                  (Qmake 45 1, Qmake (-30) 1) d) as (_ & _ & _ & Hstop & _).
      destruct (Hstop _ _ _ Hglob') as [_ ->].
      * apply Forall_singleton. split; [|vm_compute; discriminate].
        split; [reflexivity|]. split; [reflexivity|].
        exists [Sample.primary; Sample.science]. split; [reflexivity|].
        exists 1. reflexivity.
      * intros (_ & _ & hdus & Hd & Hsci).
        vm_compute in Hd. injection Hd as <-. vm_compute in Hsci.
        by destruct Hsci.
      * reflexivity.
Defined.

(** C9 as stated fails: a globbed file with two dots in its name gets
    no copy.  The cell ends on [ValueError] at its name and has
    written nothing. *)
Lemma header_fix_needs_one_dot :
  let d : gmap string node :=
    {["det_image_a.b_cal.fits" := File Sample.exposure]} in
  let r := MRS.cell_header_fix (Qmake 45 1, Qmake (-30) 1) d in
  globbed "det_image_*_cal.fits" d = ["det_image_a.b_cal.fits"] /\
  result_of r = Py.Err Py.ValueError /\
  writes_to (trace_of r) = [] /\
  disk_of r = d.
Proof. cbv zeta. repeat split; by vm_compute. Qed.


(** X14. The header-fix loop stops at the first file it cannot fix and
    keeps what it has done.  When the files before it can be fixed
    (one dot in the name, header data units with an extension called
    [SCI], no directory under the name of the copy) and the next one,
    a [det_image_*_cal.fits] file with one dot, has no extension called
    [SCI], in whatever case the name is written, the loop ends on
    [KeyError]: the copies of the files before it have been written
    and are on disk, no copy of the file without [SCI] nor of any file
    after it is written, and everything else on the disk is as it
    was. *)
Theorem header_fix_stops
  (radec : Q * Q) (good rest : list string) (bad : string)
  (d : gmap string node) :
  Forall (fixable d) good ->
  Glob.matches "det_image_*_cal.fits" bad = true ->
  Py.count "." bad = 1 ->
  (exists hdus, d !! bad = Some (File (Fits hdus)) /\
                ext_index "SCI" hdus = None) ->
  let r := for_ (good ++ bad :: rest)
                (MRS.header_fix_body radec.1 radec.2) d in
  result_of r = Py.Err Py.KeyError /\
  writes_to (trace_of r) = (fun f => (fixed_name f, true)) <$> good /\
  (forall f, f ∈ good -> is_Some (disk_of r !! fixed_name f)) /\
  (forall k, k ∉ fixed_name <$> good -> disk_of r !! k = d !! k).
Proof.
  intros Hfix Hm Hdot (hdus & Hd & Hsci). cbv zeta.
  assert (Forall (cal_input d) good) as Hgood.
  { eapply Forall_impl; [exact Hfix|]. by intros f [Hf _]. }
  destruct (header_fix_loop radec.1 radec.2 good d Hgood)
    as (Hr & Hframe & Hout & Hw).
  cbv zeta in Hr, Hframe, Hout, Hw.
  set (g := for_ good (MRS.header_fix_body radec.1 radec.2) d) in *.
  assert (disk_of g !! bad = d !! bad) as Hbad.
  { apply Hframe. intros Hin.
    apply list_elem_of_fmap in Hin as (f & Hfb & Hf).
    rewrite Forall_forall in Hgood.
    destruct (Hgood f Hf) as (Hfm & Hfdot & _).
    by apply (fixed_name_not_input f bad). }
  destruct (cal_name_parts bad Hm Hdot) as (p & _ & Hpart & _ & Hnorm & _).
  assert (MRS.header_fix_body radec.1 radec.2 bad (disk_of g) =
            (Py.Err Py.KeyError, disk_of g,
             [printed (fixed_name bad);
              {| what := FitsOpen bad; failed := None |}])) as Hbody.
  { rewrite header_fix_body_run.
    pose proof (unpack2_split "." bad ltac:(done)) as U.
    destruct (Py.unpack2 (Py.split "." bad)) as [[base ext]|e];
      [destruct U as [_ U]|destruct U as [_ U]; contradiction].
    cbv zeta. rewrite Hnorm, Hbad, Hd, Hsci.
    unfold fixed_name. by rewrite U. }
  assert (for_ (good ++ bad :: rest) (MRS.header_fix_body radec.1 radec.2) d =
            (Py.Err Py.KeyError, disk_of g,
             trace_of g ++
             [printed (fixed_name bad);
              {| what := FitsOpen bad; failed := None |}])) as ->.
  { rewrite for_app. fold g.
    destruct g as [[rg dg] tg] eqn:Eg.
    unfold result_of in Hr. cbn [fst] in Hr. subst rg.
    unfold disk_of, trace_of in *. cbn [fst snd] in *.
    apply (bind_run _ _ d tt dg tg); [by rewrite <- Eg|].
    cbn [for_]. by apply bind_err. }
  split; [reflexivity|]. split.
  { change (trace_of (Py.Err Py.KeyError, disk_of g, ?t)) with t.
    unfold writes_to in *. rewrite omap_app, Hw. cbn [omap list_omap what].
    by rewrite app_nil_r. }
  change (disk_of (Py.Err Py.KeyError, disk_of g, ?t)) with (disk_of g).
  split; [|exact Hframe].
  intros f Hf. destruct (Hout f Hf) as (h & _ & ->). by eexists.
Qed.

Lemma header_fix_stops_witness :
  let plain : content := Fits [Sample.primary] in
  let d : gmap string node :=
    {["det_image_a_cal.fits" := File Sample.exposure;
      "det_image_b_cal.fits" := File plain;
      "det_image_c_cal.fits" := File Sample.exposure]} in
  let r := for_ ["det_image_a_cal.fits"; "det_image_b_cal.fits";
                 "det_image_c_cal.fits"]
                (MRS.header_fix_body (Qmake 45 1) (Qmake (-30) 1)) d in
  result_of r = Py.Err Py.KeyError /\
  writes_to (trace_of r) = [("det_image_a_cal_fix.fits", true)].
Proof.
  cbv zeta.
  destruct (header_fix_stops (Qmake 45 1, Qmake (-30) 1)
              ["det_image_a_cal.fits"] ["det_image_c_cal.fits"]
              "det_image_b_cal.fits"
              {["det_image_a_cal.fits" := File Sample.exposure;
                "det_image_b_cal.fits" := File (Fits [Sample.primary]);
                "det_image_c_cal.fits" := File Sample.exposure]})
    as (Hr & Hw & _).
  - apply Forall_singleton. split; [|vm_compute; discriminate].
    split; [reflexivity|]. split; [reflexivity|].
    exists [Sample.primary; Sample.science]. split; [reflexivity|].
    exists 1. reflexivity.
  - by vm_compute.
  - by vm_compute.
  - exists [Sample.primary]. split; by vm_compute.
  - split; [exact Hr|]. etrans; [exact Hw|]. by vm_compute.
Defined.

(** ** The fringe fits of the notebook *)

Section Yields.

Context {X : Type} (read : list entry -> list X).
Context (read_app : forall t1 t2, read (t1 ++ t2) = read t1 ++ read t2).

Lemma yields_bind {A B} l1 l2 (m : M A) (k : A -> M B) :
  yields read l1 m -> (forall a, yields read l2 (k a)) ->
  yields read (l1 ++ l2) (bind m k).
Proof.
  intros Hm Hk d. destruct (Hm d) as [P1 E1].
  rewrite trace_bind, result_bind, read_app.
  destruct (result_of (m d)) as [a|e].
  - destruct (Hk a (disk_of (m d))) as [P2 E2]. rewrite E1 by done.
    split; [by apply prefix_app|]. intros H. by rewrite E2.
  - rewrite (read_nil read read_app), app_nil_r.
    split; [by apply prefix_app_r|done].
Qed.

Lemma yields_quiet {A} (m : M A) :
  (forall d, read (trace_of (m d)) = []) -> yields read [] m.
Proof. intros H d. by rewrite H. Qed.

Lemma yields_skip {A B} l (m : M A) (k : A -> M B) :
  (forall d, read (trace_of (m d)) = []) -> (forall a, yields read l (k a)) ->
  yields read l (bind m k).
Proof.
  intros Hm Hk. apply (yields_bind [] l); [by apply yields_quiet|done].
Qed.

Lemma yields_then {A B} l (m : M A) (k : A -> M B) :
  yields read l m -> (forall a d, read (trace_of (k a d)) = []) ->
  yields read l (bind m k).
Proof.
  intros Hm Hk. rewrite <- (app_nil_r l).
  apply yields_bind; [done|]. intros a. apply yields_quiet, Hk.
Qed.

Lemma yields_raise {A} l e : yields read l (@raise A e).
Proof.
  intros d. unfold raise, trace_of, result_of. cbn [fst snd].
  rewrite (read_nil read read_app). split; [apply prefix_nil|done].
Qed.

End Yields.

Section NotebookFits.

Context (ext : externals).

Lemma fits_app t1 t2 : fits (t1 ++ t2) = fits t1 ++ fits t2.
Proof. apply omap_app. Qed.

Lemma fits_none {A} (m : M A) d :
  emits (fun c => match c with FitFringes _ _ => False | _ => True end) m ->
  fits (trace_of (m d)) = [].
Proof.
  intros Hm. specialize (Hm d).
  induction Hm as [|e t He _ IH]; [done|].
  unfold fits in *. cbn [omap list_omap]. rewrite IH.
  destruct e as [c r]. simpl in He |- *. by destruct c.
Qed.

Ltac no_fits := intros; apply fits_none; by emits_all.

Lemma main_yields fitsimdir oitdir oifdir ifn oversample firstfew
  verbose usebp :
  yields fits
    [({| usebp := usebp; firstfew := firstfew; oitdir := oitdir;
         oifdir := oifdir; oversample := oversample;
         interactive := false; save_txt_only := false |},
      Path.joinpath fitsimdir ifn)]
    (NIRISS.main ext fitsimdir oitdir oifdir ifn oversample firstfew
       verbose usebp).
Proof.
  unfold NIRISS.main, NIRISS.raw_observables, NIRISS.examine_observables.
  apply (yields_skip fits fits_app); [no_fits|intros _].
  apply (yields_skip fits fits_app); [no_fits|intros _].
  apply (yields_then fits fits_app); [|no_fits].
  apply (yields_skip fits fits_app); [no_fits|intros _].
  apply (yields_skip fits fits_app); [no_fits|intros _].
  apply (yields_skip fits fits_app); [no_fits|intros fobj].
  apply (yields_skip fits fits_app); [no_fits|intros primary].
  apply (yields_skip fits fits_app); [no_fits|intros _].
  destruct (primary !! "FILTER"); [|apply (yields_raise fits fits_app)].
  apply (yields_then fits fits_app); [|no_fits].
  intros d. unfold fit_fringes, emit, trace_of. cbn [snd]. by split.
Qed.

Lemma implaneia_body_yields COUNT fnmir :
  yields fits
    [(notebook_fitter, Path.joinpath NIRISS.datasuperdir fnmir)]
    (NIRISS.implaneia_body ext COUNT fnmir).
Proof.
  unfold NIRISS.implaneia_body.
  do 12 (apply (yields_skip fits fits_app); [no_fits|intros ?]).
  cbv zeta. apply (yields_then fits fits_app); [|no_fits].
  apply main_yields.
Qed.

Lemma cell_implaneia_yields :
  yields fits
    ((fun f => (notebook_fitter, Path.joinpath NIRISS.datasuperdir f))
       <$> NIRISS.mirdatafiles)
    (NIRISS.cell_implaneia ext).
Proof.
  unfold NIRISS.cell_implaneia.
  apply (yields_skip fits fits_app); [no_fits|intros _].
  apply (yields_then fits fits_app); [|no_fits].
  intros d.
  rewrite <- (concat_singletons
                (fun f => (notebook_fitter, Path.joinpath NIRISS.datasuperdir f))).
  apply (for_with_reads fits
           (fun f => [(notebook_fitter, Path.joinpath NIRISS.datasuperdir f)])
           fits_app).
  - intros s x d'. apply implaneia_body_yields.
  - intros s x d'. apply implaneia_body_yields.
Qed.

Lemma niriss_notebook_yields :
  yields fits
    ((fun f => (notebook_fitter, Path.joinpath NIRISS.datasuperdir f))
       <$> NIRISS.mirdatafiles)
    (NIRISS.notebook ext).
Proof.
  unfold NIRISS.notebook.
  unfold NIRISS.cell_download, NIRISS.cell_datafiles,
    NIRISS.cell_examine_raw, NIRISS.cell_outdir, NIRISS.cell_pipelines,
    NIRISS.pipelines_body, NIRISS.cell_listing, NIRISS.listing,
    NIRISS.cell_info, NIRISS.cell_display_cal, NIRISS.cell_bp_fix,
    NIRISS.cell_display_corr, NIRISS.cell_products, NIRISS.cell_calibrate.
  do 11 (apply (yields_skip fits fits_app); [no_fits|intros ?]).
  apply (yields_then fits fits_app); [|no_fits].
  apply cell_implaneia_yields.
Qed.

End NotebookFits.

(** X15. The fringes the NIRISS notebook fits.  Whatever is on disk
    and whatever the bad-pixel correction and the listings found, the
    fits of a run are, in this order, the fit of
    [jw01093012001_03102_00001_nis_calints.fits] and the fit of
    [jw01093015001_03102_00001_nis_calints.fits] in the corrected-data
    directory, or the first of them, or none: the loop goes over its
    own two names.  When the notebook returns both fits have been
    made.  Each is made with [usebp=False], the first five
    integrations, an oversampling of seven, and not interactively. *)
Theorem notebook_fits (ext : externals) (d : gmap string node) :
  let r := NIRISS.notebook ext d in
  let all :=
    [(notebook_fitter,
      "pipeline_calibrated_data_corr/jw01093012001_03102_00001_nis_calints.fits");
     (notebook_fitter,
      "pipeline_calibrated_data_corr/jw01093015001_03102_00001_nis_calints.fits")] in
  fits (trace_of r) `prefix_of` all /\
  (returned (result_of r) -> fits (trace_of r) = all) /\
  fits (trace_of (MRS.notebook ext d)) = [].
Proof.
  cbv zeta. destruct (niriss_notebook_yields ext d) as [P E].
  split; [exact P|]. split; [exact E|].
  apply fits_none.
  unfold MRS.notebook, MRS.cell_download, MRS.cell_untar, MRS.cell_detector1,
    MRS.detector1_loop, MRS.detector1_body, MRS.cell_spec2, MRS.spec2_body,
    MRS.cell_detect, MRS.cell_header_fix, MRS.header_fix_body, MRS.cell_asn,
    MRS.cell_spec3.
  by emits_all.
Qed.

Lemma notebook_fits_witness :
  length (fits (trace_of (NIRISS.notebook Sample.quiet ∅))) = 2.
Proof.
  destruct (notebook_fits Sample.quiet ∅) as (_ & E & _).
  rewrite E; [done|by vm_compute].
Defined.

(** ** The scripts and the cells *)

Section Scripts.

Context (ext : externals).

Lemma for_with_ext {A S} (l : list A) (s : S) (body body' : S -> A -> M S) d :
  (forall s x d', body s x d' = body' s x d') ->
  for_with l s body d = for_with l s body' d.
Proof.
  intros H. revert s d. induction l as [|x l IH]; intros s d; [done|].
  cbn [for_with]. unfold bind. rewrite H.
  destruct (body' s x d) as [[[s'|e] d1] t1]; [|done]. by rewrite IH.
Qed.

Lemma mrs_script_exec : Script.exec (MRSScript.notebook ext) = MRS.notebook ext.
Proof. reflexivity. Qed.

Lemma raw_observables_exec fitsfn fitsimdir oitdir oifdir oversample firstfew
  usebp verbose d :
  Script.exec (NIRISSScript.raw_observables ext fitsfn fitsimdir oitdir oifdir
                 oversample firstfew usebp verbose) d
  = NIRISS.raw_observables ext fitsfn fitsimdir oitdir oifdir
      oversample firstfew usebp verbose d.
Proof.
  unfold NIRISSScript.raw_observables, NIRISS.raw_observables.
  cbn [Script.exec].
  do 5 (apply bind_ext; intros ? ?).
  unfold card. destruct (_ !! "FILTER") as [v|]; [|done].
  by rewrite bind_ret_l.
Qed.

Lemma main_exec fitsimdir oitdir oifdir ifn oversample firstfew verbose usebp d :
  Script.exec (NIRISSScript.main ext fitsimdir oitdir oifdir ifn oversample
                 firstfew verbose usebp) d
  = NIRISS.main ext fitsimdir oitdir oifdir ifn oversample firstfew
      verbose usebp d.
Proof.
  unfold NIRISSScript.main, NIRISS.main. cbn [Script.exec].
  do 2 (apply bind_ext; intros ? ?).
  unfold bind. by rewrite raw_observables_exec.
Qed.

Lemma implaneia_body_exec COUNT fnmir d :
  Script.exec (NIRISSScript.implaneia_body ext COUNT fnmir) d
  = NIRISS.implaneia_body ext COUNT fnmir d.
Proof.
  unfold NIRISSScript.implaneia_body, NIRISS.implaneia_body.
  cbn [Script.exec]. cbv zeta.
  do 12 (apply bind_ext; intros ? ?).
  unfold bind. by rewrite main_exec.
Qed.

Lemma cell_implaneia_exec d :
  Script.exec (NIRISSScript.cell_implaneia ext) d = NIRISS.cell_implaneia ext d.
Proof.
  unfold NIRISSScript.cell_implaneia, NIRISS.cell_implaneia.
  cbn [Script.exec]. apply bind_ext. intros _ d'.
  unfold bind. rewrite (for_with_ext _ _ _ (NIRISS.implaneia_body ext)); [done|].
  intros s x d''. apply implaneia_body_exec.
Qed.

Lemma niriss_script_exec d :
  Script.exec (NIRISSScript.notebook ext) d = NIRISS.notebook ext d.
Proof.
  unfold NIRISSScript.notebook, NIRISS.notebook. cbn [Script.exec].
  do 11 (apply bind_ext; intros ? ?).
  unfold bind. by rewrite cell_implaneia_exec.
Qed.

End Scripts.

Section ScriptTests.

Context (ext : externals).

Lemma mrs_script_tests : Script.tests mrs_tests (MRSScript.notebook ext).
Proof.
  unfold MRSScript.notebook, MRSScript.cell_download, MRSScript.cell_untar,
    MRSScript.cell_detector1, MRSScript.detector1_loop,
    MRSScript.detector1_body, MRSScript.cell_spec2, MRSScript.spec2_body,
    MRSScript.cell_detect, MRSScript.cell_header_fix,
    MRSScript.header_fix_body, MRSScript.cell_asn, MRSScript.cell_spec3.
  cbn [Script.tests mrs_tests].
  repeat (first [split | intros ? | exact I]);
    first [by left | by right | repeat (first [by left | right])].
Qed.

Lemma niriss_script_tests :
  Script.tests niriss_tests (NIRISSScript.notebook ext).
Proof.
  unfold NIRISSScript.notebook, NIRISSScript.cell_download,
    NIRISSScript.cell_datafiles, NIRISSScript.cell_examine_raw,
    NIRISSScript.cell_outdir, NIRISSScript.cell_pipelines,
    NIRISSScript.pipelines_body, NIRISSScript.cell_listing,
    NIRISSScript.listing, NIRISSScript.cell_info,
    NIRISSScript.cell_display_cal, NIRISSScript.cell_bp_fix,
    NIRISSScript.cell_display_corr, NIRISSScript.cell_implaneia,
    NIRISSScript.implaneia_body, NIRISSScript.main,
    NIRISSScript.raw_observables, NIRISSScript.examine_observables,
    NIRISSScript.cell_products, NIRISSScript.cell_calibrate.
  cbn [Script.tests niriss_tests].
  repeat (first [split | intros ? | exact I]);
    first [reflexivity | by left | by right].
Qed.

End ScriptTests.

Section ScriptTestsMade.

Context (ext : externals).

Lemma tests_weaken {A} (X Y : Script.cond -> Prop) (s : Script.t A) :
  (forall c, X c -> Y c) -> Script.tests X s -> Script.tests Y s.
Proof.
  intros HXY. induction s as [A m|A B s IHs k IHk|A c yes IHy no IHn|l body IH|S l s body IH];
    cbn [Script.tests].
  - done.
  - intros [Hs Hk]. split; [by apply IHs|]. intros a. by apply IHk.
  - intros (Hc & Hy & Hn). split; [by apply HXY|]. split; [by apply IHy|by apply IHn].
  - intros H x. by apply IH.
  - intros H s' x. by apply IH.
Qed.

Ltac open_tests :=
  repeat match goal with
         | H : _ /\ _ |- _ => destruct H
         | H : True |- _ => clear H
         | H : unit -> _ |- _ => specialize (H tt)
         end.

(** The MRS notebook makes each of the tests of [mrs_tests]. *)
Lemma mrs_tests_made (X : Script.cond -> Prop) :
  Script.tests X (MRSScript.notebook ext) -> forall c, mrs_tests c -> X c.
Proof.
  unfold MRSScript.notebook, MRSScript.cell_download, MRSScript.cell_untar,
    MRSScript.cell_detector1, MRSScript.detector1_loop,
    MRSScript.cell_spec2.
  cbn [Script.tests]. intros H.
  destruct H as (Hdown & H). specialize (H tt).
  destruct H as (Huntar & H). specialize (H tt).
  destruct H as (_ & H). specialize (H tt).
  destruct H as (Hspec2 & _).
  destruct Hspec2 as (_ & Hspec2). specialize (Hspec2 []).
  destruct Hspec2 as (_ & Hspec2). specialize (Hspec2 []).
  destruct Hspec2 as (Hshort & Hlong). specialize (Hlong tt).
  assert (forall hardcoded f,
            Script.tests X (MRSScript.spec2_body ext hardcoded f) ->
            X (Script.SameName f hardcoded)) as Hbody.
  { intros hardcoded f Hb. unfold MRSScript.spec2_body in Hb.
    cbn [Script.tests] in Hb. destruct Hb as (_ & Hb). specialize (Hb tt).
    destruct Hb as (_ & Hb). specialize (Hb ("", "")).
    by destruct Hb as ((Hc & _) & _). }
  open_tests.
  intros [p|p|v|f hardcoded]; cbn [mrs_tests]; try done.
  - intros Hp. repeat (apply elem_of_cons in Hp as [->|Hp]; [done|]).
    by inversion Hp.
  - intros [-> | ->]; apply Hbody; [apply Hshort|apply Hlong].
Qed.

(** The NIRISS notebook makes each of the tests of [niriss_tests]. *)
Lemma niriss_tests_made (X : Script.cond -> Prop) :
  Script.tests X (NIRISSScript.notebook ext) -> forall c, niriss_tests c -> X c.
Proof.
  unfold NIRISSScript.notebook, NIRISSScript.cell_download,
    NIRISSScript.cell_outdir.
  cbn [Script.tests]. intros H.
  destruct H as ((Hbox & _) & H). specialize (H tt).
  destruct H as (_ & H). specialize (H []).
  destruct H as (_ & H). specialize (H tt).
  destruct H as ((Hout & _) & H). specialize (H tt).
  destruct H as (_ & H). specialize (H tt).
  destruct H as (_ & H). specialize (H ([], [], [], [])).
  destruct H as (_ & H). specialize (H tt).
  destruct H as (_ & H). specialize (H tt).
  destruct H as (_ & H). specialize (H tt).
  destruct H as (_ & H). specialize (H []).
  destruct H as (_ & H). specialize (H tt).
  destruct H as (Himp & _).
  unfold NIRISSScript.cell_implaneia in Himp. cbn [Script.tests] in Himp.
  destruct Himp as (_ & Himp). specialize (Himp tt).
  destruct Himp as (Hloop & _). specialize (Hloop 0 "").
  unfold NIRISSScript.implaneia_body, NIRISSScript.main in Hloop.
  cbn [Script.tests] in Hloop. cbv zeta in Hloop.
  destruct Hloop as (_ & Hloop). specialize (Hloop tt).
  destruct Hloop as (_ & Hloop). specialize (Hloop ∅).
  destruct Hloop as (_ & Hloop). specialize (Hloop (HStr "")).
  destruct Hloop as (_ & Hloop). specialize (Hloop tt).
  destruct Hloop as (_ & Hloop). specialize (Hloop (HStr "")).
  destruct Hloop as (_ & Hloop). specialize (Hloop tt).
  destruct Hloop as (_ & Hloop). specialize (Hloop (HStr "")).
  destruct Hloop as (_ & Hloop). specialize (Hloop tt).
  destruct Hloop as (_ & Hloop). specialize (Hloop (HStr "")).
  destruct Hloop as (_ & Hloop). specialize (Hloop "").
  destruct Hloop as (_ & Hloop). specialize (Hloop tt).
  destruct Hloop as (_ & Hloop). specialize (Hloop tt).
  destruct Hloop as (((Hverbose & _) & _) & _).
  intros [p|p|v|f hardcoded]; cbn [niriss_tests]; try done.
  - by intros [-> | ->].
  - by intros ->.
Qed.

End ScriptTestsMade.

(** C3, as the code has it.  The notebooks branch in more places than
    their loops and their skip-download checks.  Written out as
    scripts, cell by cell, they are loops over lists of file names,
    statements, and tests of these conditions and no others: in the
    MRS notebook, whether each of the three archives exists, whether
    each of the three directories unpacked from them exists, and, in
    each calwebb_spec2 loop, whether the current file name is the
    hard-coded name of that loop; in the NIRISS notebook, whether the
    archive is missing, whether the output directory is missing, and
    [verbose] in [raw_observables] and [main], which is [True] in
    every call the notebook makes.  Each of these tests is made.  The
    comparison of the calwebb_spec2 loops decides [cube_build.skip],
    which is set on every file but the one with the hard-coded name.
    No other attribute of a pipeline object, the output name apart,
    depends on the file: every calwebb_detector1 run has [refpix.skip]
    and nothing else, every calwebb_spec2 run has [straylight.skip]
    and [extract_1d.skip], the calwebb_spec3 run and the NIRISS
    Detector1 and Image2 runs have one fixed set each. *)
Theorem tests_and_flags (ext : externals) :
  Script.exec (MRSScript.notebook ext) = MRS.notebook ext /\
  (forall d, Script.exec (NIRISSScript.notebook ext) d = NIRISS.notebook ext d) /\
  (forall X : Script.cond -> Prop,
     Script.tests X (MRSScript.notebook ext) <-> (forall c, mrs_tests c -> X c)) /\
  (forall X : Script.cond -> Prop,
     Script.tests X (NIRISSScript.notebook ext) <->
     (forall c, niriss_tests c -> X c)) /\
  emits mrs_flags (MRS.notebook ext) /\
  emits niriss_flags (NIRISS.notebook ext) /\
  (forall hardcoded f d,
     Py.count "." f = 1 ->
     exists cfg,
       configured_runs (trace_of (MRS.spec2_body ext hardcoded f d))
         = [(Spec2, cfg, f)] /\
       cfg !! "cube_build.skip"
         = (if String.eqb f hardcoded then None else Some (ABool true)) /\
       cfg !! "straylight.skip" = Some (ABool true) /\
       cfg !! "extract_1d.skip" = Some (ABool true)).
Proof.
  split; [apply mrs_script_exec|]. split; [apply niriss_script_exec|].
  split.
  { intros X. split; [apply mrs_tests_made|].
    intros H. by apply (tests_weaken mrs_tests X), mrs_script_tests. }
  split.
  { intros X. split; [apply niriss_tests_made|].
    intros H. by apply (tests_weaken niriss_tests X), niriss_script_tests. }
  split; [apply mrs_notebook_flags|]. split; [apply niriss_notebook_flags|].
  intros hardcoded f d Hdot.
  rewrite (spec2_body_parsed ext hardcoded f d Hdot). cbv zeta.
  exists (spec2_config hardcoded f (base_of f)).
  unfold trace_of. cbn [snd]. unfold spec2_config.
  destruct (String.eqb f hardcoded); (split; [done|]); by simplify_map_eq.
Qed.

Lemma tests_and_flags_witness :
  exists cfg,
    configured_runs
      (trace_of (MRS.spec2_body Sample.quiet MRS.short_cube_rate
                   "det_image_seq2_MIRIFUSHORT_12LONGexp1125354_rate.fits"
                   Sample.rates))
      = [(Spec2, cfg, "det_image_seq2_MIRIFUSHORT_12LONGexp1125354_rate.fits")] /\
    cfg !! "cube_build.skip" = Some (ABool true).
Proof.
  destruct (tests_and_flags Sample.quiet) as (_ & _ & _ & _ & _ & _ & H).
  destruct (H MRS.short_cube_rate
              "det_image_seq2_MIRIFUSHORT_12LONGexp1125354_rate.fits"
              Sample.rates) as (cfg & Hruns & Hcube & _).
  - by vm_compute.
  - exists cfg. split; [exact Hruns|exact Hcube].
Defined.
